(* ===== verification/_CoqProject ===== *)
-Q . S2P
Prelude.v
PyCore.v
Literals.v
Random.v
Candidate.v
TestCases.v
Driver.v
Invariant.v
Totality.v
Typing.v
HeapTyping.v
Contract.v
Soundness.v
Reference.v
AntiCheat.v
Isolation.v
