(* ===== verification/Prelude.v ===== *)
(** * A verification development of the grading harness [src/secret_tests/driver.py]

    ** The program

    [driver.py] grades a submitted Python module against a fixed contract.
    [test_student_code] (lines 8-207) deletes an old [report.txt], loads
    the module, and stops with a single TC1 failure line when the module
    has no class [FitnessTracker].  Otherwise it instantiates the class,
    compares the parameter names of four required methods with
    [expected_signatures] (lines 29-43), draws three random user names
    ([random_username], lines 46-57) and two calorie amounts (lines 60-61),
    and runs five test cases in order, each in its own [try ... except
    Exception] block: TC1 [register_user], TC2 [log_workout], TC3
    [calculate_average_calories], HTC1 [generate_progress_report], HTC2
    [log_workout] on an absent user.  Each case appends one line to
    [results]; the lines are printed and written by [write_report]
    (lines 209-211).  The harness and the candidate interact through
    shared, mutable dicts: the harness builds a dict, the candidate
    mutates or returns it, the harness reads it back.

    ** The library (files in dependency order)

    - [Prelude]: this header; the monad [SE] of state, exceptions and
      divergence (with stdpp's [MRet]/[MBind]/[MThrow]); [se_try] for
      [try/except]; the program logic [yields] (property of returned
      values) and [preserves] (state invariant on every exit) with the
      tactic [logic_step]; Python string helpers ([py_join], [nl]).
    - [PyCore]: the Python the harness executes.  Values ([value]): None,
      bool, int (Z), float (Q), str, and references to dicts on a heap
      ([heap], a stdpp [gmap] from locations to insertion-ordered
      association lists), so that aliasing is explicit.  Exceptions
      ([exn]: class name and [str(e)]), [is_exception] for [except
      Exception].  The operations [in], [d[k]], [d.get(k)], [==],
      [isinstance], [abs(x - y) < t], [str]/[repr] (with the [{...}] guard
      of recursive dicts).  The [world]: heap, random state, standard
      output, the report file, and the trace of candidate calls.
    - [Literals]: the interface [PyLiteral] of a printer with a reader
      that is its left inverse, with instances for [repr] of a string and
      of a list of strings ([read_str_list]), and injectivity of printing.
    - [Random]: the [random] module as an interface ([RandomSource]: a
      state with [randbelow] and its range law), [choice], [randint],
      and [random_username_loop]/[random_username] (lines 46-52).
    - [Candidate]: the submitted module as a record of operations
      ([student_module], [tracker_class], [attr]); [call_method];
      [expected_signatures], [sig_failure], [signature_check],
      [signature_failures] (lines 29-43) and the guard of every case
      ([signature_guard], lines 66-67 and the four copies); the reader
      [read_sig_failure] of the failure texts and the single-scan guard
      [signature_guard_ref].
    - [TestCases]: [tc1_body] ... [htc2_body] (lines 64-204), each a
      computation returning the line it appends, [run_case] for the
      [except Exception as e] branch, the lines' texts.
    - [Driver]: [write_report], [test_student_code] and [main] (the
      [__main__] block, lines 213-215).
    - [Invariant]: the heap invariant [heap_wf] is kept by every step of
      the harness ([inv_step_*], the tactic [wf_solve]) and so by every
      run whose candidate code keeps it.
    - [Totality]: [exn_safe] (a computation returns or raises an
      [Exception]) and its closure lemmas ([safe_*], the tactic
      [safe_solve]); every test-case body is safe when the candidate's
      methods are, so every case returns its line.
    - [Typing]: the argument types of the contract table ([args_typed]),
      the restriction of a class to them ([restrict_class]) and the
      lockstep comparison of two runs ([bind_ext], [typed_solve]).
    - [HeapTyping]: well-typed values ([val_ok]: a reference points to
      an allocated object), closed heaps ([heap_closed]), heap growth
      ([heap_le], a preorder with [Proper] instances), and a
      weakest-precondition judgement [hwp] on the heap with its rules and
      the tactic [hwp_solve]; the candidate's side is [class_closed].
    - [Contract]: the contract of spec section 6 as an interface
      ([class_contract], a record of laws on the heap-level bodies of the
      four methods: [register_law], [log_law], [log_absent_law],
      [average_law], [report_law]), symbolic runs of each test case on a
      class that meets it, and the completeness of the whole run.
    - [Soundness]: what a pass line certifies.  Inversion lemmas of the
      primitives ([inv_*]), the tactic [invert_run], and for each case a
      predicate ([tc1_certificate] ...) stating what its checks establish
      about the candidate's outputs on the case's fixtures.
    - [Reference]: a candidate written from the contract table
      ([ref_module]), the proof that it meets [class_contract], the
      concrete runs and the witnesses.
    - [AntiCheat]: what the random fixtures of TC1, TC2 and TC3 rule
      out: hard-coded candidates ([constant_average_class],
      [fixed_amount_class], [fixed_name_class], [name_blind]) and the
      draws on which they still pass.
    - [Isolation]: a candidate that keeps state in its instance
      ([stateful_class]) and the effect of the shared tracker.

    ** What is proved

    The claims C1-C21, in order of importance:
    - The report invariant (C1, [Driver.report_one_line_per_case]): a
      completed run writes one line per test case in order, each the pass
      line or a failure line of its case, whatever the candidate does; the
      short-circuit writes the single TC1 line and prints nothing.  It
      rests on per-case lemmas ([tc1_line] ..., by [yields]) and on frame
      lemmas (no test case and no candidate call touches standard output
      or the report, by [preserves]).
    - Completeness (C2, [Contract.harness_complete]): for every module
      whose class meets [class_contract] and every random state, the run
      completes, TC1, TC2, TC3 and HTC2 pass, and HTC1 passes exactly when
      the three drawn names are pairwise distinct.  It is proved against
      the interface only, by symbolic execution: run lemmas
      ([run_bind_ok], [run_alloc_dict], [run_call_method_ok], the check
      runs on records [rec_at]) and the tactic [sym_ok].  The reference
      class discharges the interface ([Reference.ref_class_contract]),
      which makes the theorem's hypotheses satisfiable.
    - HTC2 reports a pass for a module with no usable [log_workout],
      because its guard raises inside its own [try] (C3).
    - Soundness (C4-C8): no candidate passes HTC1 unless the three names
      are distinct (C4); a pass line of TC1, TC2, TC3 or HTC2 certifies
      what [tc1_certificate] ... [htc2_certificate] state (C5-C8).
    - Totality (C9, [Totality.harness_completes]): the run completes and
      writes its report whenever the module code and the constructor
      return, no required name is bound to a non-callable value, and
      every method returns or raises an [Exception].
    - Types (C10, [Typing.harness_calls_well_typed]): every call the
      harness makes passes the contract's argument types, so a run is
      unchanged when the candidate rejects all others.
    - The signature check (C11): the [startswith] guard of each case finds
      exactly that method's own failure, because no required name is a
      prefix of another's failure text.
    - Errors: a run that aborts (an uncaught [SystemExit], a non-callable
      attribute, a hanging method) leaves no report (C12); an [Exception]
      of the candidate becomes its case's failure line (C13); a required
      name bound to a non-callable value aborts the run although spec
      section 7 treats structural faults as per-case failures (C14).
    - The generator: [random_username]'s loop returns on its first
      iteration for any fuel (C15), so its rejection test is dead code.
    - Round trips: the report file read back line by line gives the lines
      when none contains a newline (C16); a signature failure text reads
      back as the two parameter lists (C17, through [PyLiteral]).
    - Anti-cheat randomisation: a [register_user] that cannot tell names
      apart ([name_blind]) passes TC1 only on names that its output for a
      blank name already holds (C18); a constant
      [calculate_average_calories] passes TC3 only when the four draws TC3
      makes from its random state give quotients within 0.02 (C19).
    - The checks of TC3 and TC2 on wrong answers: on TC3's ranges the
      tolerance test accepts floor division exactly when the divisor
      divides the total (C20); a [log_workout] returning a non-dict makes
      TC2's failure message raise, so the reported reason is an
      [AttributeError] text (C21).

    Supporting results that are not claims: the heap invariant
    ([Invariant.heap_wf_invariant]) and closed heaps
    ([HeapTyping.heap_closed_invariant]) kept by every run whose candidate
    keeps them; termination of [repr] within its fuel
    ([PyCore.py_repr_total]) and its string round trip
    ([PyCore.str_repr_roundtrip]); the equivalence of the guard's
    [any]/[next] pair with one [find] ([Candidate.signature_guard_equiv])
    and of the loop of lines 37-43 with a comprehension
    ([Totality.signature_failures_equiv]); and concrete runs evaluated by
    [vm_compute] in [Reference], [AntiCheat] and [Isolation] that exhibit
    the findings (names that collide, the multi-line report, the shared
    tracker, draws on which hard-coded answers pass).

    ** Fuel and bounds

    [random_username_loop] runs its body at most [fuel] times and
    diverges when the fuel is spent; [random_username] uses 1, which C15
    shows equal to every positive fuel, so the model is exact.  [repr]
    ([py_repr_fuel]) gets one level per heap object plus one
    ([repr_fuel]); the [{...}] guard stops cycles, and [py_repr_total]
    shows this fuel is never exhausted.  Integers are Python's unbounded
    ints (Z); no width applies.  The heap invariant [heap_wf] (every
    object below the allocation pointer, every dict with unique keys) is
    what the contract laws assume and re-establish.

    ** What is not modelled

    - Floats are the exact rationals they denote, and the tolerance is
      exactly 1/100; for the divisions of TC3 (numerator 500 to 1000,
      divisor 2 to 5) the double's rounding error is below 1e-13, far from
      the tolerance, so the checks of TC3 are exact there.  Outside these
      ranges they are not: [abs(501 // 100 - 501 / 100) < 0.01] holds in
      Python and fails in the model, which is why C20 is stated on TC3's
      ranges only.  Python's
      shortest-repr printing of floats is a parameter ([FloatRepr]).
    - Dict keys are strings only; the candidate's methods are total Rocq
      functions on the heap (a hanging method is a [Diverge] result); a
      candidate cannot print, write files or use [random].
    - The file-system paths of lines 9-10 and 214 and [os.makedirs] have
      no effect on the results; [main] takes the module found at the
      path as its argument.
    - Exception classes are known by name only: [is_exception] treats
      [BaseException], [SystemExit], [KeyboardInterrupt], [GeneratorExit]
      and [BaseExceptionGroup] as outside [except Exception]; a
      candidate's own subclass of [BaseException] is not modelled.
    - The exact message texts of Python 3.12 are used for the built-in
      errors the harness can trigger ([KeyError], [TypeError],
      [AttributeError]).

    ** Open ends

    The anti-cheat bound of HTC1 (a report that ignores its dataset) is
    not stated; it would follow [tc1_name_blind] through
    [htc1_certificate].  The interfaces [class_contract] (completeness)
    and [class_closed] (closed heaps) are separate hypotheses; the
    reference class meets both ([ref_class_contract], [ref_class_closed]).
    Probabilities of the collisions the findings describe (two equal
    names, two equal amounts) are stated as the existence of the draws,
    not as measures. *)

From Stdlib Require Import String.
From stdpp Require Import base list strings.

(** * Prelude: the state/exception/divergence monad and shared lemmas

    The harness threads three kinds of effect through every line:
    mutation of shared Python objects, exceptions caught per test case
    ([try ... except Exception]), and calls into candidate code that may
    never return.  [SE S E A] is a state monad over a state [S] whose
    computations end in a value, a raised exception of type [E], or
    divergence. *)

Inductive outcome (E A : Type) : Type :=
  | Ok (a : A)
  | Raise (e : E)
  | Diverge.
Arguments Ok {E A} a.
Arguments Raise {E A} e.
Arguments Diverge {E A}.

Definition SE (S E A : Type) : Type := S -> outcome E A * S.

#[export] Instance SE_ret {S E} : MRet (SE S E) := fun A a s => (Ok a, s).
#[export] Instance SE_bind {S E} : MBind (SE S E) := fun A B k c s =>
  match c s with
  | (Ok a, s') => k a s'
  | (Raise e, s') => (Raise e, s')
  | (Diverge, s') => (Diverge, s')
  end.
#[export] Instance SE_throw {S E} : MThrow E (SE S E) := fun A e s => (Raise e, s).

Section Monad.
Context {S E : Type}.

Definition se_get : SE S E S := fun s => (Ok s, s).
Definition se_put (s : S) : SE S E unit := fun _ => (Ok (), s).
Definition se_modify (f : S -> S) : SE S E unit := fun s => (Ok (), f s).
Definition se_diverge {A} : SE S E A := fun s => (Diverge, s).

(** [try c except h]: exceptions for which [catches] holds are handed
    to [h], in the state the failing computation left behind (Python
    does not roll mutations back); others and divergence propagate. *)
Definition se_try {A} (catches : E -> bool) (c : SE S E A) (h : E -> SE S E A)
  : SE S E A := fun s =>
  match c s with
  | (Raise e, s') => if catches e then h e s' else (Raise e, s')
  | r => r
  end.

(** Short-circuit [and] of two effectful tests, as Python's [and]. *)
Definition se_and (c1 c2 : SE S E bool) : SE S E bool :=
  b ← c1; if b : bool then c2 else mret false.

(** [c1 and c2 and ... and cn] *)
Fixpoint se_all (cs : list (SE S E bool)) : SE S E bool :=
  match cs with
  | [] => mret true
  | c :: cs' => se_and c (se_all cs')
  end.

Lemma run_bind_inv {A B} (c : SE S E A) (k : A -> SE S E B) s b s'' :
  (c ≫= k) s = (Ok b, s'') -> exists a s', c s = (Ok a, s') /\ k a s' = (Ok b, s'').
Proof.
  cbv [mbind SE_bind]. destruct (c s) as [[a| |] s1]; try congruence. eauto.
Qed.

Lemma run_ret {A} (a : A) s : (mret a : SE S E A) s = (Ok a, s).
Proof. reflexivity. Qed.

Lemma run_throw {A} (e : E) s : (mthrow e : SE S E A) s = (Raise e, s).
Proof. reflexivity. Qed.

Lemma run_bind_ok {A B} (c : SE S E A) (k : A -> SE S E B) s a s' :
  c s = (Ok a, s') -> (c ≫= k) s = k a s'.
Proof. intros H. cbv [mbind SE_bind]. by rewrite H. Qed.

Lemma run_and_true (c1 c2 : SE S E bool) s s1 :
  c1 s = (Ok true, s1) -> se_and c1 c2 s = c2 s1.
Proof. intros Hc. unfold se_and. by rewrite (run_bind_ok _ _ _ _ _ Hc). Qed.

Lemma run_and_false (c1 c2 : SE S E bool) s s1 :
  c1 s = (Ok false, s1) -> se_and c1 c2 s = (Ok false, s1).
Proof. intros Hc. unfold se_and. by rewrite (run_bind_ok _ _ _ _ _ Hc). Qed.

Lemma run_and_pure (c1 c2 : SE S E bool) s b1 b2 :
  c1 s = (Ok b1, s) -> c2 s = (Ok b2, s) -> se_and c1 c2 s = (Ok (b1 && b2), s).
Proof. intros H1 H2. unfold se_and. rewrite (run_bind_ok _ _ _ _ _ H1). by destruct b1. Qed.

Lemma run_all_cons_true (c : SE S E bool) cs s s1 :
  c s = (Ok true, s1) -> se_all (c :: cs) s = se_all cs s1.
Proof. apply run_and_true. Qed.

Lemma run_all_cons_false (c : SE S E bool) cs s s1 :
  c s = (Ok false, s1) -> se_all (c :: cs) s = (Ok false, s1).
Proof. apply run_and_false. Qed.

Lemma run_all_nil s : se_all [] s = (Ok true, s).
Proof. reflexivity. Qed.

Lemma run_bind_raise {A B} (c : SE S E A) (k : A -> SE S E B) s e s' :
  c s = (Raise e, s') -> (c ≫= k) s = (Raise e, s').
Proof. intros H. cbv [mbind SE_bind]. by rewrite H. Qed.

Lemma run_bind_diverge {A B} (c : SE S E A) (k : A -> SE S E B) s s' :
  c s = (Diverge, s') -> (c ≫= k) s = (Diverge, s').
Proof. intros H. cbv [mbind SE_bind]. by rewrite H. Qed.

Lemma run_try_ok {A} catches (c : SE S E A) h s a s' :
  c s = (Ok a, s') -> se_try catches c h s = (Ok a, s').
Proof. intros H. unfold se_try. by rewrite H. Qed.

Lemma run_try_caught {A} catches (c : SE S E A) h s e s' :
  c s = (Raise e, s') -> catches e = true -> se_try catches c h s = h e s'.
Proof. intros H Hc. unfold se_try. by rewrite H, Hc. Qed.

Lemma run_try_uncaught {A} catches (c : SE S E A) h s e s' :
  c s = (Raise e, s') -> catches e = false -> se_try catches c h s = (Raise e, s').
Proof. intros H Hc. unfold se_try. by rewrite H, Hc. Qed.

Lemma run_try_diverge {A} catches (c : SE S E A) h s s' :
  c s = (Diverge, s') -> se_try catches c h s = (Diverge, s').
Proof. intros H. unfold se_try. by rewrite H. Qed.

(** The monad laws, pointwise in the start state. *)
Lemma bind_ret_l {A B} (a : A) (k : A -> SE S E B) s :
  (mret a ≫= k) s = k a s.
Proof. reflexivity. Qed.

Lemma bind_ret_r {A} (c : SE S E A) s : (c ≫= mret) s = c s.
Proof. cbv [mbind SE_bind mret SE_ret]. by destruct (c s) as [[] ?]. Qed.

Lemma bind_assoc {A B C} (c : SE S E A) (f : A -> SE S E B) (g : B -> SE S E C) s :
  ((c ≫= f) ≫= g) s = (c ≫= (fun a => f a ≫= g)) s.
Proof. cbv [mbind SE_bind]. by destruct (c s) as [[] ?]. Qed.
End Monad.

(** ** A small program logic

    [yields Q c]: every value [c] returns satisfies [Q] (raising and
    diverging satisfy it vacuously).  [preserves I c]: [c] keeps the state
    invariant [I] on every exit, normal, exceptional or divergent. *)

Section Logic.
Context {S E : Type}.

Definition yields {A} (Q : A -> Prop) (c : SE S E A) : Prop :=
  forall s a s', c s = (Ok a, s') -> Q a.

Definition preserves {A} (I : S -> Prop) (c : SE S E A) : Prop :=
  forall s r s', I s -> c s = (r, s') -> I s'.

Lemma yields_run {A} (Q : A -> Prop) (c : SE S E A) s a s' :
  yields Q c -> c s = (Ok a, s') -> Q a.
Proof. intros Hc Hr. eapply Hc; eauto. Qed.

Lemma yields_ret {A} (Q : A -> Prop) a : Q a -> yields Q (mret a).
Proof. intros HQ s a' s' [= <- _]. exact HQ. Qed.

Lemma yields_throw {A} (Q : A -> Prop) (e : E) : yields Q (mthrow e).
Proof. by intros s a s'. Qed.

Lemma yields_bind {A B} (Q : B -> Prop) (c : SE S E A) (k : A -> SE S E B) :
  (forall a, yields Q (k a)) -> yields Q (c ≫= k).
Proof.
  intros Hk s b s'. cbv [mbind SE_bind].
  destruct (c s) as [[a| |] s1]; [apply Hk | done | done].
Qed.

Lemma yields_try {A} (Q : A -> Prop) f (c : SE S E A) h :
  yields Q c -> (forall e, yields Q (h e)) -> yields Q (se_try f c h).
Proof.
  intros Hc Hh s a s'. unfold se_try.
  destruct (c s) as [[a'| e |] s1] eqn:Ec; [intros [= -> ->]; by eapply Hc | | done].
  destruct (f e); [apply Hh | done].
Qed.

Lemma yields_weaken {A} (Q Q' : A -> Prop) (c : SE S E A) :
  yields Q c -> (forall a, Q a -> Q' a) -> yields Q' c.
Proof. intros Hc HQ s a s' Ec. eauto. Qed.

Lemma frame_step {A} (I : S -> Prop) (c : SE S E A) s r s' :
  preserves I c -> c s = (r, s') -> I s -> I s'.
Proof. intros Hc Hr HI. eapply Hc; eauto. Qed.

Lemma preserves_ret {A} I (a : A) : preserves I (mret a).
Proof. by intros s r s' HI [= _ <-]. Qed.

Lemma preserves_throw {A} I (e : E) : preserves (A:=A) I (mthrow e).
Proof. by intros s r s' HI [= _ <-]. Qed.

Lemma preserves_diverge {A} I : preserves (A:=A) I se_diverge.
Proof. by intros s r s' HI [= _ <-]. Qed.

Lemma preserves_bind {A B} I (c : SE S E A) (k : A -> SE S E B) :
  preserves I c -> (forall a, preserves I (k a)) -> preserves I (c ≫= k).
Proof.
  intros Hc Hk s r s' HI. cbv [mbind SE_bind].
  destruct (c s) as [[a| |] s1] eqn:Ec; intros Hr.
  - eapply Hk; [eapply Hc; eauto | exact Hr].
  - injection Hr as _ <-. eapply Hc; eauto.
  - injection Hr as _ <-. eapply Hc; eauto.
Qed.

Lemma preserves_try {A} I f (c : SE S E A) h :
  preserves I c -> (forall e, preserves I (h e)) -> preserves I (se_try f c h).
Proof.
  intros Hc Hh s r s' HI. unfold se_try.
  destruct (c s) as [[a| e |] s1] eqn:Ec.
  - intros [= _ <-]. eapply Hc; eauto.
  - destruct (f e).
    + intros Hr. eapply Hh; [eapply Hc; eauto | exact Hr].
    + intros [= _ <-]. eapply Hc; eauto.
  - intros [= _ <-]. eapply Hc; eauto.
Qed.

Lemma preserves_and I (c1 c2 : SE S E bool) :
  preserves I c1 -> preserves I c2 -> preserves I (se_and c1 c2).
Proof.
  intros H1 H2. apply preserves_bind; [done|]. intros []; [done | apply preserves_ret].
Qed.

Lemma preserves_all_cons I (c : SE S E bool) cs :
  preserves I c -> preserves I (se_all cs) -> preserves I (se_all (c :: cs)).
Proof. apply preserves_and. Qed.

Lemma preserves_all I (cs : list (SE S E bool)) :
  Forall (preserves I) cs -> preserves I (se_all cs).
Proof.
  induction 1; simpl; [apply preserves_ret | by apply preserves_and].
Qed.

(** [on_failure I c]: when [c] raises or diverges, [I] holds at the end;
    [always_ok c]: [c] returns normally from every state. *)
Definition on_failure {A} (I : S -> Prop) (c : SE S E A) : Prop :=
  forall s r s', I s -> c s = (r, s') -> (forall a, r <> Ok a) -> I s'.

Definition always_ok {A} (c : SE S E A) : Prop :=
  forall s, exists a s', c s = (Ok a, s').

Lemma always_ok_ret {A} (a : A) : always_ok (mret a).
Proof. intros s. eauto. Qed.

Lemma always_ok_modify (f : S -> S) : always_ok (se_modify (E:=E) f).
Proof. intros s. eauto. Qed.

Lemma always_ok_bind {A B} (c : SE S E A) (k : A -> SE S E B) :
  always_ok c -> (forall a, always_ok (k a)) -> always_ok (c ≫= k).
Proof.
  intros Hc Hk s. destruct (Hc s) as (a & s1 & E1).
  rewrite (run_bind_ok _ _ _ _ _ E1). apply Hk.
Qed.

Lemma on_failure_always_ok {A} I (c : SE S E A) : always_ok c -> on_failure I c.
Proof.
  intros Hc s r s' _ Hr Hnot. destruct (Hc s) as (a & s1 & E1).
  rewrite E1 in Hr. injection Hr as <- _. by destruct (Hnot a).
Qed.

Lemma on_failure_bind {A B} I (c : SE S E A) (k : A -> SE S E B) :
  preserves I c -> (forall a, on_failure I (k a)) -> on_failure I (c ≫= k).
Proof.
  intros Hc Hk s r s' HI. cbv [mbind SE_bind].
  destruct (c s) as [[a| |] s1] eqn:E1; intros Hr Hnot.
  - eapply Hk; [eapply Hc; eauto | exact Hr | exact Hnot].
  - injection Hr as _ <-. eapply Hc; eauto.
  - injection Hr as _ <-. eapply Hc; eauto.
Qed.
End Logic.

(** Decompose a computation into its steps for [yields] and [preserves];
    [tac] closes the leaves (primitive operations). *)
Ltac logic_step tac :=
  match goal with
  | |- yields _ (mret _) => apply yields_ret
  | |- yields _ (mthrow _) => apply yields_throw
  | |- yields _ (_ ≫= _) => apply yields_bind; intros ?
  | |- yields _ (se_try _ _ _) => apply yields_try; [|intros ?]
  | |- yields _ (if ?b then _ else _) => destruct b
  | |- preserves _ (mret _) => apply preserves_ret
  | |- preserves _ (mthrow _) => apply preserves_throw
  | |- preserves _ se_diverge => apply preserves_diverge
  | |- preserves _ (_ ≫= _) => apply preserves_bind; [|intros ?]
  | |- preserves _ (se_try _ _ _) => apply preserves_try; [|intros ?]
  | |- preserves _ (se_all []) => apply preserves_ret
  | |- preserves _ (se_all (_ :: _)) => apply preserves_all_cons
  | |- preserves _ (if ?b then _ else _) => destruct b
  | |- preserves _ (match ?x with _ => _ end) => destruct x
  | |- yields _ (match ?x with _ => _ end) => destruct x
  | |- _ => progress cbv zeta
  | |- _ => tac
  end.

Create HintDb harness.
Create Rewrite HintDb harness_run.
#[export] Hint Rewrite @run_ret @run_throw @bind_ret_l : harness_run.

(** ** Python strings *)

(** The newline character. *)
Definition nl : string := String (Ascii.ascii_of_nat 10) EmptyString.

(** [sep.join(xs)] *)
Fixpoint py_join (sep : string) (xs : list string) : string :=
  match xs with
  | [] => ""
  | [x] => x
  | x :: xs' => x ++ sep ++ py_join sep xs'
  end%string.

(** [s.split('\n')]: the pieces between newline characters. *)
Definition is_nl (c : Ascii.ascii) : bool := Ascii.eqb c (Ascii.ascii_of_nat 10).

Fixpoint has_nl (s : string) : bool :=
  match s with EmptyString => false | String c s' => is_nl c || has_nl s' end.

Fixpoint split_nl (s : string) : list string :=
  match s with
  | EmptyString => [EmptyString]
  | String c s' =>
      if is_nl c then EmptyString :: split_nl s'
      else match split_nl s' with
           | r :: rs => String c r :: rs
           | [] => [String c EmptyString]
           end
  end.

Lemma split_nl_line (l s : string) :
  has_nl l = false -> split_nl (l ++ nl ++ s)%string = l :: split_nl s.
Proof.
  induction l as [|c l IH]; simpl; [done|].
  destruct (is_nl c); [done|]. simpl. intros Hl. by rewrite IH.
Qed.

(** [needle in hay] for two Python strings: substring test. *)
Definition str_contains (needle hay : string) : bool :=
  match String.index 0 needle hay with Some _ => true | None => false end.

(** [s in [s1, ..., sn]] for a list of strings. *)
Definition str_in_list (s : string) (l : list string) : bool :=
  existsb (String.eqb s) l.

Lemma str_app_assoc (a b c : string) : (a ++ b ++ c = (a ++ b) ++ c)%string.
Proof. induction a as [|x a IH]; [reflexivity | exact (f_equal (String x) IH)]. Qed.

Lemma str_app_nil_r (a : string) : (a ++ "" = a)%string.
Proof. induction a as [|x a IH]; [reflexivity | exact (f_equal (String x) IH)]. Qed.

Lemma str_length_app (a b : string) :
  String.length (a ++ b)%string = String.length a + String.length b.
Proof. induction a as [|x a IH]; [reflexivity | simpl; lia]. Qed.

(** [s.removeprefix(p)] when [s] starts with [p]. *)
Fixpoint strip_prefix (p s : string) : option string :=
  match p, s with
  | EmptyString, _ => Some s
  | String a p', String b s' => if Ascii.eqb a b then strip_prefix p' s' else None
  | String _ _, EmptyString => None
  end.

Lemma strip_prefix_app (p s : string) : strip_prefix p (p ++ s) = Some s.
Proof. induction p as [|a p IH]; simpl; [done|]. by rewrite Ascii.eqb_refl. Qed.

Lemma strip_prefix_app_l (m p s : string) :
  strip_prefix (m ++ p) (m ++ s) = strip_prefix p s.
Proof. induction m as [|a m IH]; simpl; [done|]. by rewrite Ascii.eqb_refl. Qed.

Lemma prefix_app (p s : string) : String.prefix p (p ++ s) = true.
Proof.
  induction p as [|a p IH]; simpl; [by destruct s|].
  destruct (Ascii.ascii_dec a a); [exact IH | congruence].
Qed.

Lemma prefix_app_inv (p q s : string) :
  String.prefix p (q ++ s) = true -> String.length p <= String.length q ->
  String.prefix p q = true.
Proof.
  revert q. induction p as [|a p IH]; intros [|b q]; simpl; try done; [lia|].
  destruct (Ascii.ascii_dec a b); [|done]. intros H Hl. apply IH; [done | lia].
Qed.

Lemma prefix_mismatch (p q s : string) :
  String.prefix p q = false -> String.prefix q p = false ->
  String.prefix p (q ++ s) = false.
Proof.
  revert q. induction p as [|a p IH]; intros [|b q]; simpl; try done.
  destruct (Ascii.ascii_dec a b), (Ascii.ascii_dec b a); subst; try done; auto.
Qed.

(** The substring test by its definition: [needle] is a prefix of a
    suffix of [hay]. *)
Fixpoint contains_ref (needle hay : string) : bool :=
  String.prefix needle hay ||
  match hay with EmptyString => false | String _ h => contains_ref needle h end.

Lemma str_contains_ref (needle hay : string) :
  str_contains needle hay = contains_ref needle hay.
Proof.
  unfold str_contains. induction hay as [|c hay IH]; [simpl; by destruct needle|].
  cbn -[String.prefix]. destruct (String.prefix needle (String c hay)); [done|].
  cbn -[String.prefix]. rewrite <- IH. by destruct (String.index 0 needle hay).
Qed.

Lemma prefix_spec (p s : string) : String.prefix p s = true <-> exists b, s = (p ++ b)%string.
Proof.
  revert s. induction p as [|a p IH]; intros [|c s]; simpl.
  - split; eauto.
  - split; eauto.
  - split; [done | intros [b [=]]].
  - destruct (Ascii.ascii_dec a c) as [<-|Hne].
    + rewrite IH. split; intros [b E]; exists b; [by rewrite E | by injection E].
    + split; [done | intros [b [=]]; congruence].
Qed.

Lemma contains_ref_spec (needle hay : string) :
  contains_ref needle hay = true <-> exists a b, hay = (a ++ needle ++ b)%string.
Proof.
  induction hay as [|c hay IH]; cbn -[String.prefix]; rewrite orb_true_iff, prefix_spec.
  - split; [intros [[b E] | Hf]; [by exists "", b | discriminate]|].
    intros [[|x a] [b E]]; [left; by exists b | discriminate].
  - rewrite IH. split.
    + intros [[b E] | (a & b & E)]; [by exists "", b | exists (String c a), b; by rewrite E].
    + intros [[|x a] [b E]]; [left; by exists b|].
      injection E as <- E. right. by exists a, b.
Qed.

Lemma str_contains_spec (needle hay : string) :
  str_contains needle hay = true <-> exists a b, hay = (a ++ needle ++ b)%string.
Proof. rewrite str_contains_ref. apply contains_ref_spec. Qed.

Lemma existsb_find {A} (f : A -> bool) (l : list A) :
  existsb f l = match find f l with Some _ => true | None => false end.
Proof. induction l as [|x l IH]; simpl; [done|]. by destruct (f x). Qed.

Lemma str_in_list_spec (s : string) (l : list string) :
  str_in_list s l = true <-> s ∈ l.
Proof.
  unfold str_in_list. rewrite existsb_exists. split.
  - intros (x & Hx & Heq). apply String.eqb_eq in Heq. subst. by apply list_elem_of_In.
  - intros Hin. exists s. split; [by apply list_elem_of_In | apply String.eqb_refl].
Qed.

Lemma py_join_cons2 sep x y xs :
  py_join sep (x :: y :: xs) = (x ++ sep ++ py_join sep (y :: xs))%string.
Proof. reflexivity. Qed.

#[export] Hint Resolve prefix_app : harness.
#[export] Hint Rewrite prefix_app : harness_run.
