(* ===== verification/PyCore.v ===== *)
(** * PyCore: the fragment of Python the harness executes

    Values, dictionaries on a heap of shared objects, exceptions, and the
    world the harness runs in (heap, random-number state, standard output,
    the report file, and the trace of calls into candidate code).  The
    operations here are Python's own ([in], [d[k]], [d.get(k)], [==],
    [isinstance], [-] and [abs], [str]/[repr]) restricted to the values
    [driver.py] can observe; they carry no [map] entry because they model
    the language, not the repository. *)

From Stdlib Require Import QArith Qabs Ascii String DecimalString.
From stdpp Require Import base list strings gmap.
From S2P Require Import Prelude.

Open Scope string_scope.

(** ** Values and objects *)

Abbreviation loc := positive.

(** A Python value.  Floats are modelled by the exact rational they
    denote (see the header on what this abstracts); dictionaries are
    references to heap objects, so that two names may alias one dict. *)
Inductive value : Type :=
  | VNone
  | VBool (b : bool)
  | VInt (z : Z)
  | VFloat (q : Q)
  | VStr (s : string)
  | VDict (l : loc).

(** A dict object: its entries in insertion order (Python 3.7+), keys
    unique.  Keys are strings, the only keys the harness builds or looks
    up. *)
Abbreviation dict := (list (string * value)).

Fixpoint dict_lookup (d : dict) (k : string) : option value :=
  match d with
  | [] => None
  | (k', v) :: d' => if String.eqb k k' then Some v else dict_lookup d' k
  end.

(** [d[k] = v]: an existing key keeps its position, a new key goes last. *)
Fixpoint dict_set (d : dict) (k : string) (v : value) : dict :=
  match d with
  | [] => [(k, v)]
  | (k', v') :: d' =>
      if String.eqb k k' then (k', v) :: d' else (k', v') :: dict_set d' k v
  end.

(** A dict display [{k1: v1, ..., kn: vn}]: the entries are stored left
    to right, a repeated key keeping its first position and last value. *)
Definition dict_of_list (kvs : list (string * value)) : dict :=
  fold_left (fun d kv => dict_set d kv.1 kv.2) kvs [].

Record heap : Type := mkHeap { h_objs : gmap loc dict; h_next : loc }.

Definition heap_empty : heap := mkHeap ∅ 1%positive.

Definition heap_dict (h : heap) (l : loc) : dict := default [] (h_objs h !! l).

Definition heap_alloc (h : heap) (d : dict) : loc * heap :=
  (h_next h, mkHeap (<[h_next h := d]> (h_objs h)) (Pos.succ (h_next h))).

Definition heap_update (h : heap) (l : loc) (d : dict) : heap :=
  mkHeap (<[l := d]> (h_objs h)) (h_next h).

(** A dict's keys are unique. *)
Definition dict_wf (d : dict) : Prop := NoDup (map fst d).

(** Every allocated object lies below the allocation pointer and is a
    dict with unique keys. *)
Definition heap_wf (h : heap) : Prop :=
  forall l d, h_objs h !! l = Some d -> (l < h_next h)%positive /\ dict_wf d.

(** ** Exceptions *)

(** A raised exception: its class name and [str(e)]. *)
Record exn : Type := mkExn { exn_type : string; exn_str : string }.

(** [except Exception] catches every exception except the direct
    subclasses of [BaseException] outside [Exception]. *)
Definition is_exception (e : exn) : bool :=
  negb (str_in_list (exn_type e)
          ["BaseException"; "SystemExit"; "KeyboardInterrupt";
           "GeneratorExit"; "BaseExceptionGroup"]).

Definition type_error (msg : string) : exn := mkExn "TypeError" msg.
Definition attribute_error (msg : string) : exn := mkExn "AttributeError" msg.

(** ** [repr] and [str] *)

(** Python's [float.__repr__] (the shortest decimal that rounds to the
    same double) is not modelled: it is a parameter of the development. *)
Class FloatRepr := float_repr : Q -> string.

Definition z_repr (z : Z) : string := NilEmpty.string_of_int (Z.to_int z).

Definition hex_digit (n : nat) : ascii :=
  ascii_of_nat (if Nat.ltb n 10 then 48 + n else 87 + n)%nat.

(** One character of a string literal written with quote [q]. *)
Definition escape_char (q c : ascii) : string :=
  let n := nat_of_ascii c in
  if Ascii.eqb c q || Nat.eqb n 92 then String (ascii_of_nat 92) (String c EmptyString)
  else if Nat.eqb n 9 then "\t"
  else if Nat.eqb n 10 then "\n"
  else if Nat.eqb n 13 then "\r"
  else if Nat.ltb n 32 || Nat.eqb n 127 then
    String (ascii_of_nat 92) (String "x"%char
      (String (hex_digit (n / 16)) (String (hex_digit (n mod 16)) EmptyString)))
  else String c EmptyString.

Fixpoint escape_string (q : ascii) (s : string) : string :=
  match s with
  | EmptyString => EmptyString
  | String c s' => escape_char q c ++ escape_string q s'
  end.

Definition dquote : ascii := ascii_of_nat 34.
Definition squote : ascii := ascii_of_nat 39.

(** [repr(s)]: single quotes, unless [s] holds a single quote and no
    double quote. *)
Definition str_repr (s : string) : string :=
  let q := if str_contains (String squote EmptyString) s
              && negb (str_contains (String dquote EmptyString) s)
           then dquote else squote in
  String q (escape_string q s ++ String q EmptyString).

(** [repr(xs)] for a list of strings. *)
Definition str_list_repr (xs : list string) : string :=
  "[" ++ py_join ", " (map str_repr xs) ++ "]".

(** ** Reading a string literal back

    [read_str_lit] reads a Python string literal as [repr] writes it:
    the opening quote, the body with its backslash escapes (of a
    backslash, of either quote, of tab, newline and carriage return, and
    the two hex digits of [x]), and the closing quote; it returns the
    string and what follows the literal. *)
Definition backslash : ascii := ascii_of_nat 92.

Definition hex_val (c : ascii) : nat :=
  let n := nat_of_ascii c in if Nat.leb 97 n then n - 87 else n - 48.

Definition unescape_simple (d : ascii) : ascii :=
  if Ascii.eqb d "t"%char then ascii_of_nat 9
  else if Ascii.eqb d "n"%char then ascii_of_nat 10
  else if Ascii.eqb d "r"%char then ascii_of_nat 13
  else d.

Definition cons_char (c : ascii) (o : option (string * string)) : option (string * string) :=
  option_map (fun '(v, rest) => (String c v, rest)) o.

Fixpoint read_body (q : ascii) (s : string) : option (string * string) :=
  match s with
  | EmptyString => None
  | String c s' =>
      if Ascii.eqb c q then Some (EmptyString, s')
      else if Ascii.eqb c backslash then
        match s' with
        | String d s'' =>
            if Ascii.eqb d "x"%char then
              match s'' with
              | String h1 (String h2 s3) =>
                  cons_char (ascii_of_nat (hex_val h1 * 16 + hex_val h2)) (read_body q s3)
              | _ => None
              end
            else cons_char (unescape_simple d) (read_body q s'')
        | EmptyString => None
        end
      else cons_char c (read_body q s')
  end.

Definition read_str_lit (s : string) : option (string * string) :=
  match s with
  | String q s' => if Ascii.eqb q squote || Ascii.eqb q dquote then read_body q s' else None
  | EmptyString => None
  end.

(** Each escaped character reads back as itself (checked for all 256
    characters and both quotes). *)
Lemma read_escape_char (q c : ascii) (rest : string) :
  q = squote \/ q = dquote ->
  read_body q (escape_char q c ++ rest) = cons_char c (read_body q rest).
Proof. intros [-> | ->]; destruct c as [[] [] [] [] [] [] [] []]; reflexivity. Qed.

Lemma read_escape_string (q : ascii) (s rest : string) :
  q = squote \/ q = dquote ->
  read_body q (escape_string q s ++ String q rest) = Some (s, rest).
Proof.
  intros Hq. induction s as [|c s IH]; simpl.
  - by rewrite Ascii.eqb_refl.
  - by rewrite <- str_app_assoc, read_escape_char, IH.
Qed.

(** [repr] of a string (the KeyError messages of line 77 and the
    parameter lists of line 43) is read back exactly by a reader of
    Python string literals, whatever follows it: the quoting and escaping
    lose nothing and the literal ends at its own closing quote. *)
Theorem str_repr_roundtrip (s rest : string) : read_str_lit (str_repr s ++ rest) = Some (s, rest).
Proof.
  unfold str_repr. destruct (_ && _); simpl; rewrite <- str_app_assoc;
    apply read_escape_string; auto.
Qed.

Section Repr.
Context `{FloatRepr}.

(** [repr(v)] with the recursion guard of [dict.__repr__] ([{...}] for a
    dict already being printed); [fuel] bounds the nesting depth. *)
Fixpoint py_repr_fuel (fuel : nat) (h : heap) (stack : list loc) (v : value)
  : option string :=
  match v with
  | VNone => Some "None"
  | VBool b => Some (if b then "True" else "False")
  | VInt z => Some (z_repr z)
  | VFloat q => Some (float_repr q)
  | VStr s => Some (str_repr s)
  | VDict l =>
      if bool_decide (l ∈ stack) then Some "{...}" else
      match fuel with
      | O => None
      | S f =>
          items ← mapM (fun kv =>
                    r ← py_repr_fuel f h (l :: stack) kv.2;
                    Some (str_repr kv.1 ++ ": " ++ r)) (heap_dict h l);
          Some ("{" ++ py_join ", " items ++ "}")
      end
  end.

(** Enough fuel: one level per allocated object, plus one. *)
Definition repr_fuel (h : heap) : nat := S (size (h_objs h)).

(** [str(v)]: a string is itself, anything else its [repr]. *)
Definition py_str_in (h : heap) (v : value) : string :=
  match v with
  | VStr s => s
  | _ => default "" (py_repr_fuel (repr_fuel h) h [] v)
  end.
End Repr.

(** ** The world *)

Record world (R : Type) : Type := mkWorld {
  w_heap : heap;
  w_rng : R;                  (** the state of the [random] module *)
  w_stdout : list string;     (** chunks written by [print] *)
  w_report : option string;   (** contents of [report.txt], if it exists *)
  w_calls : list string       (** candidate methods called, in order *)
}.
Arguments mkWorld {R}.
Arguments w_heap {R}. Arguments w_rng {R}. Arguments w_stdout {R}.
Arguments w_report {R}. Arguments w_calls {R}.

Abbreviation PyM R := (SE (world R) exn).

Section Ops.
Context {R : Type}.

Definition set_heap (h : heap) (w : world R) : world R :=
  mkWorld h (w_rng w) (w_stdout w) (w_report w) (w_calls w).
Definition set_rng (r : R) (w : world R) : world R :=
  mkWorld (w_heap w) r (w_stdout w) (w_report w) (w_calls w).
Definition set_report (o : option string) (w : world R) : world R :=
  mkWorld (w_heap w) (w_rng w) (w_stdout w) o (w_calls w).
Definition add_stdout (s : string) (w : world R) : world R :=
  mkWorld (w_heap w) (w_rng w) (w_stdout w ++ [s]) (w_report w) (w_calls w).
Definition add_call (m : string) (w : world R) : world R :=
  mkWorld (w_heap w) (w_rng w) (w_stdout w) (w_report w) (w_calls w ++ [m]).

Definition raise {A} (e : exn) : PyM R A := mthrow e.

(** Evaluate a dict display: allocate a fresh object. *)
Definition alloc_dict (kvs : list (string * value)) : PyM R value := fun w =>
  let '(l, h) := heap_alloc (w_heap w) (dict_of_list kvs) in
  (Ok (VDict l), set_heap h w).

Definition read_dict (l : loc) : PyM R dict := fun w =>
  (Ok (heap_dict (w_heap w) l), w).

Definition type_name (v : value) : string :=
  match v with
  | VNone => "NoneType" | VBool _ => "bool" | VInt _ => "int"
  | VFloat _ => "float" | VStr _ => "str" | VDict _ => "dict"
  end.

(** [isinstance(v, dict)] and [isinstance(v, (int, float))] ([bool] is
    a subclass of [int]). *)
Definition is_dict (v : value) : bool :=
  match v with VDict _ => true | _ => false end.
Definition is_number (v : value) : bool :=
  match v with VBool _ | VInt _ | VFloat _ => true | _ => false end.

(** [k in v] for a string [k]. *)
Definition py_contains (k : string) (v : value) : PyM R bool :=
  match v with
  | VDict l => d ← read_dict l; mret (bool_decide (is_Some (dict_lookup d k)))
  | VStr s => mret (str_contains k s)
  | _ => raise (type_error ("argument of type '" ++ type_name v ++ "' is not iterable"))
  end.

(** [v.get(k, dflt)]; [v.get(k)] is [dflt = None]. *)
Definition py_get_default (v : value) (k : string) (dflt : value) : PyM R value :=
  match v with
  | VDict l => d ← read_dict l; mret (default dflt (dict_lookup d k))
  | _ => raise (attribute_error ("'" ++ type_name v ++ "' object has no attribute 'get'"))
  end.
Definition py_get (v : value) (k : string) : PyM R value := py_get_default v k VNone.

(** [v[k]]; a missing key raises [KeyError], whose [str] is the key's
    [repr]. *)
Definition py_getitem (v : value) (k : string) : PyM R value :=
  match v with
  | VDict l =>
      d ← read_dict l;
      match dict_lookup d k with
      | Some x => mret x
      | None => raise (mkExn "KeyError" (str_repr k))
      end
  | VStr _ => raise (type_error "string indices must be integers, not 'str'")
  | _ => raise (type_error ("'" ++ type_name v ++ "' object is not subscriptable"))
  end.

(** The numeric value of an [int], [bool] or [float]. *)
Definition py_num (v : value) : option Q :=
  match v with
  | VBool b => Some (if b then 1 else 0)%Q
  | VInt z => Some (inject_Z z)
  | VFloat q => Some q
  | _ => None
  end.

(** [abs(v - expected) < tol] for a float [expected]. *)
Definition py_abs_diff_lt (v : value) (expected tol : Q) : PyM R bool :=
  match py_num v with
  | Some x => mret (negb (Qle_bool tol (Qabs (x - expected))))
  | None =>
      raise (type_error ("unsupported operand type(s) for -: '" ++ type_name v
                         ++ "' and 'float'"))
  end.

(** [v == n] for an integer literal [n], and [v == s] for a string
    literal [s]. *)
Definition py_eq_int (v : value) (n : Z) : bool :=
  match v with
  | VBool b => bool_decide ((if b then 1 else 0)%Z = n)
  | VInt z => bool_decide (z = n)
  | VFloat q => Qeq_bool q (inject_Z n)
  | _ => false
  end.
Definition py_eq_str (v : value) (s : string) : bool :=
  match v with VStr s' => String.eqb s' s | _ => false end.

(** [str(v)] of an f-string field, read in the current heap. *)
Definition py_str `{FloatRepr} (v : value) : PyM R string := fun w =>
  (Ok (py_str_in (w_heap w) v), w).

(** [repr(v)] read in the current heap. *)
Definition py_repr `{FloatRepr} (v : value) : PyM R string := fun w =>
  (Ok (default "" (py_repr_fuel (repr_fuel (w_heap w)) (w_heap w) [] v)), w).
End Ops.

(** ** Runs of the primitives *)

Lemma run_alloc_dict {R} (kvs : list (string * value)) (w : world R) :
  alloc_dict kvs w =
    (Ok (VDict (heap_alloc (w_heap w) (dict_of_list kvs)).1),
     set_heap (heap_alloc (w_heap w) (dict_of_list kvs)).2 w).
Proof. reflexivity. Qed.

(** ** Standard output and the report file are untouched by the primitives *)

Definition io_frame {R} (out : list string) (rep : option string) (w : world R) : Prop :=
  w_stdout w = out /\ w_report w = rep.

Section Frame.
Context {R : Type} (out : list string) (rep : option string).

Lemma preserves_alloc_dict kvs : preserves (io_frame (R:=R) out rep) (alloc_dict kvs).
Proof. intros w res w' HI. unfold alloc_dict. destruct heap_alloc. by intros [= _ <-]. Qed.

Lemma preserves_read_dict l : preserves (io_frame (R:=R) out rep) (read_dict l).
Proof. by intros w res w' HI [= _ <-]. Qed.

Lemma preserves_py_str `{FloatRepr} v : preserves (io_frame (R:=R) out rep) (py_str v).
Proof. by intros w res w' HI [= _ <-]. Qed.

Lemma preserves_py_repr `{FloatRepr} v : preserves (io_frame (R:=R) out rep) (py_repr v).
Proof. by intros w res w' HI [= _ <-]. Qed.

Lemma preserves_raise {A} e : preserves (A:=A) (io_frame (R:=R) out rep) (raise e).
Proof. apply preserves_throw. Qed.

(** Updating the heap, the random state or the call trace. *)
Lemma preserves_modify_heap h :
  preserves (io_frame (R:=R) out rep) (se_modify (E:=exn) (set_heap h)).
Proof. by intros w res w' HI [= _ <-]. Qed.

Lemma preserves_modify_call m :
  preserves (io_frame (R:=R) out rep) (se_modify (E:=exn) (add_call m)).
Proof. by intros w res w' HI [= _ <-]. Qed.
End Frame.

Create HintDb pyframe.
#[export] Hint Resolve preserves_alloc_dict preserves_read_dict preserves_py_str
  preserves_py_repr preserves_raise preserves_modify_heap preserves_modify_call : pyframe.
#[export] Hint Unfold py_contains py_get py_get_default py_getitem py_abs_diff_lt : pyframe.

(** Prove that a computation keeps standard output and the report. *)
Ltac frame_prim :=
  first [ solve [eauto with pyframe] | progress autounfold with pyframe ].
Ltac frame_solve := repeat (logic_step frame_prim).

(** ** [repr] always finishes within [repr_fuel] *)

Lemma stack_length_le (m : gmap loc dict) (stack : list loc) :
  NoDup stack -> (forall l, l ∈ stack -> is_Some (m !! l)) -> length stack <= size m.
Proof.
  intros Hnd Hin. rewrite <- (size_list_to_set (C:=gset loc)) by done. rewrite <- (size_dom m).
  apply subseteq_size. intros l Hl. apply elem_of_list_to_set in Hl.
  by apply elem_of_dom, Hin.
Qed.

Section ReprTotal.
Context `{FloatRepr}.

Lemma py_repr_fuel_enough (fuel : nat) (h : heap) (stack : list loc) (v : value) :
  NoDup stack -> (forall l, l ∈ stack -> is_Some (h_objs h !! l)) ->
  size (h_objs h) < fuel + length stack ->
  is_Some (py_repr_fuel fuel h stack v).
Proof.
  revert stack v. induction fuel as [|f IH]; intros stack v Hnd Hin Hsize;
    destruct v as [| | | | |l]; simpl; try by eexists.
  all: case_bool_decide as Hl; [by eexists|].
  - pose proof (stack_length_le _ _ Hnd Hin). lia.
  - unfold heap_dict. destruct (h_objs h !! l) as [d|] eqn:Hd; simpl; [|by eexists].
    destruct (mapM _ d) as [items|] eqn:Hm; [by eexists|].
    exfalso. apply mapM_None_1, Exists_exists in Hm as (kv & _ & Hkv).
    destruct (IH (l :: stack) kv.2) as [r Hr].
    + by constructor.
    + intros l' [->|Hl']%elem_of_cons; [by eexists | by apply Hin].
    + simpl. lia.
    + rewrite Hr in Hkv. discriminate.
Qed.

(** [repr] of any value in any heap finishes within [repr_fuel]
    (one level per object, plus one): the recursion guard [{...}] stops
    cycles and a path without repetition visits each object once, so the
    failure messages that quote [str(res)] (lines 96, 126, 157, 184) never
    fall back to the empty default of [py_str_in]. *)
Theorem py_repr_total (h : heap) (v : value) :
  exists s, py_repr_fuel (repr_fuel h) h [] v = Some s.
Proof.
  apply py_repr_fuel_enough; [constructor | intros l Hl; by apply elem_of_nil in Hl |].
  unfold repr_fuel. simpl. lia.
Qed.
End ReprTotal.

(** ** Dicts and the heap: lookups after updates *)

Lemma dict_lookup_set_same (d : dict) (k : string) (v : value) :
  dict_lookup (dict_set d k v) k = Some v.
Proof.
  induction d as [|[k' v'] d IH]; simpl; [by rewrite String.eqb_refl|].
  destruct (String.eqb_spec k k') as [->|Hne]; simpl.
  - by rewrite String.eqb_refl.
  - apply String.eqb_neq in Hne. by rewrite Hne.
Qed.

Lemma dict_lookup_set_other (d : dict) (k k' : string) (v : value) :
  k' <> k -> dict_lookup (dict_set d k v) k' = dict_lookup d k'.
Proof.
  intros Hne. induction d as [|[k0 v0] d IH]; simpl.
  - apply String.eqb_neq in Hne. by rewrite Hne.
  - destruct (String.eqb_spec k k0) as [->|Hk]; simpl;
      destruct (String.eqb_spec k' k0); subst; done.
Qed.

Lemma dict_lookup_set (d : dict) (k k' : string) (v : value) :
  dict_lookup (dict_set d k v) k' = if String.eqb k k' then Some v else dict_lookup d k'.
Proof.
  destruct (String.eqb_spec k k') as [<-|Hk];
    [apply dict_lookup_set_same | apply dict_lookup_set_other; congruence].
Qed.

Lemma dict_lookup_nil (k : string) : dict_lookup [] k = None.
Proof. reflexivity. Qed.

(** [pts h l d]: object [l] of heap [h] is the dict [d]. *)
Definition pts (h : heap) (l : loc) (d : dict) : Prop := h_objs h !! l = Some d.

Lemma heap_dict_pts h l d : pts h l d -> heap_dict h l = d.
Proof. unfold pts, heap_dict. by intros ->. Qed.

Lemma pts_alloc_new h d : pts (heap_alloc h d).2 (heap_alloc h d).1 d.
Proof. unfold pts. simpl. by rewrite lookup_insert_eq. Qed.

Lemma pts_alloc_old h d l d' : heap_wf h -> pts h l d' -> pts (heap_alloc h d).2 l d'.
Proof.
  unfold pts. intros Hwf Hl. simpl. rewrite lookup_insert_ne; [done|].
  apply Hwf in Hl. lia.
Qed.

Lemma pts_fresh h d l d' : heap_wf h -> pts h l d' -> l <> (heap_alloc h d).1.
Proof. intros Hwf Hl. apply Hwf in Hl. simpl. lia. Qed.

Lemma pts_dict_wf h l d : heap_wf h -> pts h l d -> dict_wf d.
Proof. intros Hwf Hl. by apply Hwf in Hl as [_ ?]. Qed.

Lemma heap_wf_alloc h d : heap_wf h -> dict_wf d -> heap_wf (heap_alloc h d).2.
Proof.
  intros Hwf Hd l d'. simpl. rewrite lookup_insert_Some.
  intros [[<- <-]|[_ Hl]]; [split; [lia | done]|]. apply Hwf in Hl as [? ?]. split; [lia | done].
Qed.

Lemma heap_wf_update h l d d' :
  heap_wf h -> pts h l d' -> dict_wf d -> heap_wf (heap_update h l d).
Proof.
  intros Hwf Hl Hd l' d''. simpl. rewrite lookup_insert_Some.
  intros [[<- <-]|[_ Hl']]; [split; [by apply (Hwf l d') | done] | by apply (Hwf l' d'')].
Qed.

Lemma pts_update_same h l d : is_Some (h_objs h !! l) -> pts (heap_update h l d) l d.
Proof. intros _. unfold pts. simpl. by rewrite lookup_insert_eq. Qed.

Lemma pts_update_other h l l' d d' : l' <> l -> pts h l' d' -> pts (heap_update h l d) l' d'.
Proof. unfold pts. intros Hne Hl. simpl. by rewrite lookup_insert_ne. Qed.

Lemma heap_wf_empty : heap_wf heap_empty.
Proof. intros l d. simpl. by rewrite lookup_empty. Qed.

(** [dict_set] and dict displays keep keys unique. *)
Lemma dict_set_keys (d : dict) (k : string) (v : value) :
  map fst (dict_set d k v) = if existsb (String.eqb k) (map fst d) then map fst d
                              else app (map fst d) [k].
Proof.
  induction d as [|[k' v'] d IH]; simpl; [done|].
  destruct (String.eqb_spec k k') as [->|Hk]; simpl; [done|]. rewrite IH.
  by destruct (existsb _ _).
Qed.

Lemma dict_wf_set (d : dict) (k : string) (v : value) : dict_wf d -> dict_wf (dict_set d k v).
Proof.
  unfold dict_wf. rewrite dict_set_keys. destruct (existsb _ _) eqn:E; [done|].
  intros Hd. apply NoDup_app. split; [done|]. split; [|apply NoDup_singleton].
  intros x Hx ->%list_elem_of_singleton. apply not_true_iff_false in E. apply E.
  apply existsb_exists. exists k. split; [by apply list_elem_of_In | apply String.eqb_refl].
Qed.

Lemma dict_wf_of_list (kvs : list (string * value)) : dict_wf (dict_of_list kvs).
Proof.
  unfold dict_of_list. assert (H0 : dict_wf []) by constructor. revert H0.
  generalize (@nil (string * value)). induction kvs as [|kv kvs IH]; simpl; [done|].
  intros d Hd. apply IH, dict_wf_set, Hd.
Qed.

Lemma dict_set_new (d : dict) (k : string) (v : value) :
  ~ In k (map fst d) -> dict_set d k v = app d [(k, v)].
Proof.
  induction d as [|[k' v'] d IH]; simpl; [done|]. intros Hn.
  destruct (String.eqb_spec k k'); [subst; tauto|]. rewrite IH; [done | tauto].
Qed.

Lemma fold_dict_set_id (acc kvs : dict) :
  NoDup (map fst (app acc kvs)) ->
  fold_left (fun d kv => dict_set d kv.1 kv.2) kvs acc = app acc kvs.
Proof.
  revert acc. induction kvs as [|[k v] kvs IH]; intros acc Hnd; simpl; [by rewrite app_nil_r|].
  rewrite dict_set_new.
  - rewrite IH; [by rewrite <- app_assoc|]. by rewrite <- app_assoc.
  - rewrite map_app in Hnd. apply NoDup_app in Hnd as (_ & Hdis & _).
    intros Hin. apply (Hdis k); [by apply list_elem_of_In | apply list_elem_of_In; by left].
Qed.

(** A dict display of a list with unique keys stores that list. *)
Lemma dict_of_list_id (kvs : dict) : dict_wf kvs -> dict_of_list kvs = kvs.
Proof. intros Hd. apply (fold_dict_set_id [] kvs), Hd. Qed.

(** [{k: F(v) for k, v in d.items()}] *)
Lemma dict_lookup_map (F : value -> value) (d : dict) (u : string) :
  dict_lookup (map (fun '(k, v) => (k, F v)) d) u = option_map F (dict_lookup d u).
Proof.
  induction d as [|[k v] d IH]; simpl; [done|]. by destruct (String.eqb u k).
Qed.

Lemma dict_wf_map (F : value -> value) (d : dict) :
  dict_wf d -> dict_wf (map (fun '(k, v) => (k, F v)) d).
Proof.
  unfold dict_wf. rewrite map_map.
  by rewrite (map_ext (fun x => fst (let '(k, v) := x in (k, F v))) fst) by (intros [? ?]; done).
Qed.

(** An allocation: the new object, the old ones kept and apart from it. *)
Lemma alloc_facts (h : heap) (d : dict) (r : loc) (h1 : heap) :
  heap_alloc h d = (r, h1) -> heap_wf h -> dict_wf d ->
  pts h1 r d /\ heap_wf h1 /\ (forall l d', pts h l d' -> pts h1 l d' /\ l <> r).
Proof.
  intros E Hwf Hd. pose proof (pts_alloc_new h d) as Hn. pose proof (heap_wf_alloc h d Hwf Hd) as Hw.
  pose proof (fun l d' => pts_alloc_old h d l d' Hwf) as Ho.
  pose proof (fun l d' => pts_fresh h d l d' Hwf) as Hf. rewrite E in Hn, Hw, Ho, Hf.
  split; [done|]. split; [done|]. intros l d' Hl. split; [by apply Ho | by apply (Hf l d')].
Qed.

Lemma pts_functional (h : heap) (l : loc) (d d' : dict) : pts h l d -> pts h l d' -> d = d'.
Proof. unfold pts. congruence. Qed.

#[export] Hint Resolve pts_alloc_new pts_alloc_old heap_wf_alloc heap_wf_update
  pts_update_same pts_update_other heap_wf_empty dict_wf_set dict_wf_of_list : harness.

(** Runs of the dict operations on a dict of the heap. *)
Section DictRuns.
Context {R : Type} (w : world R) (l : loc) (d : dict).
Hypothesis Hl : pts (w_heap w) l d.

Lemma run_py_contains_dict (k : string) :
  py_contains k (VDict l) w = (Ok (bool_decide (is_Some (dict_lookup d k))), w).
Proof. unfold py_contains, read_dict. cbv [mbind SE_bind]. by rewrite (heap_dict_pts _ _ _ Hl). Qed.

Lemma run_py_getitem_dict (k : string) (v : value) :
  dict_lookup d k = Some v -> py_getitem (VDict l) k w = (Ok v, w).
Proof.
  intros Hk. unfold py_getitem, read_dict. cbv [mbind SE_bind].
  by rewrite (heap_dict_pts _ _ _ Hl), Hk.
Qed.

Lemma run_py_get_dict (k : string) :
  py_get (VDict l) k w = (Ok (default VNone (dict_lookup d k)), w).
Proof.
  unfold py_get, py_get_default, read_dict. cbv [mbind SE_bind].
  by rewrite (heap_dict_pts _ _ _ Hl).
Qed.
End DictRuns.

(** [k in v] (the [in] tests of lines 76, 84, 89, 111 and 119)
    by cases of [v]: on a dict it reads the heap and tells whether [k] is
    a key; on a string it tells whether [k] occurs in it as a substring
    (not whether the two are equal); on any other value it raises the
    [TypeError] of a non-iterable.  It never changes the world. *)
Theorem py_contains_spec {R} (k : string) (v : value) (w : world R) :
  match v with
  | VDict l => py_contains k v w =
                 (Ok (bool_decide (is_Some (dict_lookup (heap_dict (w_heap w) l) k))), w)
  | VStr s => exists b, py_contains k v w = (Ok b, w) /\
                 (b = true <-> exists a c, s = (a ++ k ++ c)%string)
  | _ => exists e, py_contains k v w = (Raise e, w) /\ exn_type e = "TypeError"
  end.
Proof.
  destruct v as [| | | |s|l]; try solve [eexists; split; reflexivity | reflexivity].
  exists (str_contains k s). split; [reflexivity | apply str_contains_spec].
Qed.
