(* ===== verification/Literals.v ===== *)
(** * Literals: Python literals printed and read back

    The harness prints strings and lists of strings with [repr] inside
    its messages (the failure texts of lines 38-43 and the [KeyError]
    texts).  [PyLiteral A] is the interface of a printer with a reader
    that is its left inverse on any continuation (the reading stops at
    the end of the literal).  Instances: strings ([str_repr] and
    [read_str_lit] of [PyCore]) and lists of strings ([str_list_repr]
    and [read_str_list], this file).  Generic consequences: a printed
    literal is injective, and the literal that opens a text is
    determined by it. *)

From Stdlib Require Import Ascii String.
From stdpp Require Import base list strings.
From S2P Require Import Prelude PyCore.

Open Scope string_scope.

Class PyLiteral (A : Type) := {
  lit_print : A -> string;
  lit_read : string -> option (A * string);
  lit_read_print a rest : lit_read (lit_print a ++ rest) = Some (a, rest)
}.

(** Reading [repr] of a list of strings back: the items, each a string
    literal, separated by [", "] and closed by ["]"]; [n] bounds the
    number of items. *)
Fixpoint read_items (n : nat) (s : string) : option (list string * string) :=
  match n with
  | O => None
  | S n' =>
      match read_str_lit s with
      | Some (x, String c s1) =>
          if Ascii.eqb c "]"%char then Some ([x], s1)
          else if Ascii.eqb c ","%char then
            match s1 with
            | String d s2 =>
                if Ascii.eqb d " "%char then
                  option_map (fun '(xs, s3) => (x :: xs, s3)) (read_items n' s2)
                else None
            | EmptyString => None
            end
          else None
      | _ => None
      end
  end.

Definition read_str_list (s : string) : option (list string * string) :=
  match s with
  | String b s' =>
      if Ascii.eqb b "["%char then
        match s' with
        | String c s'' => if Ascii.eqb c "]"%char then Some ([], s'')
                          else read_items (String.length s') s'
        | EmptyString => None
        end
      else None
  | EmptyString => None
  end.

Lemma str_repr_length (s : string) : 2 <= String.length (str_repr s).
Proof. unfold str_repr. simpl. rewrite str_length_app. simpl. match goal with |- context [String.length ?e] => generalize (String.length e) end. intros. lia. Qed.

Lemma join_repr_length (x : string) (xs : list string) (t : string) :
  S (length xs) <= String.length (py_join ", " (map str_repr (x :: xs)) ++ t).
Proof.
  revert x. induction xs as [|y xs IH]; intros x; simpl map.
  - rewrite str_length_app. pose proof (str_repr_length x). simpl. lia.
  - rewrite py_join_cons2, <- !str_app_assoc, str_length_app. simpl length.
    change (String.length (", " ++ ?w)) with (S (S (String.length w))).
    pose proof (str_repr_length x). specialize (IH y). cbn [length map] in *. lia.
Qed.

Lemma read_items_join (x : string) (xs : list string) (rest : string) (n : nat) :
  length xs < n ->
  read_items n (py_join ", " (map str_repr (x :: xs)) ++ "]" ++ rest) = Some (x :: xs, rest).
Proof.
  revert x n. induction xs as [|y xs IH]; intros x [|n] Hn; simpl in Hn; try lia.
  - cbn [map py_join read_items]. rewrite str_repr_roundtrip. reflexivity.
  - cbn [map]. rewrite py_join_cons2, <- !str_app_assoc. cbn [read_items].
    rewrite str_repr_roundtrip.
    change (", " ++ ?w) with (String ","%char (String " "%char w)). cbv iota beta.
    specialize (IH y n ltac:(lia)). cbn [map] in IH. rewrite IH. reflexivity.
Qed.

(** [repr] of a string opens with a quote. *)
Lemma str_repr_head (s t : string) :
  exists q r, str_repr s ++ t = String q r /\ Ascii.eqb q "]"%char = false.
Proof. unfold str_repr. destruct (_ && _); eexists _, _; split; reflexivity. Qed.

Lemma py_join_head (sep a : string) (l : list string) :
  exists tl, py_join sep (a :: l) = a ++ tl.
Proof.
  destruct l as [|b l]; [exists ""; by rewrite str_app_nil_r|].
  exists (sep ++ py_join sep (b :: l)). reflexivity.
Qed.

Theorem str_list_repr_roundtrip (xs : list string) (rest : string) :
  read_str_list (str_list_repr xs ++ rest) = Some (xs, rest).
Proof.
  unfold str_list_repr. destruct xs as [|x xs]; [reflexivity|].
  rewrite <- !str_app_assoc.
  set (W := py_join ", " (map str_repr (x :: xs)) ++ "]" ++ rest).
  assert (HW : read_items (String.length W) W = Some (x :: xs, rest)).
  { apply read_items_join. pose proof (join_repr_length x xs ("]" ++ rest)). unfold W. lia. }
  destruct (py_join_head ", " (str_repr x) (map str_repr xs)) as [tl Etl].
  destruct (str_repr_head x (tl ++ "]" ++ rest)) as (q & r & Eq & Hq).
  assert (EW : W = String q r) by (unfold W; cbn [map]; rewrite Etl, <- str_app_assoc; exact Eq).
  rewrite EW in HW |- *. change ("[" ++ String q r) with (String "["%char (String q r)).
  unfold read_str_list. rewrite Ascii.eqb_refl, Hq. exact HW.
Qed.


#[export] Instance str_literal : PyLiteral string := {|
  lit_print := str_repr;
  lit_read := read_str_lit;
  lit_read_print := str_repr_roundtrip
|}.

#[export] Instance str_list_literal : PyLiteral (list string) := {|
  lit_print := str_list_repr;
  lit_read := read_str_list;
  lit_read_print := str_list_repr_roundtrip
|}.

Section Generic.
Context `{PyLiteral A}.

Lemma lit_print_inj_app (a b : A) (r s : string) :
  lit_print a ++ r = lit_print b ++ s -> a = b /\ r = s.
Proof.
  intros E. pose proof (lit_read_print a r) as Ha. rewrite E, lit_read_print in Ha.
  by injection Ha as -> ->.
Qed.

Lemma lit_print_inj (a b : A) : lit_print a = lit_print b -> a = b.
Proof.
  intros E. apply (lit_print_inj_app a b "" ""). by rewrite !str_app_nil_r.
Qed.
End Generic.
