(* ===== verification/Random.v ===== *)
(** * Random: the anti-cheat input generator (driver.py lines 46-61)

    The [random] module is an interface: a state [R] with [_randbelow n],
    which returns an integer in [[0, n)] ([RandomSource], its one law).
    [choice] and [randint] are CPython's definitions on top of it;
    [random_username] is the harness's generator of user names.  The
    theorems: every draw lies in its range, a name is one upper-case letter
    and five lower-case ones, and the loop of [random_username] returns on
    its first iteration (its rejection test can never succeed). *)

From Stdlib Require Import QArith Ascii String.
From stdpp Require Import base list strings.
From S2P Require Import Prelude PyCore.

Open Scope string_scope.

Class RandomSource (R : Type) := {
  randbelow : Z -> R -> Z * R;
  randbelow_range : forall n r, (0 < n)%Z -> (0 <= (randbelow n r).1 < n)%Z
}.

Definition ascii_uppercase : string := "ABCDEFGHIJKLMNOPQRSTUVWXYZ".
Definition ascii_lowercase : string := "abcdefghijklmnopqrstuvwxyz".

Section Random.
Context `{RandomSource R}.

Definition rand_below (n : Z) : PyM R Z := fun w =>
  let '(x, r) := randbelow n (w_rng w) in (Ok x, set_rng r w).

(** [random.choice(seq)] on a string. *)
Definition choice (seq : string) : PyM R ascii :=
  if bool_decide (String.length seq = 0) then
    raise (mkExn "IndexError" "Cannot choose from an empty sequence")
  else
    i ← rand_below (Z.of_nat (String.length seq));
    match String.get (Z.to_nat i) seq with
    | Some c => mret c
    | None => raise (mkExn "IndexError" "string index out of range")
    end.

(** [random.randint(a, b)] = [randrange(a, b + 1)]. *)
Definition randint (a b : Z) : PyM R Z :=
  i ← rand_below (b + 1 - a); mret (a + i)%Z.

(** [''.join(random.choice(seq) for _ in range(n))] *)
Fixpoint choices (seq : string) (n : nat) : PyM R string :=
  match n with
  | O => mret EmptyString
  | S n' => c ← choice seq; rest ← choices seq n'; mret (String c rest)
  end.

(** The body of [random_username]'s [while True] loop, run at most
    [fuel] times; running out of fuel stands for looping forever. *)
Fixpoint random_username_loop (fuel : nat) : PyM R string :=
  match fuel with
  | O => se_diverge
  | S fuel' =>
      first ← choices ascii_uppercase 1;
      rest ← choices ascii_lowercase 5;
      let name := first ++ rest in
      if negb (str_in_list name ["Alice"; "Bob"]) then mret name
      else random_username_loop fuel'
  end.

(** One iteration always returns ([random_username_one_iteration]), so
    a single unit of fuel models the unbounded loop exactly. *)
Definition random_username : PyM R string := random_username_loop 1.
End Random.

(** ** Properties of the generator *)

Lemma set_rng_set_rng {R} (r r' : R) (w : world R) :
  set_rng r' (set_rng r w) = set_rng r' w.
Proof. by destruct w. Qed.

Lemma string_get_nth (s : string) (n : nat) :
  String.get n s = nth_error (list_ascii_of_string s) n.
Proof. revert n. induction s as [|c s IH]; intros [|n]; simpl; auto. Qed.

Lemma length_list_ascii (s : string) : length (list_ascii_of_string s) = String.length s.
Proof. induction s; simpl; auto. Qed.

(** [c] is a character of [s]. *)
Definition char_of (s : string) (c : ascii) : Prop := In c (list_ascii_of_string s).

(** A name as [random_username] draws it. *)
Definition username_shape (name : string) : Prop :=
  exists c rest, name = String c rest /\ char_of ascii_uppercase c /\
    String.length rest = 5 /\ Forall (char_of ascii_lowercase) (list_ascii_of_string rest).

Section RandomProps.
Context `{RandomSource R}.

Lemma rand_below_spec (n : Z) (w : world R) :
  (0 < n)%Z -> exists x r, rand_below n w = (Ok x, set_rng r w) /\ (0 <= x < n)%Z.
Proof.
  intros Hn. unfold rand_below. pose proof (randbelow_range n (w_rng w) Hn) as Hr.
  destruct (randbelow n (w_rng w)) as [x r]. eauto.
Qed.

Lemma choice_spec (seq : string) (w : world R) :
  String.length seq <> 0 ->
  exists c r, choice seq w = (Ok c, set_rng r w) /\ char_of seq c.
Proof.
  intros Hlen. unfold choice. rewrite bool_decide_false by done.
  destruct (rand_below_spec (Z.of_nat (String.length seq)) w) as (i & r & Hi & Hrange); [lia|].
  rewrite (run_bind_ok _ _ _ _ _ Hi), string_get_nth.
  destruct (nth_error (list_ascii_of_string seq) (Z.to_nat i)) as [c|] eqn:E.
  - exists c, r. split; [done|]. by eapply nth_error_In.
  - apply nth_error_None in E. rewrite length_list_ascii in E. lia.
Qed.

Lemma choices_spec (seq : string) (n : nat) (w : world R) :
  String.length seq <> 0 ->
  exists s r, choices seq n w = (Ok s, set_rng r w) /\ String.length s = n /\
    Forall (char_of seq) (list_ascii_of_string s).
Proof.
  intros Hlen. revert w. induction n as [|n IH]; intros w; simpl.
  - exists EmptyString, (w_rng w). split; [by destruct w|]. auto.
  - destruct (choice_spec seq w Hlen) as (c & r & Hc & Hin).
    rewrite (run_bind_ok _ _ _ _ _ Hc).
    destruct (IH (set_rng r w)) as (s & r' & Hs & Hl & Hall).
    rewrite (run_bind_ok _ _ _ _ _ Hs), set_rng_set_rng.
    exists (String c s), r'. simpl. auto.
Qed.

(** The rejection test of line 51 is dead code: on a name of the
    drawn shape it is never true, since the two excluded names have 5 and
    3 characters and a drawn name has 6. *)
Lemma username_not_excluded (name : string) :
  username_shape name -> str_in_list name ["Alice"; "Bob"] = false.
Proof.
  intros (c & rest & -> & _ & Hl & _).
  apply not_true_is_false. rewrite str_in_list_spec.
  intros Hin.
  repeat (apply elem_of_cons in Hin as [Hin|Hin];
          [apply (f_equal String.length) in Hin; simpl in Hin; lia|]).
  by apply elem_of_nil in Hin.
Qed.
End RandomProps.

(** A concrete source for the witnesses: a list of raw draws, reduced
    modulo the bound; an exhausted list draws 0. *)
#[export] Instance list_source : RandomSource (list Z).
Proof.
  refine {| randbelow n l := match l with [] => (0%Z, []) | x :: l' => ((x mod n)%Z, l') end |}.
  intros n [|x l] Hn; simpl; [lia|]. by apply Z.mod_pos_bound.
Defined.

Definition world0 (draws : list Z) : world (list Z) :=
  mkWorld heap_empty draws [] None [].

Section RandomTheorems.
Context `{RandomSource R}.

Lemma name_of_draws (first rest : string) :
  String.length first = 1 -> Forall (char_of ascii_uppercase) (list_ascii_of_string first) ->
  String.length rest = 5 -> Forall (char_of ascii_lowercase) (list_ascii_of_string rest) ->
  username_shape (first ++ rest).
Proof.
  destruct first as [|c [|]]; simpl; try lia. intros _ Hc Hl Hall.
  exists c, rest. inversion Hc. auto.
Qed.

(** The first iteration of the loop returns, whatever the fuel left. *)
Lemma random_username_loop_run (w : world R) :
  exists name r, (forall fuel, random_username_loop (S fuel) w = (Ok name, set_rng r w)) /\
    username_shape name.
Proof.
  destruct (choices_spec ascii_uppercase 1 w) as (s1 & r1 & H1 & L1 & A1); [done|].
  destruct (choices_spec ascii_lowercase 5 (set_rng r1 w)) as (s2 & r2 & H2 & L2 & A2); [done|].
  pose proof (name_of_draws s1 s2 L1 A1 L2 A2) as Hshape.
  exists (s1 ++ s2), r2. split; [|done]. intros f.
  (* the draws happen before the fuel is consulted *)
  cbn [random_username_loop]. rewrite (run_bind_ok _ _ _ _ _ H1), (run_bind_ok _ _ _ _ _ H2).
  cbv zeta. rewrite set_rng_set_rng, (username_not_excluded _ Hshape). done.
Qed.

(** C15. Termination of [random_username] (driver.py lines 46-52): for
    every amount of fuel, the [while True] loop returns on its first
    iteration, with the same name as [random_username], and that name is
    one upper-case letter followed by five lower-case letters. *)
Theorem random_username_one_iteration (fuel : nat) (w : world R) :
  exists name r,
    random_username_loop (S fuel) w = (Ok name, set_rng r w) /\
    random_username w = (Ok name, set_rng r w) /\ username_shape name.
Proof.
  destruct (random_username_loop_run w) as (name & r & Hrun & Hshape).
  exists name, r. unfold random_username. auto.
Qed.

(** [random.randint(a, b)] (driver.py lines 60-61, 136-137, 145-146)
    returns a value in the closed range [[a, b]]. *)
Theorem randint_range (a b : Z) (w : world R) :
  (a <= b)%Z -> exists x r, randint a b w = (Ok x, set_rng r w) /\ (a <= x <= b)%Z.
Proof.
  intros Hab. unfold randint.
  destruct (rand_below_spec (b + 1 - a) w) as (i & r & Hi & Hr); [lia|].
  rewrite (run_bind_ok _ _ _ _ _ Hi). exists (a + i)%Z, r. split; [done | lia].
Qed.
End RandomTheorems.

(** ** The generator reads and writes the random state only

    [rng_only c]: running [c] in any world gives the result it gives in
    the bare world [rng_world r] of the same random state, and changes
    nothing but that state.  The fixtures drawn by a run therefore depend
    on the random state alone. *)
Definition rng_world {R} (r : R) : world R := mkWorld heap_empty r [] None [].

Definition rng_only {R A} (c : PyM R A) : Prop :=
  forall w, c w = ((c (rng_world (w_rng w))).1, set_rng (w_rng (c (rng_world (w_rng w))).2) w).

Lemma set_rng_id {R} (w : world R) : set_rng (w_rng w) w = w.
Proof. by destruct w. Qed.

Lemma set_rng_rng_world {R} (r r' : R) : set_rng r' (rng_world r) = rng_world r'.
Proof. reflexivity. Qed.

Section RngOnly.
Context `{RandomSource R}.

Lemma rng_only_ret {A} (x : A) : rng_only (R:=R) (mret x).
Proof. intros w. simpl. by rewrite set_rng_id. Qed.

Lemma rng_only_throw {A} (e : exn) : rng_only (R:=R) (A:=A) (raise e).
Proof. intros w. simpl. by rewrite set_rng_id. Qed.

Lemma rng_only_diverge {A} : rng_only (R:=R) (A:=A) se_diverge.
Proof. intros w. simpl. by rewrite set_rng_id. Qed.

Lemma rng_only_bind {A B} (c : PyM R A) (k : A -> PyM R B) :
  rng_only c -> (forall x, rng_only (k x)) -> rng_only (x ← c; k x).
Proof.
  intros Hc Hk w. cbv [mbind SE_bind].
  rewrite (Hc w). destruct (c (rng_world (w_rng w))) as [o w1] eqn:E. simpl.
  pose proof (Hc (rng_world (w_rng w))) as Hw1. simpl in Hw1. rewrite E in Hw1.
  injection Hw1 as Hw1.
  assert (Hw : w1 = rng_world (w_rng w1)) by (rewrite Hw1 at 1; reflexivity).
  destruct o as [x| |]; simpl; [|done..].
  rewrite (Hk x (set_rng _ w)), set_rng_set_rng. simpl. by rewrite <- Hw.
Qed.

Lemma rng_only_rand_below n : rng_only (R:=R) (rand_below n).
Proof. intros w. unfold rand_below. simpl. destruct (randbelow n (w_rng w)). done. Qed.

Lemma rng_only_choice seq : rng_only (R:=R) (choice seq).
Proof.
  unfold choice. case_bool_decide; [apply rng_only_throw|].
  apply rng_only_bind; [apply rng_only_rand_below|]. intros i.
  destruct (String.get _ _); [apply rng_only_ret | apply rng_only_throw].
Qed.

Lemma rng_only_randint a b : rng_only (R:=R) (randint a b).
Proof. apply rng_only_bind; [apply rng_only_rand_below|]. intros. apply rng_only_ret. Qed.

Lemma rng_only_choices seq n : rng_only (R:=R) (choices seq n).
Proof.
  induction n as [|n IH]; simpl; [apply rng_only_ret|].
  apply rng_only_bind; [apply rng_only_choice|]. intros c.
  apply rng_only_bind; [exact IH|]. intros. apply rng_only_ret.
Qed.

Lemma rng_only_random_username_loop fuel : rng_only (R:=R) (random_username_loop fuel).
Proof.
  induction fuel as [|fuel IH]; cbn [random_username_loop]; [apply rng_only_diverge|].
  apply rng_only_bind; [apply rng_only_choices|]. intros first.
  apply rng_only_bind; [apply rng_only_choices|]. intros rest.
  destruct (negb _); [apply rng_only_ret | exact IH].
Qed.
Lemma rng_only_run {A} (c : PyM R A) (r r' : R) o :
  rng_only c -> c (rng_world r) = (o, set_rng r' (rng_world r)) ->
  forall w, w_rng w = r -> c w = (o, set_rng r' w).
Proof. intros Hc Hr w <-. rewrite (Hc w), Hr. reflexivity. Qed.

(** A run of a generator step in a full world is its run in the bare
    world of the same random state. *)
Lemma rng_only_world {A} (c : PyM R A) (w : world R) o (r : R) :
  rng_only c -> c w = (o, set_rng r w) -> c (rng_world (w_rng w)) = (o, rng_world r).
Proof.
  intros Hc E. rewrite (Hc w) in E. injection E as Eo Er.
  rewrite (Hc (rng_world (w_rng w))). cbn [w_rng rng_world].
  rewrite Eo, Er. reflexivity.
Qed.

Lemma rng_only_random_username : rng_only (R:=R) random_username.
Proof. apply rng_only_random_username_loop. Qed.

(** A computation on the random state alone keeps every invariant that
    does not look at the random state. *)
Lemma rng_only_preserves {A} (I : world R -> Prop) (c : PyM R A) :
  rng_only c -> (forall r w, I w -> I (set_rng r w)) -> preserves I c.
Proof. intros Hc HI w o w' Hw Hr. rewrite (Hc w) in Hr. injection Hr as _ <-. by apply HI. Qed.

(** [random_username] at a random state [r]. *)
Lemma username_run (r : R) :
  exists name r', (forall w, w_rng w = r -> random_username w = (Ok name, set_rng r' w)) /\
    username_shape name.
Proof.
  destruct (random_username_loop_run (rng_world r)) as (name & r' & Hrun & Hs).
  exists name, r'. split; [|done].
  apply rng_only_run; [apply rng_only_random_username_loop | apply Hrun].
Qed.
End RngOnly.

#[export] Hint Resolve rng_only_ret rng_only_throw rng_only_bind rng_only_rand_below
  rng_only_choice rng_only_randint rng_only_choices rng_only_random_username_loop
  rng_only_random_username : harness.

(** [randint] at a random state [r]: its draw and the next state do not
    depend on the rest of the world. *)
Lemma randint_run `{RandomSource R} (a b : Z) (r : R) :
  (a <= b)%Z -> exists x r', (forall w, w_rng w = r -> randint a b w = (Ok x, set_rng r' w)) /\
    (a <= x <= b)%Z.
Proof.
  intros Hab. pose proof (randbelow_range (b + 1 - a) r) as Hr.
  destruct (randbelow (b + 1 - a) r) as [x r'] eqn:E. simpl in Hr.
  exists (a + x)%Z, r'. split; [|lia].
  intros w <-. unfold randint, rand_below. cbv [mbind SE_bind]. by rewrite E.
Qed.

(** The generator touches only the random state. *)
Section RandomFrame.
Context `{RandomSource R} (out : list string) (rep : option string).

Lemma preserves_rand_below n : preserves (io_frame (R:=R) out rep) (rand_below n).
Proof. intros w res w' HI. unfold rand_below. destruct randbelow. by intros [= _ <-]. Qed.

Lemma preserves_choice seq : preserves (io_frame (R:=R) out rep) (choice seq).
Proof. unfold choice. frame_solve. apply preserves_rand_below. Qed.

Lemma preserves_randint a b : preserves (io_frame (R:=R) out rep) (randint a b).
Proof. unfold randint. frame_solve. apply preserves_rand_below. Qed.

Lemma preserves_choices seq n : preserves (io_frame (R:=R) out rep) (choices seq n).
Proof. induction n; simpl; frame_solve; auto using preserves_choice. Qed.

Lemma preserves_random_username_loop fuel :
  preserves (io_frame (R:=R) out rep) (random_username_loop fuel).
Proof.
  induction fuel; cbn [random_username_loop]; frame_solve; auto using preserves_choices.
Qed.
End RandomFrame.

#[export] Hint Resolve preserves_rand_below preserves_choice preserves_randint
  preserves_choices preserves_random_username_loop : pyframe.
