(* ===== verification/Candidate.v ===== *)
(** * Candidate: the submitted module, and the signature check

    The module under test is the other party of the harness: it is loaded
    ([exec_module]), may define a class [FitnessTracker], whose instance
    has attributes.  It is modelled as a record of operations
    ([student_module], [tracker_class]); a method is a total function on
    the heap that returns a value, raises, or diverges.  The harness side
    modelled here is [driver.py] lines 26-43 (instantiation and the
    signature check) and the guard that opens every test case (lines 66-67,
    102-103, 132-133, 163-164, 190-191). *)

From Stdlib Require Import QArith Ascii String.
From stdpp Require Import base list strings.
From S2P Require Import Prelude PyCore Literals.

Open Scope string_scope.

(** A method body: it receives [self] followed by the arguments. *)
Definition method_body : Type := list value -> heap -> outcome exn value * heap.

(** An attribute of the tracker instance, as [hasattr]/[getattr] see it. *)
Inductive attr : Type :=
  | AttrMissing
  | AttrValue (v : value)                          (** not callable *)
  | AttrMethod (params : list string) (body : method_body).

Record tracker_class : Type := {
  tc_init : heap -> outcome exn value * heap;      (** [FitnessTracker()] *)
  tc_attr : string -> attr
}.

Record student_module : Type := {
  sm_exec : heap -> outcome exn unit * heap;       (** module-level code *)
  sm_tracker : option tracker_class                (** [FitnessTracker], if defined *)
}.

(** Run a heap-level computation of the candidate inside the world. *)
Definition lift_heap {R A} (f : heap -> outcome exn A * heap) : PyM R A := fun w =>
  let '(o, h) := f (w_heap w) in (o, set_heap h w).

(** The four required methods with their parameter names, in the order
    of the dict literal [expected_signatures] (lines 29-34). *)
Definition expected_signatures : list (string * list string) :=
  [("register_user", ["fitness_data"; "user_name"]);
   ("log_workout", ["fitness_data"; "user_name"; "calories_burned"]);
   ("calculate_average_calories", ["fitness_data"; "user_name"]);
   ("generate_progress_report", ["fitness_data"])].

(** The failure text lines 38-43 record for attribute [a] of method [m]
    (the [AttrValue] case raises instead, see [signature_check]). *)
Definition sig_failure (a : attr) (m : string) (expected_params : list string)
    : option string :=
  match a with
  | AttrMethod actual_params _ =>
      if bool_decide (actual_params = expected_params) then None
      else Some (m ++ " (expected " ++ str_list_repr expected_params
                 ++ ", got " ++ str_list_repr actual_params ++ ")")
  | _ => Some (m ++ " (method missing)")
  end.

Section Candidate.
Context {R : Type} `{FloatRepr}.

(** [tracker.m(args...)]: the call is recorded in the trace. *)
Definition call_method (self : value) (cls : tracker_class) (m : string)
    (args : list value) : PyM R value :=
  match tc_attr cls m with
  | AttrMethod _ body => se_modify (add_call m);; lift_heap (body (self :: args))
  | AttrMissing =>
      raise (attribute_error ("'FitnessTracker' object has no attribute '" ++ m ++ "'"))
  | AttrValue v => raise (type_error ("'" ++ type_name v ++ "' object is not callable"))
  end.

(** One iteration of the loop of lines 37-43: the failure it appends,
    if any.  [inspect.signature] of a non-callable attribute raises a
    [TypeError] that nothing catches. *)
Definition signature_check (cls : tracker_class) (m : string)
    (expected_params : list string) : PyM R (option string) :=
  match tc_attr cls m with
  | AttrValue v => s ← py_repr v; raise (type_error (s ++ " is not a callable object"))
  | a => mret (sig_failure a m expected_params)
  end.

Fixpoint signature_loop (cls : tracker_class) (sigs : list (string * list string))
    : PyM R (list string) :=
  match sigs with
  | [] => mret []
  | (m, ps) :: sigs' =>
      o ← signature_check cls m ps;
      rest ← signature_loop cls sigs';
      mret (app (option_list o) rest)
  end.

(** [signature_failures] as computed by lines 36-43. *)
Definition signature_failures (cls : tracker_class) : PyM R (list string) :=
  signature_loop cls expected_signatures.

(** The guard that opens each test case:
    [if any(f.startswith(m) for f in fs): raise TypeError(f"Signature
    mismatch for {m}: {next(f for f in fs if f.startswith(m))}")]. *)
Definition signature_guard (m : string) (fs : list string) : PyM R unit :=
  if existsb (String.prefix m) fs then
    match find (String.prefix m) fs with
    | Some f => raise (type_error ("Signature mismatch for " ++ m ++ ": " ++ f))
    | None => raise (mkExn "StopIteration" "")
    end
  else mret ().
End Candidate.

Lemma run_call_method {R} `{FloatRepr} (self : value) (cls : tracker_class) (m : string)
    (args : list value) (ps : list string) (body : method_body) (w : world R) :
  tc_attr cls m = AttrMethod ps body ->
  call_method self cls m args w =
    ((body (self :: args) (w_heap w)).1, set_heap (body (self :: args) (w_heap w)).2 (add_call m w)).
Proof.
  intros Ha. unfold call_method. rewrite Ha. cbv [mbind SE_bind se_modify lift_heap].
  simpl. by destruct (body _ _).
Qed.

Lemma run_lift_heap {R A} (f : heap -> outcome exn A * heap) (w : world R) o h :
  f (w_heap w) = (o, h) -> lift_heap f w = (o, set_heap h w).
Proof. intros Hf. unfold lift_heap. by rewrite Hf. Qed.

Lemma run_call_method_ok {R} `{FloatRepr} (self : value) (cls : tracker_class) (m : string)
    (args : list value) (ps : list string) (body : method_body) (w : world R) o h' :
  tc_attr cls m = AttrMethod ps body -> body (self :: args) (w_heap w) = (o, h') ->
  call_method self cls m args w = (o, set_heap h' (add_call m w)).
Proof. intros Ha Hb. rewrite (run_call_method _ _ _ _ _ _ _ Ha). by rewrite Hb. Qed.

Lemma run_signature_guard_pass {R} (m : string) (fs : list string) (w : world R) :
  existsb (String.prefix m) fs = false -> signature_guard m fs w = (Ok (), w).
Proof. intros Hg. unfold signature_guard. by rewrite Hg. Qed.

(** ** The signature check attributes each failure to its own method *)

Lemma sig_failure_shape (a : attr) (m : string) (ps : list string) (f : string) :
  sig_failure a m ps = Some f -> exists x, f = m ++ " (" ++ x.
Proof.
  destruct a as [|v|actual ?]; simpl; try (intros [= <-]; eexists; reflexivity).
  case_bool_decide; [done|]. intros [= <-]. eexists. reflexivity.
Qed.

(** Two method names, neither a prefix of the other's failure text. *)
Definition names_apart (m m' : string) : bool :=
  negb (String.prefix m (m' ++ " (")) && negb (String.prefix (m' ++ " (") m).

Lemma find_prefix_skip (m m' : string) (o : option string) (rest : list string) :
  names_apart m m' = true -> (forall f, o = Some f -> exists x, f = m' ++ " (" ++ x) ->
  find (String.prefix m) (option_list o ++ rest)%list = find (String.prefix m) rest.
Proof.
  unfold names_apart. rewrite andb_true_iff, !negb_true_iff. intros [H1 H2] Hshape.
  destruct o as [f|]; simpl; [|done].
  destruct (Hshape f eq_refl) as [x ->].
  rewrite str_app_assoc.
  by rewrite prefix_mismatch.
Qed.

Lemma find_prefix_own (m : string) (o : option string) (rest : list string) :
  (forall f, o = Some f -> exists x, f = m ++ " (" ++ x) ->
  find (String.prefix m) (option_list o ++ rest)%list =
  match o with Some f => Some f | None => find (String.prefix m) rest end.
Proof.
  intros Hshape. destruct o as [f|]; simpl; [|done].
  destruct (Hshape f eq_refl) as [x ->]. by rewrite prefix_app.
Qed.

Lemma find_prefix_skip_sig (m m' : string) (a : attr) (ps rest : list string) :
  names_apart m m' = true ->
  find (String.prefix m) (option_list (sig_failure a m' ps) ++ rest)%list =
  find (String.prefix m) rest.
Proof. intros Hm. apply (find_prefix_skip m m'); [done|]. intros f. apply sig_failure_shape. Qed.

Lemma find_prefix_own_sig (m : string) (a : attr) (ps rest : list string) :
  find (String.prefix m) (option_list (sig_failure a m ps) ++ rest)%list =
  match sig_failure a m ps with Some f => Some f | None => find (String.prefix m) rest end.
Proof. apply find_prefix_own. intros f. apply sig_failure_shape. Qed.

Section SignatureProps.
Context {R : Type} `{FloatRepr}.

Lemma signature_loop_ok (cls : tracker_class) sigs (w w' : world R) fs :
  signature_loop cls sigs w = (Ok fs, w') ->
  fs = flat_map (fun '(m, ps) => option_list (sig_failure (tc_attr cls m) m ps)) sigs
  /\ w' = w.
Proof.
  revert w fs. induction sigs as [|[m ps] sigs IH]; intros w fs; simpl.
  - by intros [= <- <-].
  - unfold signature_check. destruct (tc_attr cls m) as [|v|ps' body] eqn:Ha.
    2: { cbv [mbind SE_bind py_repr raise mthrow SE_throw]. simpl. congruence. }
    all: rewrite bind_ret_l.
    all: destruct (signature_loop cls sigs w) as [[fs'| |] w1] eqn:E.
    all: cbv [mbind SE_bind]; rewrite E; try congruence.
    all: intros [= <- <-]; destruct (IH _ _ E) as [-> ->]; split; auto; by rewrite Ha.
Qed.

(** C11. The guard that opens each test case (lines 66-67, 102-103,
    132-133, 163-164, 190-191) raises exactly when the signature check of
    lines 37-43 recorded a failure for that same method, and quotes that
    failure: no required method name is a prefix of another method's
    failure text, so [startswith] never attributes a failure to the wrong
    test case. *)
Theorem signature_guard_own (cls : tracker_class) (w w' w0 : world R)
    (fs : list string) (m : string) (ps : list string) :
  signature_failures cls w = (Ok fs, w') -> (m, ps) ∈ expected_signatures ->
  signature_guard m fs w0 =
    match sig_failure (tc_attr cls m) m ps with
    | Some f => (Raise (type_error ("Signature mismatch for " ++ m ++ ": " ++ f)), w0)
    | None => (Ok (), w0)
    end.
Proof.
  intros Hrun Hin. apply signature_loop_ok in Hrun as [-> _].
  unfold signature_guard. rewrite existsb_find.
  assert (Hf : find (String.prefix m) (flat_map (fun '(m, ps) =>
            option_list (sig_failure (tc_attr cls m) m ps)) expected_signatures)
          = sig_failure (tc_attr cls m) m ps).
  { unfold expected_signatures in Hin.
    repeat (apply elem_of_cons in Hin as [Hin|Hin];
      [injection Hin as -> ->; cbn [flat_map expected_signatures];
       rewrite ?find_prefix_skip_sig, find_prefix_own_sig, ?find_prefix_skip_sig
         by reflexivity;
       by destruct (sig_failure _ _ _) |]).
    by apply elem_of_nil in Hin. }
  rewrite Hf. by destruct (sig_failure _ _ _).
Qed.
End SignatureProps.

(** ** The guard scans the failures once

    The guard of lines 66-67 scans [fs] twice: [any(...)] decides, and
    [next(...)] finds the failure to quote.  [signature_guard_ref] is the
    single scan: the first failure that starts with [m], if any. *)
Definition signature_guard_ref {R} (m : string) (fs : list string) : PyM R unit :=
  match find (String.prefix m) fs with
  | Some f => raise (type_error ("Signature mismatch for " ++ m ++ ": " ++ f))
  | None => mret ()
  end.

(** The guard's two scans equal the single scan: whenever [any]
    holds, [next] finds a failure, so its [StopIteration] branch is dead
    code and the guard raises exactly the [TypeError] of the first
    matching failure. *)
Theorem signature_guard_equiv {R} (m : string) (fs : list string) :
  signature_guard (R:=R) m fs = signature_guard_ref m fs.
Proof.
  unfold signature_guard, signature_guard_ref. rewrite existsb_find.
  by destruct (find _ _).
Qed.

(** ** A failure text determines the kind of mismatch and both lists

    [read_sig_failure m t] reads a failure text of method [m] as lines
    41-43 write it, [f"{m} (expected {expected_params}, got
    {actual_params})"], back into the two parameter lists. *)
Definition read_sig_failure (m t : string) : option (list string * list string) :=
  t1 ← strip_prefix (m ++ " (expected ") t;
  '(expected, t2) ← read_str_list t1;
  t3 ← strip_prefix ", got " t2;
  '(actual, t4) ← read_str_list t3;
  if String.eqb t4 ")" then Some (expected, actual) else None.

(** C17. The signature failure texts are unambiguous: the text lines
    38-43 record for a parameter mismatch reads back as the expected and
    the actual parameter lists, and the text of a missing method reads
    as no mismatch at all. *)
Theorem sig_failure_text_roundtrip (a : attr) (m : string) (ps : list string) (t : string) :
  sig_failure a m ps = Some t ->
  read_sig_failure m t = match a with AttrMethod actual _ => Some (ps, actual) | _ => None end.
Proof.
  destruct a as [|v|actual body]; simpl.
  - intros [= <-]. unfold read_sig_failure. by rewrite strip_prefix_app_l.
  - intros [= <-]. unfold read_sig_failure. by rewrite strip_prefix_app_l.
  - case_bool_decide; [done|]. intros [= <-]. unfold read_sig_failure.
    cbv beta delta [mbind option_bind].
    rewrite str_app_assoc, strip_prefix_app, str_list_repr_roundtrip, strip_prefix_app,
      str_list_repr_roundtrip. reflexivity.
Qed.

(** Candidate code reaches the heap only: it cannot print or write the
    report. *)
Section CandidateFrame.
Context {R : Type} `{FloatRepr} (out : list string) (rep : option string).

Lemma preserves_lift_heap {A} (f : heap -> outcome exn A * heap) :
  preserves (io_frame (R:=R) out rep) (lift_heap f).
Proof. intros w res w' HI. unfold lift_heap. destruct (f _). by intros [= _ <-]. Qed.

Lemma preserves_call_method self cls m args :
  preserves (io_frame (R:=R) out rep) (call_method self cls m args).
Proof. unfold call_method. frame_solve. apply preserves_lift_heap. Qed.

Lemma preserves_signature_failures cls :
  preserves (io_frame (R:=R) out rep) (signature_failures cls).
Proof.
  unfold signature_failures. generalize expected_signatures as sigs.
  induction sigs as [|[m ps] sigs IH]; simpl; [apply preserves_ret|].
  apply preserves_bind; [unfold signature_check; frame_solve|]. intros o.
  apply preserves_bind; [exact IH|]. intros. apply preserves_ret.
Qed.

Lemma preserves_signature_guard m fs :
  preserves (io_frame (R:=R) out rep) (signature_guard m fs).
Proof. unfold signature_guard. frame_solve. Qed.
End CandidateFrame.

#[export] Hint Resolve preserves_lift_heap preserves_call_method
  preserves_signature_guard preserves_signature_failures : pyframe.
