(* ===== verification/TestCases.v ===== *)
(** * TestCases: the five test-case bodies of [driver.py]

    Each test case is a computation that returns the line it appends to
    [results]: TC1 (lines 64-98, [register_user]), TC2 (lines 100-128,
    [log_workout]), TC3 (lines 130-159, [calculate_average_calories]),
    HTC1 (lines 161-186, [generate_progress_report]) and HTC2 (lines
    188-204, [log_workout] on an absent user).  The [try]/[except
    Exception] of each case is [se_try is_exception]. *)

From Stdlib Require Import QArith Qabs Ascii String.
From stdpp Require Import base list strings sets.
From S2P Require Import Prelude PyCore Random Candidate.

Open Scope string_scope.

Inductive test_case : Type := TC1 | TC2 | TC3 | HTC1 | HTC2.

Definition case_title (c : test_case) : string :=
  match c with
  | TC1 => "TC1: Registering a New Fitness User"
  | TC2 => "TC2: Logging a Workout Session"
  | TC3 => "TC3: Calculating Average Calories Burned"
  | HTC1 => "HTC1: Generating Progress Reports"
  | HTC2 => "HTC2: Handling Workout Logging for Non-Existent Users"
  end.

Definition pass_line (c : test_case) : string := "✅ " ++ case_title c.

Definition fail_prefix (c : test_case) : string :=
  "❌ " ++ case_title c ++ " failed | Reason: ".

Definition fail_line (c : test_case) (reason : string) : string :=
  fail_prefix c ++ reason.

(** A user record [{'workouts': w, 'calories': c, 'status': s}]. *)
Definition user_record (workouts calories : Z) (status : string) : list (string * value) :=
  [("workouts", VInt workouts); ("calories", VInt calories); ("status", VStr status)].

(** The tolerance of TC3, [0.01]. *)
Definition tolerance : Q := 1 # 100.

Section TestCases.
Context `{RandomSource R} `{FloatRepr}.
Variable self : value.
Variable cls : tracker_class.
Variable fails : list string.

Let call := call_method (R := R) self cls.

(** [res[k].get(field) == n] *)
Definition field_eq_int (res : value) (k field : string) (n : Z) : PyM R bool :=
  x ← py_getitem res k; y ← py_get x field; mret (py_eq_int y n).

Definition field_eq_str (res : value) (k field s : string) : PyM R bool :=
  x ← py_getitem res k; y ← py_get x field; mret (py_eq_str y s).

(** Lines 72-96. *)
Definition tc1_body (user1 user2 : string) : PyM R string :=
  signature_guard "register_user" fails;;
  data ← alloc_dict [];
  res ← call "register_user" [data; VStr user1];
  ok ← se_all [mret (is_dict res); py_contains user1 res;
               (x ← py_getitem res user1; mret (is_dict x));
               field_eq_int res user1 "workouts" 0;
               field_eq_int res user1 "calories" 0;
               field_eq_str res user1 "status" "Inactive"];
  if (ok : bool) then
    ok2 ← se_all [py_contains user1 data; field_eq_int data user1 "workouts" 0];
    if (ok2 : bool) then
      data2 ← alloc_dict [];
      res2 ← call "register_user" [data2; VStr user2];
      ok3 ← se_all [py_contains user2 res2; py_contains user2 data2];
      mret (if (ok3 : bool) then pass_line TC1
            else fail_line TC1 "Doesn't handle different usernames correctly")
    else mret (fail_line TC1 "Function doesn't modify the input dictionary correctly")
  else
    s ← py_str res;
    mret (fail_line TC1 ("Incorrect structure. Expected {'" ++ user1
            ++ "': {'workouts': 0, 'calories': 0, 'status': 'Inactive'}} but got " ++ s)).

(** [res.get(k, {})]: the attribute is looked up before the default
    dict is built, so a non-dict raises without allocating. *)
Definition get_or_empty (res : value) (k : string) : PyM R value :=
  if is_dict res then (d ← alloc_dict []; py_get_default res k d)
  else py_get res k.

(** Lines 106-126. *)
Definition tc2_body (user1 user2 : string) (calories1 calories2 : Z) : PyM R string :=
  signature_guard "log_workout" fails;;
  rec1 ← alloc_dict (user_record 0 0 "Inactive");
  data ← alloc_dict [(user1, rec1)];
  res ← call "log_workout" [data; VStr user1; VInt calories1];
  ok ← se_all [mret (is_dict res); py_contains user1 res;
               field_eq_int res user1 "workouts" 1;
               field_eq_int res user1 "calories" calories1];
  if (ok : bool) then
    rec2 ← alloc_dict (user_record 0 0 "Inactive");
    data' ← alloc_dict [(user2, rec2)];
    res2 ← call "log_workout" [data'; VStr user2; VInt calories2];
    ok2 ← se_all [py_contains user2 res2;
                  field_eq_int res2 user2 "workouts" 1;
                  field_eq_int res2 user2 "calories" calories2];
    mret (if (ok2 : bool) then pass_line TC2
          else fail_line TC2 "Doesn't handle different calorie values correctly")
  else
    got ← get_or_empty res user1;
    s ← py_str got;
    mret (fail_line TC2 ("Incorrect update. Expected workouts=1, calories="
            ++ z_repr calories1 ++ " but got " ++ s)).

(** Lines 132-157. *)
Definition tc3_body (user2 user3 : string) : PyM R string :=
  signature_guard "calculate_average_calories" fails;;
  workout_count ← randint 2 5;
  total_calories ← randint 500 1000;
  let expected_avg := (inject_Z total_calories / inject_Z workout_count)%Q in
  rec ← alloc_dict (user_record workout_count total_calories "Inactive");
  data ← alloc_dict [(user3, rec)];
  avg ← call "calculate_average_calories" [data; VStr user3];
  ok ← se_all [mret (is_number avg); py_abs_diff_lt avg expected_avg tolerance];
  if (ok : bool) then
    workout_count2 ← randint 2 5;
    total_calories2 ← randint 500 1000;
    let expected_avg2 := (inject_Z total_calories2 / inject_Z workout_count2)%Q in
    rec2 ← alloc_dict (user_record workout_count2 total_calories2 "Inactive");
    data2 ← alloc_dict [(user2, rec2)];
    avg2 ← call "calculate_average_calories" [data2; VStr user2];
    ok2 ← py_abs_diff_lt avg2 expected_avg2 tolerance;
    mret (if (ok2 : bool) then pass_line TC3
          else fail_line TC3 "Doesn't calculate different values correctly")
  else
    s ← py_str avg;
    mret (fail_line TC3 ("Incorrect average. Expected " ++ float_repr expected_avg
            ++ " but got " ++ s)).

(** Lines 163-184. *)
Definition htc1_body (user1 user2 user3 : string) : PyM R string :=
  signature_guard "generate_progress_report" fails;;
  rec1 ← alloc_dict (user_record 3 800 "Inactive");
  rec2 ← alloc_dict (user_record 5 3000 "Active");
  rec3 ← alloc_dict (user_record 10 6000 "Active");
  data ← alloc_dict [(user1, rec1); (user2, rec2); (user3, rec3)];
  report ← call "generate_progress_report" [data];
  ok ← se_all [mret (is_dict report);
               (x ← py_get report user1; mret (py_eq_str x "Beginner"));
               (x ← py_get report user2; mret (py_eq_str x "Intermediate"));
               (x ← py_get report user3; mret (py_eq_str x "Advanced"))];
  if (ok : bool) then mret (pass_line HTC1)
  else
    s ← py_str report;
    mret (fail_line HTC1 ("Incorrect classification. Expected {'" ++ user1
            ++ "': 'Beginner', '" ++ user2 ++ "': 'Intermediate', '" ++ user3
            ++ "': 'Advanced'} but got " ++ s)).

(** Lines 190-201: reaching the end of the [try] block is the failure. *)
Definition htc2_body : PyM R string :=
  signature_guard "log_workout" fails;;
  suffix ← choices ascii_lowercase 5;
  let nonexistent_user := "NonExistentUser_" ++ suffix in
  data ← alloc_dict [];
  call "log_workout" [data; VStr nonexistent_user; VInt 200];;
  mret (fail_line HTC2 "Expected exception for non-existent user").

(** The [try ... except Exception as e] around TC1, TC2, TC3 and HTC1. *)
Definition run_case (c : test_case) (body : PyM R string) : PyM R string :=
  se_try is_exception body (fun e => mret (fail_line c (exn_str e))).

Definition tc1 (user1 user2 : string) : PyM R string := run_case TC1 (tc1_body user1 user2).
Definition tc2 (user1 user2 : string) (calories1 calories2 : Z) : PyM R string :=
  run_case TC2 (tc2_body user1 user2 calories1 calories2).
Definition tc3 (user2 user3 : string) : PyM R string := run_case TC3 (tc3_body user2 user3).
Definition htc1 (user1 user2 user3 : string) : PyM R string :=
  run_case HTC1 (htc1_body user1 user2 user3).

(** HTC2: any [Exception] raised in the [try] block is the success
    (lines 202-204). *)
Definition htc2 : PyM R string :=
  se_try is_exception htc2_body (fun _ => mret (pass_line HTC2)).
End TestCases.

(** ** Every test case produces one line, tagged with its own title *)

(** [l] is a result line of test case [c]: its pass line, or its failure
    prefix followed by a reason. *)
Definition line_of_case (c : test_case) (l : string) : Prop :=
  l = pass_line c \/ exists reason, l = fail_line c reason.

Lemma line_of_case_pass c : line_of_case c (pass_line c).
Proof. by left. Qed.

Lemma line_of_case_fail c r : line_of_case c (fail_line c r).
Proof. right. by exists r. Qed.

#[export] Hint Resolve line_of_case_pass line_of_case_fail : harness.

Ltac line_leaf :=
  idtac;
  match goal with
  | |- line_of_case _ (if ?b then _ else _) => destruct b
  | |- line_of_case _ _ => solve [eauto with harness]
  end.
Ltac line_solve := repeat (logic_step line_leaf).

#[export] Hint Unfold tc1 tc2 tc3 htc1 htc2 run_case tc1_body tc2_body tc3_body
  htc1_body htc2_body get_or_empty field_eq_int field_eq_str : pyframe.

Section CaseProps.
Context `{RandomSource R} `{FloatRepr}.
Context (self : value) (cls : tracker_class) (fails : list string).

Lemma tc1_line u1 u2 : yields (line_of_case TC1) (tc1 (R:=R) self cls fails u1 u2).
Proof. unfold tc1, run_case, tc1_body. line_solve. Qed.

Lemma tc2_line u1 u2 c1 c2 :
  yields (line_of_case TC2) (tc2 (R:=R) self cls fails u1 u2 c1 c2).
Proof. unfold tc2, run_case, tc2_body. line_solve. Qed.

Lemma tc3_line u2 u3 : yields (line_of_case TC3) (tc3 (R:=R) self cls fails u2 u3).
Proof. unfold tc3, run_case, tc3_body. line_solve. Qed.

Lemma htc1_line u1 u2 u3 : yields (line_of_case HTC1) (htc1 (R:=R) self cls fails u1 u2 u3).
Proof. unfold htc1, run_case, htc1_body. line_solve. Qed.

Lemma htc2_line : yields (line_of_case HTC2) (htc2 (R:=R) self cls fails).
Proof. unfold htc2, htc2_body. line_solve. Qed.

Context (out : list string) (rep : option string).

Lemma tc1_frame u1 u2 : preserves (io_frame out rep) (tc1 (R:=R) self cls fails u1 u2).
Proof. frame_solve. Qed.
Lemma tc2_frame u1 u2 c1 c2 :
  preserves (io_frame out rep) (tc2 (R:=R) self cls fails u1 u2 c1 c2).
Proof. frame_solve. Qed.
Lemma tc3_frame u2 u3 : preserves (io_frame out rep) (tc3 (R:=R) self cls fails u2 u3).
Proof. frame_solve. Qed.
Lemma htc1_frame u1 u2 u3 :
  preserves (io_frame out rep) (htc1 (R:=R) self cls fails u1 u2 u3).
Proof. frame_solve. Qed.
Lemma htc2_frame : preserves (io_frame out rep) (htc2 (R:=R) self cls fails).
Proof. frame_solve. Qed.
End CaseProps.

(** ** HTC2 turns its own signature guard into a pass *)

Section Htc2Guard.
Context `{RandomSource R} `{FloatRepr}.

(** C3. When the signature check recorded a failure for [log_workout]
    (the method is missing, or its parameters differ), the guard of
    HTC2 raises [TypeError] inside HTC2's own [try] block, and its
    [except Exception] reads that as the expected exception: HTC2
    reports a pass, without calling the candidate, for a module that
    has no usable [log_workout] at all (driver.py lines 189-204). *)
Theorem htc2_passes_on_signature_failure (self : value) (cls : tracker_class)
    (w w' w0 : world R) (fs : list string) :
  signature_failures cls w = (Ok fs, w') ->
  sig_failure (tc_attr cls "log_workout") "log_workout"
    ["fitness_data"; "user_name"; "calories_burned"] <> None ->
  htc2 self cls fs w0 = (Ok (pass_line HTC2), w0).
Proof.
  intros Hfs Hfail. unfold htc2, htc2_body.
  pose proof (signature_guard_own cls w w' w0 fs "log_workout"
                ["fitness_data"; "user_name"; "calories_burned"] Hfs) as Hg.
  destruct (sig_failure _ _ _) as [f|]; [|done].
  erewrite run_try_caught;
    [reflexivity | apply run_bind_raise, Hg; unfold expected_signatures; set_solver
    | reflexivity].
Qed.
End Htc2Guard.

(** ** An exception of the candidate stays inside its test case *)

Section Isolation.
Context `{RandomSource R} `{FloatRepr}.

(** C13. When the candidate's [register_user] raises on TC1's first call,
    an [Exception] becomes TC1's failure line carrying [str(e)] (lines
    97-98), with the candidate's heap effects kept; an exception outside
    [Exception] ([SystemExit], [KeyboardInterrupt]) escapes TC1. *)
Theorem tc1_candidate_exception (self : value) (cls : tracker_class) (fs : list string)
    (u1 u2 : string) (w : world R) (ps : list string) (body : method_body)
    (e : exn) (h' : heap) :
  existsb (String.prefix "register_user") fs = false ->
  tc_attr cls "register_user" = AttrMethod ps body ->
  body [self; VDict (heap_alloc (w_heap w) (dict_of_list [])).1; VStr u1]
       (heap_alloc (w_heap w) (dict_of_list [])).2 = (Raise e, h') ->
  tc1 self cls fs u1 u2 w =
    ((if is_exception e then Ok (fail_line TC1 (exn_str e)) else Raise e),
     set_heap h' (add_call "register_user"
                    (set_heap (heap_alloc (w_heap w) (dict_of_list [])).2 w))).
Proof.
  intros Hguard Hattr Hbody. unfold tc1, run_case, tc1_body, se_try.
  rewrite (run_bind_ok _ _ w () w) by (by apply run_signature_guard_pass).
  rewrite (run_bind_ok _ _ _ _ _ (run_alloc_dict [] w)).
  rewrite (run_bind_raise _ _ _ e (set_heap h' (add_call "register_user"
             (set_heap (heap_alloc (w_heap w) (dict_of_list [])).2 w))));
    [by destruct (is_exception e)|].
  rewrite (run_call_method _ _ _ _ _ _ _ Hattr). cbn -[heap_alloc dict_of_list].
  by rewrite Hbody.
Qed.

(** C21. When the candidate's [log_workout] returns something other than
    a dict on TC2's first call, the failure branch of TC2 (lines 125-126)
    evaluates [res.get(test_user1, {})] on it, which raises
    [AttributeError] before the "Incorrect update" message is built; the
    [except Exception] of lines 127-128 turns it into TC2's failure line
    carrying [str(e)], "'<type>' object has no attribute 'get'", in place
    of the expected-versus-actual message the branch was written to give. *)
Theorem tc2_non_dict_result_reason (self : value) (cls : tracker_class) (fs : list string)
    (u1 u2 : string) (c1 c2 : Z) (w : world R) (ps : list string) (body : method_body)
    (v : value) (h' : heap) :
  existsb (String.prefix "log_workout") fs = false ->
  tc_attr cls "log_workout" = AttrMethod ps body ->
  is_dict v = false ->
  let h1 := heap_alloc (w_heap w) (dict_of_list (user_record 0 0 "Inactive")) in
  let h2 := heap_alloc h1.2 (dict_of_list [(u1, VDict h1.1)]) in
  body [self; VDict h2.1; VStr u1; VInt c1] h2.2 = (Ok v, h') ->
  tc2 self cls fs u1 u2 c1 c2 w =
    (Ok (fail_line TC2 ("'" ++ type_name v ++ "' object has no attribute 'get'")),
     set_heap h' (add_call "log_workout" (set_heap h2.2 (set_heap h1.2 w)))).
Proof.
  intros Hguard Hattr Hv h1 h2 Hbody. unfold tc2, run_case, tc2_body, se_try.
  rewrite (run_bind_ok _ _ w () w) by (by apply run_signature_guard_pass).
  rewrite (run_bind_ok _ _ _ _ _ (run_alloc_dict _ w)).
  rewrite (run_bind_ok _ _ _ _ _ (run_alloc_dict _ _)).
  rewrite (run_bind_ok _ _ _ _ _ (run_call_method_ok _ _ _ _ _ _ (set_heap h2.2 (set_heap h1.2 w)) _ _ Hattr Hbody)).
  by destruct v.
Qed.
End Isolation.

(** ** The tolerance of TC3 *)

Section Tolerance.
Context {R : Type}.

(** C20. The check [abs(avg - expected_avg) < 0.01] of TC3 (line 143)
    rejects floor division on the inputs TC3 draws: for a workout count
    [c] in [randint(2, 5)] and a total [t] in [randint(500, 1000)] (lines
    136-137 and 145-146), [total // c] passes the check exactly when [c]
    divides [total]; otherwise the two differ by [(t mod c) / c >= 1/5].
    The gap is twenty times the tolerance, so the rounding of Python's
    [total / c] cannot change the outcome here. Outside these ranges it
    can: with [c = 100], [501 // 100] passes against the float
    [501 / 100], which the exact rational model would reject. *)
Theorem tc3_check_floor_division (t c : Z) (w : world R) :
  (2 <= c <= 5)%Z -> (500 <= t <= 1000)%Z ->
  py_abs_diff_lt (VInt (t / c)) (inject_Z t / inject_Z c) tolerance w =
    (Ok (bool_decide (t mod c = 0)%Z), w).
Proof.
  intros Hc _. destruct c as [|p|p]; try lia.
  unfold py_abs_diff_lt, tolerance. simpl py_num. cbv [mret SE_ret].
  do 2 f_equal.
  unfold Qle_bool, Qabs, Qminus, Qplus, Qopp, Qdiv, Qmult, Qinv, inject_Z. simpl.
  pose proof (Z.div_mod t (Z.pos p) ltac:(lia)) as Hdm.
  pose proof (Z.mod_pos_bound t (Z.pos p) ltac:(lia)) as Hm.
  remember (t / Z.pos p)%Z as q. remember (t mod Z.pos p)%Z as m.
  rewrite !Pos.mul_1_l, !Z.mul_1_r, Z.mul_1_l, (Z.mul_comm q (Z.pos p)).
  set (X := (Z.pos p * q)%Z) in *. clearbody X.
  case_bool_decide as Hz; destruct (Z.leb_spec (Z.pos p) (Z.abs (X + - t) * 100)); simpl; lia.
Qed.
End Tolerance.
