(* ===== verification/Driver.v ===== *)
(** * Driver: [test_student_code] and [write_report]

    The entry point of [driver.py] (lines 8-207) and the report writer
    (lines 209-211): remove an old report, load the module, short-circuit
    when [FitnessTracker] is missing, otherwise instantiate it, check the
    signatures, draw the random fixtures, run the five test cases in order,
    print the lines and write them to the report.  The theorems: a run that
    completes writes exactly one line per test case, in order, each tagged
    with its case; the short-circuit writes the single TC1 line and prints
    nothing; the candidate cannot tamper with the report. *)

From Stdlib Require Import QArith Ascii String.
From stdpp Require Import base list strings.
From S2P Require Import Prelude PyCore Random Candidate TestCases.

Open Scope string_scope.

(** [write_report(path, lines)]: the file is opened for writing
    (truncated) and receives the lines joined by newlines, plus one. *)
Definition write_report {R} (lines : list string) : PyM R unit :=
  se_modify (set_report (Some (py_join nl lines ++ nl))).

Definition missing_class_line : string := fail_line TC1 "FitnessTracker class missing".

Section Driver.
Context `{RandomSource R} `{FloatRepr}.

(** [test_student_code(solution_path)]; the path computations and
    [os.makedirs] of lines 9-10 have no effect on the model. *)
Definition test_student_code (m : student_module) : PyM R unit :=
  se_modify (set_report None);;
  lift_heap (sm_exec m);;
  match sm_tracker m with
  | None => write_report [missing_class_line]
  | Some cls =>
      tracker ← lift_heap (tc_init cls);
      fails ← signature_failures cls;
      user1 ← random_username;
      user2 ← random_username;
      user3 ← random_username;
      calories1 ← randint 100 500;
      calories2 ← randint 100 500;
      l1 ← tc1 tracker cls fails user1 user2;
      l2 ← tc2 tracker cls fails user1 user2 calories1 calories2;
      l3 ← tc3 tracker cls fails user2 user3;
      l4 ← htc1 tracker cls fails user1 user2 user3;
      l5 ← htc2 tracker cls fails;
      se_modify (add_stdout (py_join nl [l1; l2; l3; l4; l5] ++ nl));;
      write_report [l1; l2; l3; l4; l5]
  end.

(** Lines 213-215: run as a script, the harness grades [solution.py]
    beside it; the path has no effect on the model, whose module [m] is
    the one found there. *)
Definition main (solution : student_module) : PyM R unit := test_student_code solution.
End Driver.

(** ** A completed run writes one line per test case *)

(** Split the first step off a run [H], and carry the frame invariant
    [HI] across it. *)
Ltac run_step_as H HI Hc :=
  let a := fresh "a" in let s := fresh "s" in
  apply run_bind_inv in H as (a & s & Hc & H);
  match type of HI with
  | io_frame ?o ?r _ =>
      let HI' := fresh "HI" in
      assert (HI' : io_frame o r s) by (eapply frame_step; [|exact Hc|exact HI]; frame_solve);
      clear HI; rename HI' into HI
  end.
Ltac run_step H HI := let Hc := fresh "Hc" in run_step_as H HI Hc; clear Hc.

Lemma run_modify {R} (f : world R -> world R) (w w' : world R) u :
  se_modify (E:=exn) f w = (Ok u, w') -> w' = f w.
Proof. by intros [= _ <-]. Qed.

Section DriverProps.
Context `{RandomSource R} `{FloatRepr}.

(** C1. A run of [test_student_code] that completes leaves a report made
    of one line per test case, joined by newlines: when [FitnessTracker]
    is missing, the single TC1 failure line, and nothing is printed; when
    it exists, five lines, the i-th being the pass line or a failure line
    of the i-th test case (TC1, TC2, TC3, HTC1, HTC2), and the same text
    is printed once.  No case is skipped, whatever the candidate does. *)
Theorem report_one_line_per_case (m : student_module) (w w' : world R) :
  test_student_code m w = (Ok (), w') ->
  exists lines, w_report w' = Some (py_join nl lines ++ nl) /\
    ((sm_tracker m = None /\ lines = [missing_class_line] /\ w_stdout w' = w_stdout w) \/
     (exists cls, sm_tracker m = Some cls /\
        Forall2 line_of_case [TC1; TC2; TC3; HTC1; HTC2] lines /\
        w_stdout w' = app (w_stdout w) [py_join nl lines ++ nl])).
Proof.
  unfold test_student_code. intros Hrun.
  apply run_bind_inv in Hrun as ([] & w1 & H1 & Hrun). apply run_modify in H1 as ->.
  assert (HI : io_frame (w_stdout w) None (set_report None w)) by done.
  run_step Hrun HI.
  destruct (sm_tracker m) as [cls|] eqn:Hcls.
  - do 7 run_step Hrun HI.
    run_step_as Hrun HI L1. eapply yields_run in L1; [|apply tc1_line].
    run_step_as Hrun HI L2. eapply yields_run in L2; [|apply tc2_line].
    run_step_as Hrun HI L3. eapply yields_run in L3; [|apply tc3_line].
    run_step_as Hrun HI L4. eapply yields_run in L4; [|apply htc1_line].
    run_step_as Hrun HI L5. eapply yields_run in L5; [|apply htc2_line].
    apply run_bind_inv in Hrun as ([] & w2 & H2 & Hrun).
    apply run_modify in H2 as ->. apply run_modify in Hrun as ->.
    destruct HI as [Ho _]. eexists. split; [reflexivity|].
    right. exists cls. split; [done|].
    split; [repeat (constructor; [assumption|]); constructor|]. simpl. by rewrite Ho.
  - apply run_modify in Hrun as ->. destruct HI as [Ho _].
    eexists. split; [reflexivity|]. left. cbn. by rewrite Ho.
Qed.
End DriverProps.

(** ** The report file, read back line by line *)

Lemma split_nl_join (lines : list string) :
  lines <> [] -> Forall (fun l => has_nl l = false) lines ->
  split_nl (py_join nl lines ++ nl) = app lines [""].
Proof.
  intros Hne Hall. induction Hall as [|l lines Hl Hall IH]; [done|].
  destruct lines as [|l' lines].
  - cbn [py_join]. change (l ++ nl)%string with (l ++ nl ++ "")%string.
    rewrite (split_nl_line l ""); [done | exact Hl].
  - rewrite py_join_cons2, <- str_app_assoc, <- str_app_assoc, split_nl_line by exact Hl.
    rewrite IH by done. done.
Qed.

Section ReportLines.
Context {R : Type}.

(** C16. [write_report] (lines 209-211) writes the lines joined by
    newlines with a final newline: read back and split at newlines, the
    file gives the lines followed by an empty piece, provided no line
    contains a newline itself. *)
Theorem report_lines_roundtrip (lines : list string) (w : world R) :
  lines <> [] -> Forall (fun l => has_nl l = false) lines ->
  exists text, w_report (write_report lines w).2 = Some text /\ split_nl text = app lines [""].
Proof. intros Hne Hall. eexists. split; [reflexivity | by apply split_nl_join]. Qed.
End ReportLines.

(** ** A run that does not complete leaves no report *)

Lemma always_ok_write_report {R} (lines : list string) : always_ok (write_report (R:=R) lines).
Proof. apply always_ok_modify. Qed.

Section Aborts.
Context `{RandomSource R} `{FloatRepr}.

(** C12. [report.txt] is deleted before the module is loaded and written
    only at the very end: when a run raises an exception that nothing
    catches (an error while loading or instantiating the module, a
    non-callable required attribute, a [SystemExit] from the candidate) or
    never returns (a candidate method that hangs), no report is left,
    not even the one of an earlier run. *)
Theorem aborted_run_leaves_no_report (m : student_module) (w w' : world R)
    (r : outcome exn ()) :
  test_student_code m w = (r, w') -> r <> Ok () -> w_report w' = None.
Proof.
  intros Hrun Hnot. unfold test_student_code in Hrun.
  rewrite (run_bind_ok _ _ w () (set_report None w)) in Hrun by reflexivity.
  revert Hrun.
  match goal with
  | |- ?c ?s = _ -> _ =>
      enough (Hf : on_failure (io_frame (w_stdout w) None) c)
        by (intros Hrun; refine (proj2 (Hf _ _ _ _ Hrun _));
            [split; reflexivity | intros [] ->; by apply Hnot])
  end.
  apply on_failure_bind; [frame_solve|]. intros _.
  destruct (sm_tracker m) as [cls|]; [|apply on_failure_always_ok, always_ok_write_report].
  repeat (apply on_failure_bind; [solve [frame_solve]|]; intros ?).
  apply on_failure_always_ok, always_ok_bind; [apply always_ok_modify|].
  intros _. apply always_ok_write_report.
Qed.
End Aborts.
