(* ===== verification/Invariant.v ===== *)
(** * Invariant: the heap stays well formed through every run

    [heap_wf] (every object allocated below the allocation pointer, every
    dict with unique keys) holds after every step of [test_student_code],
    whether the run completes, raises or diverges, provided the
    candidate's own code keeps it ([keeps_wf]).  The harness's own steps
    keep it: dict displays store unique keys even when two of the names
    they are built from coincide (HTC1), lookups and printing do not
    change the heap, and the random draws touch the random state only. *)

From Stdlib Require Import QArith Ascii String.
From stdpp Require Import base list strings.
From S2P Require Import Prelude PyCore Random Candidate TestCases Driver.

Open Scope string_scope.

Definition heap_inv {R} (w : world R) : Prop := heap_wf (w_heap w).

(** A heap-level computation keeps the heap well formed. *)
Definition keeps_wf {A} (f : heap -> outcome exn A * heap) : Prop :=
  forall h o h', heap_wf h -> f h = (o, h') -> heap_wf h'.

(** The class's constructor and methods keep the heap well formed. *)
Definition class_keeps_wf (cls : tracker_class) : Prop :=
  keeps_wf (tc_init cls) /\
  forall m ps body, tc_attr cls m = AttrMethod ps body -> forall args, keeps_wf (body args).

Section Steps.
Context {R : Type} `{FloatRepr}.

Lemma inv_step_alloc_dict kvs : preserves (heap_inv (R:=R)) (alloc_dict kvs).
Proof. intros w o w' Hw. rewrite run_alloc_dict. intros [= _ <-]. by apply heap_wf_alloc, dict_wf_of_list. Qed.

Lemma inv_step_read_dict l : preserves (heap_inv (R:=R)) (read_dict l).
Proof. by intros w o w' Hw [= _ <-]. Qed.

Lemma inv_step_py_str v : preserves (heap_inv (R:=R)) (py_str v).
Proof. by intros w o w' Hw [= _ <-]. Qed.

Lemma inv_step_py_repr v : preserves (heap_inv (R:=R)) (py_repr v).
Proof. by intros w o w' Hw [= _ <-]. Qed.

Lemma inv_step_set_report o : preserves (heap_inv (R:=R)) (se_modify (E:=exn) (set_report o)).
Proof. by intros w r w' Hw [= _ <-]. Qed.

Lemma inv_step_add_stdout s : preserves (heap_inv (R:=R)) (se_modify (E:=exn) (add_stdout s)).
Proof. by intros w r w' Hw [= _ <-]. Qed.

Lemma inv_step_add_call m : preserves (heap_inv (R:=R)) (se_modify (E:=exn) (add_call m)).
Proof. by intros w r w' Hw [= _ <-]. Qed.

Lemma inv_step_lift_heap {A} (f : heap -> outcome exn A * heap) :
  keeps_wf f -> preserves (heap_inv (R:=R)) (lift_heap f).
Proof.
  intros Hf w o w' Hw. unfold lift_heap. destruct (f (w_heap w)) as [o' h] eqn:E.
  intros [= _ <-]. exact (Hf _ _ _ Hw E).
Qed.

Lemma inv_step_call_method self cls m args :
  class_keeps_wf cls -> preserves (heap_inv (R:=R)) (call_method self cls m args).
Proof.
  intros [_ Hm]. unfold call_method. destruct (tc_attr cls m) as [|v|ps body] eqn:Ha.
  - apply preserves_throw.
  - apply preserves_throw.
  - apply preserves_bind; [apply inv_step_add_call|]. intros _.
    apply inv_step_lift_heap, (Hm m ps body Ha).
Qed.

Lemma inv_step_raise {A} (e : exn) : preserves (A:=A) (heap_inv (R:=R)) (raise e).
Proof. apply preserves_throw. Qed.

Lemma inv_step_rng `{RandomSource R} {A} (c : PyM R A) : rng_only c -> preserves heap_inv c.
Proof. intros Hc. by apply rng_only_preserves. Qed.
End Steps.

Create HintDb wfframe.
#[export] Hint Resolve inv_step_alloc_dict inv_step_read_dict inv_step_py_str inv_step_py_repr
  inv_step_set_report inv_step_add_stdout inv_step_add_call inv_step_lift_heap
  inv_step_call_method inv_step_raise : wfframe.

Ltac wf_prim :=
  first [ solve [eauto with wfframe]
        | solve [apply inv_step_rng; eauto with harness]
        | progress autounfold with pyframe
        | progress unfold signature_check, signature_guard, write_report ].
Ltac wf_solve := repeat (logic_step wf_prim).

Lemma inv_step_signature_failures {R} `{FloatRepr} cls :
  preserves (heap_inv (R:=R)) (signature_failures cls).
Proof.
  unfold signature_failures. generalize expected_signatures as sigs.
  induction sigs as [|[m ps] sigs IH]; simpl; [apply preserves_ret|].
  apply preserves_bind; [wf_solve|]. intros o.
  apply preserves_bind; [exact IH|]. intros. apply preserves_ret.
Qed.
#[export] Hint Resolve inv_step_signature_failures : wfframe.

Section RunInvariant.
Context `{RandomSource R} `{FloatRepr}.

(** Whatever the outcome of a run (completed, an uncaught
    exception, or divergence), the heap is well formed at its end, when it
    was at its start and the candidate's module code, constructor and
    methods keep it so: every dict the harness builds (lines 70, 86,
    106, 116, 126, 140, 149, 170-174, 195) has unique keys, even when
    two of the drawn names coincide. *)
Theorem heap_wf_invariant (m : student_module) :
  keeps_wf (sm_exec m) -> (forall cls, sm_tracker m = Some cls -> class_keeps_wf cls) ->
  preserves (heap_inv (R:=R)) (test_student_code m).
Proof.
  intros Hexec Hcls. unfold test_student_code.
  apply preserves_bind; [apply inv_step_set_report|]. intros _.
  apply preserves_bind; [by apply inv_step_lift_heap|]. intros _.
  destruct (sm_tracker m) as [cls|] eqn:E; [pose proof (Hcls cls eq_refl) as Hc|]; wf_solve.
  apply inv_step_lift_heap, Hc.
Qed.
End RunInvariant.
