(* ===== verification/Totality.v ===== *)
(** * Totality: when a run of the harness completes

    Spec section 7 says every fault is recovered at the test-case
    boundary.  [exn_safe c]: from every world, [c] returns or raises an
    [Exception] (never a [BaseException] outside it, never diverges).
    Every step the harness takes is [exn_safe] when the candidate's
    methods are, so every test case returns its line; the run completes
    when, moreover, the module loads, [FitnessTracker()] returns, and no
    required method name is bound to a non-callable value (whose
    [inspect.signature] raises outside any [try]). *)

From Stdlib Require Import QArith Ascii String.
From stdpp Require Import base list strings.
From S2P Require Import Prelude PyCore Random Candidate TestCases Driver.

Open Scope string_scope.

Section Safe.
Context {R : Type}.

Definition exn_safe {A} (c : PyM R A) : Prop :=
  forall w, (exists a w', c w = (Ok a, w')) \/
            (exists e w', c w = (Raise e, w') /\ is_exception e = true).

Lemma safe_ret {A} (a : A) : exn_safe (mret a).
Proof. intros w. left. eauto. Qed.

Lemma safe_raise {A} (e : exn) : is_exception e = true -> exn_safe (A:=A) (raise e).
Proof. intros He w. right. eauto. Qed.

Lemma safe_bind {A B} (c : PyM R A) (k : A -> PyM R B) :
  exn_safe c -> (forall a, exn_safe (k a)) -> exn_safe (c ≫= k).
Proof.
  intros Hc Hk w. destruct (Hc w) as [(a & w1 & E)|(e & w1 & E & He)].
  - rewrite (run_bind_ok _ _ _ _ _ E). apply Hk.
  - right. exists e, w1. split; [|done]. by apply run_bind_raise.
Qed.

Lemma safe_always_ok {A} (c : PyM R A) : always_ok c -> exn_safe c.
Proof. intros Hc w. left. apply Hc. Qed.

(** A safe body in a [try ... except Exception] always returns. *)
Lemma safe_try_ok {A} (c : PyM R A) (h : exn -> PyM R A) :
  exn_safe c -> (forall e, is_exception e = true -> always_ok (h e)) ->
  always_ok (se_try is_exception c h).
Proof.
  intros Hc Hh w. destruct (Hc w) as [(a & w1 & E)|(e & w1 & E & He)].
  - rewrite (run_try_ok _ _ _ _ _ _ E). eauto.
  - rewrite (run_try_caught _ _ _ _ _ _ E He). apply Hh, He.
Qed.

Lemma safe_all_cons (c : PyM R bool) cs :
  exn_safe c -> exn_safe (se_all cs) -> exn_safe (se_all (c :: cs)).
Proof. intros Hc Hcs. apply safe_bind; [done|]. intros []; [done | apply safe_ret]. Qed.
End Safe.


(** The candidate's side: heap-level code that returns or raises an
    [Exception]. *)
Definition body_safe {A} (f : heap -> outcome exn A * heap) : Prop :=
  forall h, (exists a h', f h = (Ok a, h')) \/
            (exists e h', f h = (Raise e, h') /\ is_exception e = true).

(** Heap-level code that returns. *)
Definition body_ok {A} (f : heap -> outcome exn A * heap) : Prop :=
  forall h, exists a h', f h = (Ok a, h').

Definition class_safe (cls : tracker_class) : Prop :=
  forall m ps body, tc_attr cls m = AttrMethod ps body -> forall args, body_safe (body args).

Section Steps.
Context {R : Type} `{FloatRepr}.

Lemma safe_alloc_dict kvs : exn_safe (R:=R) (alloc_dict kvs).
Proof. intros w. left. eexists _, _. apply run_alloc_dict. Qed.

Lemma safe_read_dict l : exn_safe (R:=R) (read_dict l).
Proof. intros w. left. eauto. Qed.

Lemma safe_py_str v : exn_safe (R:=R) (py_str v).
Proof. intros w. left. eauto. Qed.

Lemma safe_py_repr v : exn_safe (R:=R) (py_repr v).
Proof. intros w. left. eauto. Qed.

Lemma safe_lift_heap {A} (f : heap -> outcome exn A * heap) :
  body_safe f -> exn_safe (R:=R) (lift_heap f).
Proof.
  intros Hf w. unfold lift_heap.
  destruct (Hf (w_heap w)) as [(a & h' & ->)|(e & h' & -> & He)]; [left | right]; eauto.
Qed.

Lemma safe_call_method self cls m args :
  class_safe cls -> exn_safe (R:=R) (call_method self cls m args).
Proof.
  intros Hc. unfold call_method. destruct (tc_attr cls m) as [|v|ps body] eqn:Ha.
  - by apply safe_raise.
  - by apply safe_raise.
  - apply safe_bind; [apply safe_always_ok, always_ok_modify|]. intros _.
    apply safe_lift_heap, (Hc m ps body Ha).
Qed.
End Steps.

Create HintDb safe.
#[export] Hint Resolve safe_ret safe_alloc_dict safe_read_dict safe_py_str safe_py_repr
  safe_call_method : safe.

Ltac safe_step :=
  match goal with
  | |- exn_safe (mret _) => apply safe_ret
  | |- exn_safe (raise _) => apply safe_raise; reflexivity
  | |- exn_safe (mthrow _) => apply safe_raise; reflexivity
  | |- exn_safe (_ ≫= _) => apply safe_bind; [|intros ?]
  | |- exn_safe (se_all []) => apply safe_ret
  | |- exn_safe (se_all (_ :: _)) => apply safe_all_cons
  | |- exn_safe (if ?b then _ else _) => destruct b
  | |- exn_safe (match ?x with _ => _ end) => destruct x
  | |- _ => progress cbv zeta
  | |- _ => solve [eauto with safe]
  | |- _ => progress autounfold with pyframe
  end.
Ltac safe_solve := repeat safe_step.

Section Rand.
Context `{RandomSource R}.

Lemma always_ok_rand_below n : always_ok (rand_below (R:=R) n).
Proof. intros w. unfold rand_below. destruct (randbelow n (w_rng w)). eauto. Qed.

Lemma always_ok_randint a b : always_ok (randint (R:=R) a b).
Proof. apply always_ok_bind; [apply always_ok_rand_below | intros; apply always_ok_ret]. Qed.

Lemma always_ok_random_username : always_ok (random_username (R:=R)).
Proof. intros w. destruct (random_username_loop_run w) as (name & r & Hrun & _). eauto. Qed.

(** Both failures of [random.choice] are [IndexError]s. *)
Lemma safe_choice seq : exn_safe (R:=R) (choice seq).
Proof.
  unfold choice. destruct (bool_decide _); [by apply safe_raise|].
  apply safe_bind; [apply safe_always_ok, always_ok_rand_below|]. intros i.
  destruct (String.get _ _); [apply safe_ret | by apply safe_raise].
Qed.

Lemma safe_choices seq n : exn_safe (R:=R) (choices seq n).
Proof.
  induction n as [|n IH]; simpl; [apply safe_ret|].
  apply safe_bind; [apply safe_choice|]. intros c. apply safe_bind; [done|]. intros. apply safe_ret.
Qed.
End Rand.

Lemma safe_signature_guard {R} m fs : exn_safe (R:=R) (signature_guard m fs).
Proof. unfold signature_guard. safe_solve. Qed.

#[export] Hint Resolve safe_choices safe_signature_guard : safe.

Section Cases.
Context `{RandomSource R} `{FloatRepr}.
Context (self : value) (cls : tracker_class) (fails : list string).
Hypothesis Hcls : class_safe cls.

Lemma safe_randint a b : exn_safe (R:=R) (randint a b).
Proof. apply safe_always_ok, always_ok_randint. Qed.
Hint Resolve safe_randint : safe.

Lemma safe_tc1_body u1 u2 : exn_safe (tc1_body (R:=R) self cls fails u1 u2).
Proof. autounfold with pyframe. safe_solve. Qed.

Lemma safe_tc2_body u1 u2 c1 c2 : exn_safe (tc2_body (R:=R) self cls fails u1 u2 c1 c2).
Proof. autounfold with pyframe. safe_solve. Qed.

Lemma safe_tc3_body u2 u3 : exn_safe (tc3_body (R:=R) self cls fails u2 u3).
Proof. autounfold with pyframe. safe_solve. Qed.

Lemma safe_htc1_body u1 u2 u3 : exn_safe (htc1_body (R:=R) self cls fails u1 u2 u3).
Proof. autounfold with pyframe. safe_solve. Qed.

Lemma safe_htc2_body : exn_safe (htc2_body (R:=R) self cls fails).
Proof. autounfold with pyframe. safe_solve. Qed.

Lemma always_ok_run_case c (body : PyM R string) :
  exn_safe body -> always_ok (run_case c body).
Proof. intros Hb. apply safe_try_ok; [done|]. intros; apply always_ok_ret. Qed.

Lemma always_ok_htc2 : always_ok (htc2 (R:=R) self cls fails).
Proof. apply safe_try_ok; [apply safe_htc2_body|]. intros; apply always_ok_ret. Qed.
End Cases.

(** ** The signature check completes unless a required name is bound to
    a non-callable value *)

(** No required method name is bound to a non-callable attribute. *)
Definition sig_callable (cls : tracker_class) : bool :=
  forallb (fun '(m, _) => match tc_attr cls m with AttrValue _ => false | _ => true end)
    expected_signatures.

(** The list comprehension that the loop of lines 37-43 computes:
    [[failure(m) for m, ps in expected_signatures.items() if failure(m)]]. *)
Definition sig_failures_ref (cls : tracker_class) : list string :=
  flat_map (fun '(m, ps) => option_list (sig_failure (tc_attr cls m) m ps)) expected_signatures.

Section SigLoop.
Context {R : Type} `{FloatRepr} (cls : tracker_class).

Lemma always_ok_signature_loop sigs :
  forallb (fun '(m, _) => match tc_attr cls m with AttrValue _ => false | _ => true end) sigs
    = true ->
  always_ok (signature_loop (R:=R) cls sigs).
Proof.
  induction sigs as [|[m ps] sigs IH]; simpl; [intros; apply always_ok_ret|].
  rewrite andb_true_iff. intros [Hm Hs].
  apply always_ok_bind; [|intros; apply always_ok_bind; [by apply IH | intros; apply always_ok_ret]].
  unfold signature_check. destruct (tc_attr cls m); [apply always_ok_ret | done | apply always_ok_ret].
Qed.

(** The first required name bound to a value makes [inspect.signature]
    raise its [TypeError]; the checks before it have no effect. *)
Lemma signature_loop_value_raises sigs (w : world R) :
  forallb (fun '(m, _) => match tc_attr cls m with AttrValue _ => false | _ => true end) sigs
    = false ->
  exists e, signature_loop cls sigs w = (Raise e, w) /\ exn_type e = "TypeError".
Proof.
  induction sigs as [|[m ps] sigs IH]; simpl; [done|].
  unfold signature_check. destruct (tc_attr cls m) eqn:Ha; simpl.
  - intros Hs. destruct (IH Hs) as (e & He & Ht). exists e. split; [|done].
    rewrite bind_ret_l. by apply run_bind_raise.
  - intros _. eexists. split; reflexivity.
  - intros Hs. destruct (IH Hs) as (e & He & Ht). exists e. split; [|done].
    rewrite bind_ret_l. by apply run_bind_raise.
Qed.

(** The signature loop equals the comprehension [sig_failures_ref]
    whenever no required name is bound to a non-callable value: it
    returns exactly those failures, in the order of
    [expected_signatures], and changes nothing else. *)
Theorem signature_failures_equiv (w : world R) :
  sig_callable cls = true -> signature_failures cls w = (Ok (sig_failures_ref cls), w).
Proof.
  intros Hs. destruct (always_ok_signature_loop expected_signatures Hs w) as (fs & w' & E).
  pose proof (signature_loop_ok cls _ w w' fs E) as [-> ->]. exact E.
Qed.
End SigLoop.

Lemma always_ok_lift_heap {R A} (f : heap -> outcome exn A * heap) :
  body_ok f -> always_ok (lift_heap (R:=R) f).
Proof. intros Hf w. unfold lift_heap. destruct (Hf (w_heap w)) as (a & h' & ->). eauto. Qed.

Create HintDb total.
#[export] Hint Resolve always_ok_lift_heap always_ok_random_username always_ok_randint
  always_ok_modify always_ok_write_report always_ok_htc2 : total.
#[export] Hint Extern 1 (always_ok (run_case _ _)) =>
  apply always_ok_run_case; first [ apply safe_tc1_body | apply safe_tc2_body
                                  | apply safe_tc3_body | apply safe_htc1_body ] : total.
#[export] Hint Extern 1 (always_ok (signature_failures _)) =>
  apply always_ok_signature_loop : total.

(** Compose [always_ok] through a run. *)
Ltac total_solve :=
  repeat (apply always_ok_bind; [solve [eauto with total] | intros ?]);
  solve [eauto with total].

Section Completion.
Context `{RandomSource R} `{FloatRepr}.

(** C9. A run of the harness completes, writing its report, when the
    module code and [FitnessTracker()] return, no required method name
    is bound to a non-callable value, and every method of the class
    returns or raises an [Exception]: every fault a test case meets is
    then recovered at its boundary. *)
Theorem harness_completes (m : student_module) (w : world R) :
  body_ok (sm_exec m) ->
  (forall cls, sm_tracker m = Some cls ->
     body_ok (tc_init cls) /\ sig_callable cls = true /\ class_safe cls) ->
  exists w', test_student_code m w = (Ok (), w').
Proof.
  intros Hx Hc. cut (always_ok (test_student_code (R:=R) m)).
  { intros Ha. destruct (Ha w) as ([] & w' & E). eauto. }
  unfold test_student_code, tc1, tc2, tc3, htc1.
  destruct (sm_tracker m) as [cls|]; [destruct (Hc cls eq_refl) as (Hi & Hs & Hsafe)|];
    total_solve.
Qed.

Lemma run_lift_heap_ok {A} (f : heap -> outcome exn A * heap) (w : world R) :
  body_ok f -> exists a h', lift_heap f w = (Ok a, set_heap h' w).
Proof. intros Hf. unfold lift_heap. destruct (Hf (w_heap w)) as (a & h' & ->). eauto. Qed.

(** C14. A required method name bound to a non-callable value aborts
    the run: [inspect.signature] raises a [TypeError] outside every
    [try] (line 38), so nothing is printed and no report is written,
    although spec section 7 says only a missing class or an unwritable
    report aborts. *)
Theorem signature_value_aborts (m : student_module) (cls : tracker_class) (w : world R) :
  sm_tracker m = Some cls -> body_ok (sm_exec m) -> body_ok (tc_init cls) ->
  sig_callable cls = false ->
  exists e w', test_student_code m w = (Raise e, w') /\ exn_type e = "TypeError" /\
    w_report w' = None /\ w_stdout w' = w_stdout w.
Proof.
  intros Hm Hx Hi Hs. unfold test_student_code.
  erewrite run_bind_ok by reflexivity.
  destruct (run_lift_heap_ok _ (set_report None w) Hx) as (u & h1 & E1).
  erewrite run_bind_ok by exact E1. rewrite Hm.
  destruct (run_lift_heap_ok _ (set_heap h1 (set_report None w)) Hi) as (t & h2 & E2).
  erewrite run_bind_ok by exact E2.
  destruct (signature_loop_value_raises cls expected_signatures
              (set_heap h2 (set_heap h1 (set_report None w))) Hs) as (e & E3 & He).
  exists e, (set_heap h2 (set_heap h1 (set_report None w))).
  split; [by apply run_bind_raise | done].
Qed.
End Completion.
