(* ===== verification/Typing.v ===== *)
(** * Typing: the harness calls the candidate only with well-typed arguments

    The contract table of spec section 6 gives each method its
    parameters: a dataset (a dict), a user name (a str) and, for
    [log_workout], an amount (an int).  [args_typed] states it for the
    argument list a body receives ([self] first).  [restrict_class cls]
    is [cls] with every method made to raise [TypeError] on ill-typed
    arguments.  The run of the harness with [restrict_class cls] is the
    run with [cls], world for world: no call of lines 64-204 passes an
    argument outside the table's types, so a candidate's behaviour on
    such arguments can never show in a report. *)

From Stdlib Require Import QArith Ascii String.
From stdpp Require Import base list strings.
From S2P Require Import Prelude PyCore Random Candidate TestCases Driver.

Open Scope string_scope.

(** The argument types of the contract table (spec section 6); the
    first argument is the receiver. *)
Definition args_typed (m : string) (args : list value) : bool :=
  match args with
  | [_; VDict _; VStr _] =>
      String.eqb m "register_user" || String.eqb m "calculate_average_calories"
  | [_; VDict _; VStr _; VInt _] => String.eqb m "log_workout"
  | [_; VDict _] => String.eqb m "generate_progress_report"
  | _ => false
  end.

Definition restrict_body (m : string) (body : method_body) : method_body := fun args h =>
  if args_typed m args then body args h
  else (Raise (type_error (m ++ "() got arguments of the wrong types")), h).

Definition restrict_class (cls : tracker_class) : tracker_class := {|
  tc_init := tc_init cls;
  tc_attr := fun m => match tc_attr cls m with
                      | AttrMethod ps body => AttrMethod ps (restrict_body m body)
                      | a => a
                      end
|}.

Definition restrict_module (sm : student_module) : student_module := {|
  sm_exec := sm_exec sm;
  sm_tracker := option_map restrict_class (sm_tracker sm)
|}.

(** ** Congruences of the monad, world for world *)
Section Ext.
Context {R : Type}.

Lemma bind_ext {A B} (c1 c2 : PyM R A) (k1 k2 : A -> PyM R B) (w : world R) :
  (forall w, c1 w = c2 w) -> (forall a w, k1 a w = k2 a w) -> (c1 ≫= k1) w = (c2 ≫= k2) w.
Proof.
  intros Hc Hk. cbv [mbind SE_bind]. rewrite Hc.
  destruct (c2 w) as [[a| |] w1]; auto.
Qed.

Lemma alloc_bind_ext {B} kvs (k1 k2 : value -> PyM R B) (w : world R) :
  (forall l w, k1 (VDict l) w = k2 (VDict l) w) ->
  (alloc_dict kvs ≫= k1) w = (alloc_dict kvs ≫= k2) w.
Proof. intros Hk. cbv [mbind SE_bind]. rewrite run_alloc_dict. apply Hk. Qed.

Lemma try_ext {A} f (c1 c2 : PyM R A) (h : exn -> PyM R A) (w : world R) :
  (forall w, c1 w = c2 w) -> se_try f c1 h w = se_try f c2 h w.
Proof. intros Hc. unfold se_try. by rewrite Hc. Qed.
End Ext.

Lemma call_method_restrict {R} `{FloatRepr} self cls m args (w : world R) :
  args_typed m (self :: args) = true ->
  call_method self (restrict_class cls) m args w = call_method self cls m args w.
Proof.
  intros Ht. unfold call_method. cbn [restrict_class tc_attr].
  destruct (tc_attr cls m); [done | done|]. cbv [mbind SE_bind se_modify lift_heap restrict_body].
  by rewrite Ht.
Qed.

Lemma signature_failures_restrict {R} `{FloatRepr} cls (w : world R) :
  signature_failures (restrict_class cls) w = signature_failures cls w.
Proof.
  unfold signature_failures. generalize expected_signatures as sigs. intros sigs. revert w.
  induction sigs as [|[m ps] sigs IH]; intros w0; [done|]. cbn [signature_loop].
  apply bind_ext; [|intros; apply bind_ext; [apply IH | done]].
  intros w'. unfold signature_check. cbn [restrict_class tc_attr].
  by destruct (tc_attr cls m).
Qed.

Create HintDb typing.

(** One step of the lockstep comparison of a run with [cls] and with
    [restrict_class cls]. *)
Ltac typed_step :=
  match goal with
  | |- ?x = ?x => reflexivity
  | |- (alloc_dict ?kvs ≫= _) _ = (alloc_dict ?kvs ≫= _) _ =>
      apply alloc_bind_ext; intros ? ?
  | |- (call_method _ (restrict_class _) _ _ ≫= _) _ = (call_method _ _ _ _ ≫= _) _ =>
      apply bind_ext; [intros ?; apply call_method_restrict; reflexivity | intros ? ?]
  | |- (signature_failures (restrict_class _) ≫= _) _ = (signature_failures _ ≫= _) _ =>
      apply bind_ext; [intros ?; apply signature_failures_restrict | intros ? ?]
  | |- (?c ≫= _) _ = (?c ≫= _) _ => apply bind_ext; [intros ?; reflexivity | intros ? ?]
  | |- se_try _ _ _ _ = se_try _ _ _ _ => apply try_ext; intros ?
  | |- (se_try _ _ _ ≫= _) _ = (se_try _ _ _ ≫= _) _ =>
      apply bind_ext; [intros ?; apply try_ext; intros ?; solve [eauto with typing] | intros ? ?]
  | |- (if ?b then _ else _) _ = (if ?b then _ else _) _ => destruct b
  | |- _ => progress cbv zeta
  end.
Ltac typed_solve := repeat typed_step.

Section Cases.
Context `{RandomSource R} `{FloatRepr}.
Context (self : value) (cls : tracker_class) (fs : list string).

Lemma tc1_body_restrict u1 u2 (w : world R) :
  tc1_body self (restrict_class cls) fs u1 u2 w = tc1_body self cls fs u1 u2 w.
Proof. unfold tc1_body. typed_solve. Qed.

Lemma tc2_body_restrict u1 u2 c1 c2 (w : world R) :
  tc2_body self (restrict_class cls) fs u1 u2 c1 c2 w = tc2_body self cls fs u1 u2 c1 c2 w.
Proof. unfold tc2_body. typed_solve. Qed.

Lemma tc3_body_restrict u2 u3 (w : world R) :
  tc3_body self (restrict_class cls) fs u2 u3 w = tc3_body self cls fs u2 u3 w.
Proof. unfold tc3_body. typed_solve. Qed.

Lemma htc1_body_restrict u1 u2 u3 (w : world R) :
  htc1_body self (restrict_class cls) fs u1 u2 u3 w = htc1_body self cls fs u1 u2 u3 w.
Proof. unfold htc1_body. typed_solve. Qed.

Lemma htc2_body_restrict (w : world R) :
  htc2_body self (restrict_class cls) fs w = htc2_body self cls fs w.
Proof. unfold htc2_body. typed_solve. Qed.
End Cases.

#[export] Hint Resolve tc1_body_restrict tc2_body_restrict tc3_body_restrict
  htc1_body_restrict htc2_body_restrict : typing.

Section Run.
Context `{RandomSource R} `{FloatRepr}.

(** C10. The harness calls the candidate's methods only with the
    argument types of the contract table (a dict, a str, and an int for
    [log_workout]): the run with every method restricted to raise on
    other arguments is the same run, world for world, outcome, report,
    standard output and call trace included. *)
Theorem harness_calls_well_typed (sm : student_module) (w : world R) :
  test_student_code (restrict_module sm) w = test_student_code sm w.
Proof.
  unfold test_student_code, tc1, tc2, tc3, htc1, htc2, run_case. cbn [restrict_module sm_exec sm_tracker].
  apply bind_ext; [done|]. intros _ w1. apply bind_ext; [done|]. intros _ w2.
  destruct (sm_tracker sm) as [cls|]; [|done]. cbn [option_map].
  change (tc_init (restrict_class cls)) with (tc_init cls).
  typed_solve.
Qed.
End Run.
