(* ===== verification/HeapTyping.v ===== *)
(** * HeapTyping: no dangling references

    Python never frees an object that is still referenced.  In the model
    a value [VDict l] is well typed in a heap when [l] is allocated
    ([val_ok]), and a heap is closed when every value stored in one of
    its dicts is well typed ([heap_closed]).  Objects are never removed,
    so the heap only grows ([heap_le], a preorder) and well-typedness of
    a value is monotone ([val_ok] is [Proper] for [heap_le]).

    [hwp c Φ h] is a weakest-precondition style judgement on the heap
    part of the world: from any world with the closed heap [h], [c] ends
    (returning, raising or diverging) in a closed heap that extends [h],
    and a returned value satisfies [Φ].  Its rules are those of a
    program logic for the monad ([hwp_bind], [hwp_try], ...) and one
    rule per primitive; the tactic [hwp_solve] applies them and carries
    the well-typedness of the values in scope across the steps.  The
    harness stores in its dicts only literals and dicts it has just
    allocated, so every run keeps the heap closed when the candidate's
    code does ([heap_closed_invariant]). *)

From Stdlib Require Import QArith Ascii String.
From stdpp Require Import base list strings gmap.
From S2P Require Import Prelude PyCore Random Candidate TestCases Driver.

Open Scope string_scope.

Definition val_ok (h : heap) (v : value) : Prop :=
  match v with VDict l => is_Some (h_objs h !! l) | _ => True end.

Definition dict_ok (h : heap) (d : dict) : Prop := Forall (fun kv => val_ok h kv.2) d.

Definition heap_closed (h : heap) : Prop := map_Forall (fun _ d => dict_ok h d) (h_objs h).

(** [h'] keeps every object of [h]. *)
Definition heap_le (h h' : heap) : Prop :=
  forall l, is_Some (h_objs h !! l) -> is_Some (h_objs h' !! l).

#[export] Instance heap_le_preorder : PreOrder heap_le.
Proof. split; [by intros h l | intros h1 h2 h3 H12 H23 l Hl; auto]. Qed.

#[export] Instance val_ok_proper : Proper (heap_le ==> eq ==> impl) val_ok.
Proof. intros h h' Hle v ? <- Hv. destruct v; simpl in *; auto. Qed.

#[export] Instance dict_ok_proper : Proper (heap_le ==> eq ==> impl) dict_ok.
Proof. intros h h' Hle d ? <- Hd. eapply Forall_impl; [exact Hd|]. intros kv. by apply val_ok_proper. Qed.

Lemma val_ok_mono h h' v : heap_le h h' -> val_ok h v -> val_ok h' v.
Proof. intros Hle. exact (val_ok_proper h h' Hle v v eq_refl). Qed.

Lemma dict_ok_mono h h' d : heap_le h h' -> dict_ok h d -> dict_ok h' d.
Proof. intros Hle. exact (dict_ok_proper h h' Hle d d eq_refl). Qed.

Lemma dict_ok_set h d k v : dict_ok h d -> val_ok h v -> dict_ok h (dict_set d k v).
Proof.
  unfold dict_ok. induction d as [|[k' v'] d IH]; simpl; intros Hd Hv; [by constructor|].
  inversion Hd as [|? ? Hkv Hd']; subst.
  destruct (String.eqb k k'); constructor; simpl in *; auto.
Qed.

Lemma dict_ok_fold h kvs acc :
  Forall (fun kv => val_ok h kv.2) kvs -> dict_ok h acc ->
  dict_ok h (fold_left (fun d kv => dict_set d kv.1 kv.2) kvs acc).
Proof.
  revert acc. induction kvs as [|kv kvs IH]; intros acc Hkvs Hacc; simpl; [done|].
  apply Forall_cons in Hkvs as [Hkv Hkvs]. apply IH; [done|]. by apply dict_ok_set.
Qed.

Lemma dict_ok_of_list h kvs : Forall (fun kv => val_ok h kv.2) kvs -> dict_ok h (dict_of_list kvs).
Proof. intros Hkvs. apply dict_ok_fold; [done | constructor]. Qed.

(** Allocation extends the heap, keeps it closed when the new dict's
    values are well typed, and returns a well-typed reference. *)
Lemma heap_le_alloc h d : heap_le h (heap_alloc h d).2.
Proof. intros l Hl. simpl. rewrite lookup_insert_is_Some'. by right. Qed.

Lemma val_ok_alloc h d : val_ok (heap_alloc h d).2 (VDict (heap_alloc h d).1).
Proof. simpl. rewrite lookup_insert_eq. eauto. Qed.

Lemma heap_closed_alloc h d : heap_closed h -> dict_ok h d -> heap_closed (heap_alloc h d).2.
Proof.
  intros Hc Hd. pose proof (heap_le_alloc h d) as Hle. simpl in *.
  apply map_Forall_insert_2; [exact (dict_ok_mono _ _ _ Hle Hd)|].
  intros l d' Hl. exact (dict_ok_mono _ _ _ Hle (Hc l d' Hl)).
Qed.

(** Updating an allocated object in place. *)
Lemma heap_le_update h l d : is_Some (h_objs h !! l) -> heap_le h (heap_update h l d).
Proof. intros _ l' Hl'. simpl. rewrite lookup_insert_is_Some'. by right. Qed.

Lemma heap_closed_update h l d :
  heap_closed h -> is_Some (h_objs h !! l) -> dict_ok h d -> heap_closed (heap_update h l d).
Proof.
  intros Hc Hl Hd. pose proof (heap_le_update h l d Hl) as Hle. simpl in *.
  apply map_Forall_insert_2; [exact (dict_ok_mono _ _ _ Hle Hd)|].
  intros l' d' Hl'. exact (dict_ok_mono _ _ _ Hle (Hc l' d' Hl')).
Qed.

Lemma dict_ok_heap_dict h l : heap_closed h -> dict_ok h (heap_dict h l).
Proof.
  intros Hc. unfold heap_dict. destruct (h_objs h !! l) as [d|] eqn:E; simpl; [|constructor].
  exact (Hc l d E).
Qed.

Lemma dict_ok_lookup h d k v : dict_ok h d -> dict_lookup d k = Some v -> val_ok h v.
Proof.
  induction d as [|[k' v'] d IH]; simpl; [done|]. intros Hd. inversion Hd; subst.
  destruct (String.eqb k k'); [by intros [= <-] | auto].
Qed.

(** ** The judgement and its rules *)

Section Logic.
Context {R : Type}.

Definition hwp {A} (c : PyM R A) (Φ : A -> heap -> Prop) (h : heap) : Prop :=
  forall w o w', w_heap w = h -> heap_closed h -> c w = (o, w') ->
    heap_closed (w_heap w') /\ heap_le h (w_heap w') /\ forall a, o = Ok a -> Φ a (w_heap w').

(** [c] never changes the heap. *)
Definition heap_stable {A} (c : PyM R A) : Prop :=
  forall w o w', c w = (o, w') -> w_heap w' = w_heap w.

Lemma hwp_stable {A} (c : PyM R A) Φ h :
  heap_stable c -> (forall a, Φ a h) -> hwp c Φ h.
Proof.
  intros Hs HΦ w o w' <- Hcl E. rewrite (Hs _ _ _ E). split; [done|]. split; [reflexivity|].
  intros a _. apply HΦ.
Qed.

Lemma hwp_ret {A} (a : A) Φ h : Φ a h -> hwp (mret a) Φ h.
Proof. intros HΦ w o w' <- Hcl [= <- <-]. split; [done|]. split; [reflexivity|]. by intros ? [= <-]. Qed.

Lemma hwp_throw {A} (e : exn) Φ h : hwp (A:=A) (raise e) Φ h.
Proof. intros w o w' <- Hcl [= <- <-]. split; [done|]. split; [reflexivity|]. by intros ? ?. Qed.

Lemma hwp_frame {A} (c : PyM R A) Ψ Φ h :
  hwp c Ψ h -> (forall a h', heap_le h h' -> heap_closed h' -> Ψ a h' -> Φ a h') -> hwp c Φ h.
Proof.
  intros Hc HΦ w o w' Hw Hcl E. destruct (Hc w o w' Hw Hcl E) as (Hcl' & Hle & HΨ).
  split; [done|]. split; [done|]. intros a Ha. by apply HΦ, HΨ.
Qed.

Lemma hwp_bind {A B} (c : PyM R A) (k : A -> PyM R B) Φ h :
  hwp c (fun a h' => hwp (k a) Φ h') h -> hwp (c ≫= k) Φ h.
Proof.
  intros Hc w o w' <- Hcl. cbv [mbind SE_bind]. destruct (c w) as [o1 w1] eqn:E.
  destruct (Hc w o1 w1 eq_refl Hcl E) as (Hcl1 & Hle1 & Hk).
  destruct o1 as [a| |]; intros Hr.
  - destruct (Hk a eq_refl w1 o w' eq_refl Hcl1 Hr) as (Hcl2 & Hle2 & HΦ).
    split; [done|]. split; [by etrans|done].
  - injection Hr as <- <-. split; [done|]. split; [done|]. by intros ? ?.
  - injection Hr as <- <-. split; [done|]. split; [done|]. by intros ? ?.
Qed.

Lemma hwp_try {A} f (c : PyM R A) (hd : exn -> PyM R A) Φ h :
  hwp c Φ h -> (forall e h', heap_le h h' -> heap_closed h' -> hwp (hd e) Φ h') ->
  hwp (se_try f c hd) Φ h.
Proof.
  intros Hc Hh w o w' <- Hcl. unfold se_try. destruct (c w) as [o1 w1] eqn:E.
  destruct (Hc w o1 w1 eq_refl Hcl E) as (Hcl1 & Hle1 & HΦ).
  destruct o1 as [a|e|]; [by intros [= <- <-]| |by intros [= <- <-]].
  destruct (f e); [|by intros [= <- <-]]. intros Hr.
  destruct (Hh e _ Hle1 Hcl1 w1 o w' eq_refl Hcl1 Hr) as (? & ? & ?).
  split; [done|]. split; [by etrans|done].
Qed.

Lemma stable_ret {A} (a : A) : heap_stable (mret a).
Proof. by intros w o w' [= _ <-]. Qed.

Lemma stable_throw {A} (e : exn) : heap_stable (A:=A) (raise e).
Proof. by intros w o w' [= _ <-]. Qed.

Lemma stable_bind {A B} (c : PyM R A) (k : A -> PyM R B) :
  heap_stable c -> (forall a, heap_stable (k a)) -> heap_stable (c ≫= k).
Proof.
  intros Hc Hk w o w'. cbv [mbind SE_bind]. destruct (c w) as [[a| |] w1] eqn:E.
  - intros Hr. rewrite (Hk a _ _ _ Hr). exact (Hc _ _ _ E).
  - intros [= _ <-]. exact (Hc _ _ _ E).
  - intros [= _ <-]. exact (Hc _ _ _ E).
Qed.

Lemma stable_all_cons (c : PyM R bool) cs :
  heap_stable c -> heap_stable (se_all cs) -> heap_stable (se_all (c :: cs)).
Proof. intros Hc Hcs. apply stable_bind; [done|]. intros []; [done | apply stable_ret]. Qed.

Lemma stable_modify (f : world R -> world R) :
  (forall w, w_heap (f w) = w_heap w) -> heap_stable (se_modify (E:=exn) f).
Proof. intros Hf w o w' [= _ <-]. apply Hf. Qed.

Lemma stable_read_dict l : heap_stable (read_dict (R:=R) l).
Proof. by intros w o w' [= _ <-]. Qed.
End Logic.

(** ** The candidate's side *)

(** Heap-level code that keeps the heap closed, only extends it, and
    returns a result satisfying [P] in the heap it leaves. *)
Definition code_closed {A} (P : heap -> A -> Prop) (f : heap -> outcome exn A * heap) : Prop :=
  forall h o h', heap_closed h -> f h = (o, h') ->
    heap_closed h' /\ heap_le h h' /\ forall a, o = Ok a -> P h' a.

(** A method that, called with well-typed arguments, keeps the heap
    closed and returns a well-typed value. *)
Definition method_closed (body : method_body) : Prop :=
  forall args h o h', heap_closed h -> Forall (val_ok h) args -> body args h = (o, h') ->
    heap_closed h' /\ heap_le h h' /\ forall v, o = Ok v -> val_ok h' v.

(** The constructor returns a well-typed object and every method is
    closed. *)
Definition class_closed (cls : tracker_class) : Prop :=
  code_closed (fun h v => val_ok h v) (tc_init cls) /\
  forall m ps body, tc_attr cls m = AttrMethod ps body -> method_closed body.

Section Prims.
Context {R : Type} `{FloatRepr}.

Lemma stable_py_str v : heap_stable (py_str (R:=R) v).
Proof. by intros w o w' [= _ <-]. Qed.

Lemma stable_py_repr v : heap_stable (py_repr (R:=R) v).
Proof. by intros w o w' [= _ <-]. Qed.

Lemma stable_rng `{RandomSource R} {A} (c : PyM R A) : rng_only c -> heap_stable c.
Proof. intros Hc w o w'. rewrite (Hc w). by intros [= _ <-]. Qed.

Lemma hwp_alloc kvs Φ (h : heap) :
  Forall (fun kv => val_ok h kv.2) kvs ->
  (forall v h', heap_le h h' -> heap_closed h' -> val_ok h' v -> Φ v h') ->
  hwp (alloc_dict (R:=R) kvs) Φ h.
Proof.
  intros Hkvs HΦ w o w' <- Hcl. rewrite run_alloc_dict. intros [= <- <-]. cbn [w_heap set_heap].
  pose proof (heap_le_alloc (w_heap w) (dict_of_list kvs)) as Hle.
  pose proof (heap_closed_alloc _ _ Hcl (dict_ok_of_list _ _ Hkvs)) as Hcl'.
  split; [done|]. split; [done|]. intros a [= <-]. apply HΦ; [done..|]. apply val_ok_alloc.
Qed.

Lemma hwp_lift_heap {A} (P : heap -> A -> Prop) f Φ (h : heap) :
  code_closed P f -> (forall a h', heap_le h h' -> heap_closed h' -> P h' a -> Φ a h') ->
  hwp (lift_heap (R:=R) f) Φ h.
Proof.
  intros Hf HΦ w o w' <- Hcl. unfold lift_heap. destruct (f (w_heap w)) as [o1 h1] eqn:E.
  intros [= <- <-]. cbn [w_heap set_heap]. destruct (Hf _ _ _ Hcl E) as (Hcl1 & Hle & HP).
  split; [done|]. split; [done|]. intros a Ha. apply HΦ; auto.
Qed.

Lemma hwp_call self cls m args Φ (h : heap) :
  class_closed cls -> Forall (val_ok h) (self :: args) ->
  (forall v h', heap_le h h' -> heap_closed h' -> val_ok h' v -> Φ v h') ->
  hwp (call_method (R:=R) self cls m args) Φ h.
Proof.
  intros [_ Hm] Hargs HΦ. unfold call_method. destruct (tc_attr cls m) as [|v|ps body] eqn:Ha.
  1, 2: apply hwp_throw.
  apply hwp_bind, hwp_stable; [apply stable_modify; by intros [] | intros _].
  intros w o w' <- Hcl. unfold lift_heap. destruct (body _ (w_heap w)) as [o1 h1] eqn:E.
  intros [= <- <-]. cbn [w_heap set_heap].
  destruct (Hm m ps body Ha _ _ _ _ Hcl Hargs E) as (Hcl1 & Hle & HP).
  split; [done|]. split; [done|]. intros a Ha'. apply HΦ; auto.
Qed.
End Prims.

Create HintDb stable.
#[export] Hint Resolve stable_ret stable_read_dict stable_py_str stable_py_repr : stable.
#[export] Hint Extern 1 (heap_stable (se_modify _)) => apply stable_modify; by intros [] : stable.

Ltac stable_step :=
  match goal with
  | |- heap_stable (mret _) => apply stable_ret
  | |- heap_stable (raise _) => apply stable_throw
  | |- heap_stable (mthrow _) => apply stable_throw
  | |- heap_stable (_ ≫= _) => apply stable_bind; [|intros ?]
  | |- heap_stable (se_all []) => apply stable_ret
  | |- heap_stable (se_all (_ :: _)) => apply stable_all_cons
  | |- heap_stable (if ?b then _ else _) => destruct b
  | |- heap_stable (match ?x with _ => _ end) => destruct x
  | |- _ => progress cbv zeta
  | |- _ => solve [eauto with stable]
  | |- heap_stable _ => solve [apply stable_rng; eauto with harness]
  | |- _ => progress autounfold with pyframe
  | |- _ => progress unfold signature_guard, signature_check, write_report
  end.
Ltac stable_solve := repeat stable_step.

Lemma stable_signature_failures {R} `{FloatRepr} cls : heap_stable (signature_failures (R:=R) cls).
Proof.
  unfold signature_failures. generalize expected_signatures as sigs.
  induction sigs as [|[m ps] sigs IH]; simpl; [apply stable_ret|].
  apply stable_bind; [stable_solve|]. intros o. apply stable_bind; [exact IH|]. intros. apply stable_ret.
Qed.
#[export] Hint Resolve stable_signature_failures : stable.

(** Carry the well-typedness of the values in scope to a larger heap. *)
Ltac transport :=
  repeat match goal with
  | H : val_ok ?h ?v, Hle : heap_le ?h ?h' |- _ => apply (val_ok_mono _ _ _ Hle) in H
  end.

Ltac forall_ok :=
  repeat match goal with
  | |- Forall _ [] => constructor
  | |- Forall _ (_ :: _) => constructor
  | |- _ => progress cbn beta
  | |- _ => progress unfold user_record
  end; try assumption; try exact I.

Ltac hwp_step :=
  match goal with
  | |- True => exact I
  | |- hwp (mret _) _ _ => apply hwp_ret
  | |- hwp (raise _) _ _ => apply hwp_throw
  | |- hwp (mthrow _) _ _ => apply hwp_throw
  | |- hwp (alloc_dict _ ≫= _) _ _ =>
      apply hwp_bind, hwp_alloc; [forall_ok | intros ? ? ? ? ?; transport]
  | |- hwp (call_method _ _ _ _ ≫= _) _ _ =>
      apply hwp_bind, hwp_call; [assumption | forall_ok | intros ? ? ? ? ?; transport]
  | |- hwp (_ ≫= _) _ _ => apply hwp_bind, hwp_stable; [solve [stable_solve] | intros ?]
  | |- hwp ((_ ≫= _) ≫= _) _ _ => apply hwp_bind
  | |- hwp ((if ?b then _ else _) ≫= _) _ _ => destruct b
  | |- hwp (get_or_empty _ _ ≫= _) _ _ => unfold get_or_empty
  | |- hwp (if ?b then _ else _) _ _ => destruct b
  | |- hwp (match ?x with _ => _ end) _ _ => destruct x
  | |- _ => progress cbv zeta
  | |- hwp _ _ _ => apply hwp_stable; [solve [stable_solve] | intros ?]
  end.
Ltac hwp_solve := repeat hwp_step.

Section Cases.
Context `{RandomSource R} `{FloatRepr}.
Context (self : value) (cls : tracker_class) (fs : list string).
Hypothesis Hcls : class_closed cls.

Lemma hwp_tc1_body u1 u2 h :
  val_ok h self -> hwp (tc1_body (R:=R) self cls fs u1 u2) (fun _ _ => True) h.
Proof. intros Hs. unfold tc1_body. hwp_solve. Qed.

Lemma hwp_tc2_body u1 u2 c1 c2 h :
  val_ok h self -> hwp (tc2_body (R:=R) self cls fs u1 u2 c1 c2) (fun _ _ => True) h.
Proof. intros Hs. unfold tc2_body. hwp_solve. Qed.

Lemma hwp_tc3_body u2 u3 h :
  val_ok h self -> hwp (tc3_body (R:=R) self cls fs u2 u3) (fun _ _ => True) h.
Proof. intros Hs. unfold tc3_body. hwp_solve. Qed.

Lemma hwp_htc1_body u1 u2 u3 h :
  val_ok h self -> hwp (htc1_body (R:=R) self cls fs u1 u2 u3) (fun _ _ => True) h.
Proof. intros Hs. unfold htc1_body. hwp_solve. Qed.

Lemma hwp_htc2_body h :
  val_ok h self -> hwp (htc2_body (R:=R) self cls fs) (fun _ _ => True) h.
Proof. intros Hs. unfold htc2_body. hwp_solve. Qed.

(** A test case inside its [try]: whatever its postcondition asks of a
    larger closed heap. *)
Lemma hwp_case {A} (body : PyM R A) f hd Φ h :
  hwp body (fun _ _ => True) h ->
  (forall e h', heap_le h h' -> heap_closed h' -> hwp (hd e) Φ h') ->
  (forall a h', heap_le h h' -> heap_closed h' -> Φ a h') ->
  hwp (se_try f body hd) Φ h.
Proof. intros Hb Hh HΦ. apply hwp_try; [|done]. eapply hwp_frame; [exact Hb|]. auto. Qed.

Ltac case_solve lem := intros Hs; apply hwp_case; [by apply lem | intros; by apply hwp_ret | done].

Lemma hwp_tc1 u1 u2 h : val_ok h self -> hwp (tc1 (R:=R) self cls fs u1 u2) (fun _ _ => True) h.
Proof. case_solve hwp_tc1_body. Qed.

Lemma hwp_tc2 u1 u2 c1 c2 h :
  val_ok h self -> hwp (tc2 (R:=R) self cls fs u1 u2 c1 c2) (fun _ _ => True) h.
Proof. case_solve hwp_tc2_body. Qed.

Lemma hwp_tc3 u2 u3 h : val_ok h self -> hwp (tc3 (R:=R) self cls fs u2 u3) (fun _ _ => True) h.
Proof. case_solve hwp_tc3_body. Qed.

Lemma hwp_htc1 u1 u2 u3 h :
  val_ok h self -> hwp (htc1 (R:=R) self cls fs u1 u2 u3) (fun _ _ => True) h.
Proof. case_solve hwp_htc1_body. Qed.

Lemma hwp_htc2 h : val_ok h self -> hwp (htc2 (R:=R) self cls fs) (fun _ _ => True) h.
Proof. case_solve hwp_htc2_body. Qed.
End Cases.

Create HintDb heaptyping.
#[export] Hint Resolve hwp_tc1 hwp_tc2 hwp_tc3 hwp_htc1 hwp_htc2 : heaptyping.

Section Run.
Context `{RandomSource R} `{FloatRepr}.

(** The whole run, as a judgement: each test case through its lemma,
    the rest step by step. *)
Lemma hwp_test_student_code (m : student_module) h :
  code_closed (fun _ _ => True) (sm_exec m) ->
  (forall cls, sm_tracker m = Some cls -> class_closed cls) ->
  hwp (test_student_code (R:=R) m) (fun _ _ => True) h.
Proof.
  intros Hexec Hcls. unfold test_student_code.
  apply hwp_bind, hwp_stable; [stable_solve | intros _].
  apply hwp_bind. eapply hwp_lift_heap; [exact Hexec|]. intros _ h1 _ _ _.
  destruct (sm_tracker m) as [cls|] eqn:E; [|hwp_solve].
  pose proof (Hcls cls eq_refl) as Hc.
  apply hwp_bind. eapply hwp_lift_heap; [exact (proj1 Hc)|]. intros tr h2 _ _ Htr. cbn beta in Htr.
  repeat first
    [ hwp_step
    | apply hwp_bind; eapply hwp_frame;
        [solve [eauto with heaptyping] | intros ? ? ? ? _; transport] ].
Qed.
End Run.

Section Invariant.
Context `{RandomSource R} `{FloatRepr}.

(** No dangling references: whatever the outcome of a run
    (completed, an uncaught exception, or divergence), every dict value
    stored in the heap refers to an allocated object at its end, and no
    object of the start has gone, when this held at the start and the
    candidate's module code, constructor and methods keep it (for the
    methods: when called with well-typed arguments).  The harness stores
    only literals and the dicts it has just built (lines 70, 86, 106, 116,
    126, 140, 149, 170-174, 195). *)
Theorem heap_closed_invariant (m : student_module) (w w' : world R) (o : outcome exn unit) :
  code_closed (fun _ _ => True) (sm_exec m) ->
  (forall cls, sm_tracker m = Some cls -> class_closed cls) ->
  heap_closed (w_heap w) -> test_student_code m w = (o, w') ->
  heap_closed (w_heap w') /\ heap_le (w_heap w) (w_heap w').
Proof.
  intros Hexec Hcls Hcl Hr.
  destruct (hwp_test_student_code m (w_heap w) Hexec Hcls w o w' eq_refl Hcl Hr) as (? & ? & _).
  done.
Qed.
End Invariant.
