(* ===== verification/Contract.v ===== *)
(** * Contract: what the harness accepts

    The spec (sections 4.3-4.7, 6 and 8) states what the submitted class
    must do.  [class_contract] is that promise as an interface: a record
    of laws, one per required method, each about the heap-level body that
    [tc_attr] returns for the method under its expected parameter names.
    The laws are stated as weakly as the spec allows (a method may return
    another dict than its argument, an average may be any number within
    the tolerance, a tier at the open boundaries 1000 and 5000 may be any
    string).  The theorems of this file are proved against the interface
    only: every test case passes for a class that meets it (completeness
    of the harness), except HTC1, which passes exactly when the three
    drawn user names are pairwise distinct.  [Reference.v] discharges the
    interface for the reference class. *)

From Stdlib Require Import QArith Qabs Ascii String.
From stdpp Require Import base list strings.
From S2P Require Import Prelude PyCore Random Candidate TestCases Driver.

Open Scope string_scope.

(** [fitness_data[u]] is the user record [rec] in heap [h]: the dict at
    [l] maps [u] to a dict object whose entries are [rec]. *)
Definition rec_at (h : heap) (l : loc) (u : string) (rec : dict) : Prop :=
  exists d r, pts h l d /\ dict_lookup d u = Some (VDict r) /\ pts h r rec.

(** A record as [register_user] creates it. *)
Definition fresh_record (rec : dict) : Prop :=
  dict_lookup rec "workouts" = Some (VInt 0) /\ dict_lookup rec "calories" = Some (VInt 0) /\
  dict_lookup rec "status" = Some (VStr "Inactive").

(** The tiers of spec 4.6 and 8; 1000 and 5000 are left open. *)
Definition tier_spec (cal : Z) (s : string) : Prop :=
  ((cal < 1000)%Z -> s = "Beginner") /\ ((1000 < cal < 5000)%Z -> s = "Intermediate") /\
  ((5000 < cal)%Z -> s = "Advanced").

(** Module-level code and [FitnessTracker()] return normally. *)
Definition total_law {A} (f : heap -> outcome exn A * heap) : Prop :=
  forall h, heap_wf h -> exists x h', f h = (Ok x, h') /\ heap_wf h'.

(** [register_user(fitness_data, u)] on any dict: the returned dict and
    the caller's dict both map [u] to a fresh record. *)
Definition register_law (body : method_body) : Prop :=
  forall self h l d u, heap_wf h -> pts h l d ->
    exists h' l' rec rec0, body [self; VDict l; VStr u] h = (Ok (VDict l'), h') /\
      heap_wf h' /\ rec_at h' l' u rec /\ fresh_record rec /\
      rec_at h' l u rec0 /\ fresh_record rec0.

(** [log_workout(fitness_data, u, c)] for a present user: the returned
    dict shows the record with one more workout and [c] more calories. *)
Definition log_law (body : method_body) : Prop :=
  forall self h l u c rec wk cal, heap_wf h -> rec_at h l u rec ->
    dict_lookup rec "workouts" = Some (VInt wk) -> dict_lookup rec "calories" = Some (VInt cal) ->
    exists h' l' rec', body [self; VDict l; VStr u; VInt c] h = (Ok (VDict l'), h') /\
      heap_wf h' /\ rec_at h' l' u rec' /\
      dict_lookup rec' "workouts" = Some (VInt (wk + 1)) /\
      dict_lookup rec' "calories" = Some (VInt (cal + c)).

(** [log_workout] on an absent user raises an [Exception]. *)
Definition log_absent_law (body : method_body) : Prop :=
  forall self h l d u c, heap_wf h -> pts h l d -> dict_lookup d u = None ->
    exists e h', body [self; VDict l; VStr u; VInt c] h = (Raise e, h') /\
      heap_wf h' /\ is_exception e = true.

(** [calculate_average_calories]: a number within the tolerance of
    [calories / workouts], for a positive workout count. *)
Definition average_law (body : method_body) : Prop :=
  forall self h l u rec wk cal, heap_wf h -> rec_at h l u rec ->
    dict_lookup rec "workouts" = Some (VInt wk) -> dict_lookup rec "calories" = Some (VInt cal) ->
    (0 < wk)%Z ->
    exists v q h', body [self; VDict l; VStr u] h = (Ok v, h') /\ heap_wf h' /\
      py_num v = Some q /\ (Qabs (q - inject_Z cal / inject_Z wk) < tolerance)%Q.

(** [generate_progress_report]: a new dict mapping every user whose
    record has an integer calorie total to a tier of that total. *)
Definition report_law (body : method_body) : Prop :=
  forall self h l d, heap_wf h -> pts h l d ->
    exists h' l' d', body [self; VDict l] h = (Ok (VDict l'), h') /\ heap_wf h' /\
      pts h' l' d' /\
      forall u rec cal, rec_at h l u rec -> dict_lookup rec "calories" = Some (VInt cal) ->
        exists s, dict_lookup d' u = Some (VStr s) /\ tier_spec cal s.

(** The interface a submitted class promises (spec section 6). *)
Record class_contract (cls : tracker_class) : Prop := {
  cc_init : total_law (tc_init cls);
  cc_register : exists body,
    tc_attr cls "register_user" = AttrMethod ["fitness_data"; "user_name"] body /\
    register_law body;
  cc_log : exists body,
    tc_attr cls "log_workout" = AttrMethod ["fitness_data"; "user_name"; "calories_burned"] body /\
    log_law body /\ log_absent_law body;
  cc_average : exists body,
    tc_attr cls "calculate_average_calories" = AttrMethod ["fitness_data"; "user_name"] body /\
    average_law body;
  cc_report : exists body,
    tc_attr cls "generate_progress_report" = AttrMethod ["fitness_data"] body /\
    report_law body
}.

(** The three user names of lines 55-57. *)
Definition drawn_names `{RandomSource R} : PyM R (string * string * string) :=
  user1 ← random_username; user2 ← random_username; user3 ← random_username;
  mret (user1, user2, user3).

(** ** Runs of the checks on records the harness reads *)

Lemma rec_at_pts h l u rec : rec_at h l u rec -> exists d, pts h l d /\ is_Some (dict_lookup d u).
Proof. intros (d & r & Hl & Hu & _). exists d. split; [done|]. by rewrite Hu. Qed.

Section CheckRuns.
Context {R : Type} (w : world R) (l : loc) (u : string) (rec : dict).
Hypothesis Hrec : rec_at (w_heap w) l u rec.

Lemma run_contains_rec : py_contains u (VDict l) w = (Ok true, w).
Proof.
  destruct Hrec as (d & r & Hl & Hu & _).
  rewrite (run_py_contains_dict _ _ _ Hl), Hu. by rewrite bool_decide_true.
Qed.

Lemma run_getitem_is_dict : (x ← py_getitem (VDict l) u; mret (is_dict x)) w = (Ok true, w).
Proof.
  destruct Hrec as (d & r & Hl & Hu & _).
  by rewrite (run_bind_ok _ _ _ _ _ (run_py_getitem_dict _ _ _ Hl _ _ Hu)).
Qed.

Lemma run_field_eq_int (f : string) (n : Z) :
  dict_lookup rec f = Some (VInt n) -> field_eq_int (VDict l) u f n w = (Ok true, w).
Proof.
  intros Hf. destruct Hrec as (d & r & Hl & Hu & Hr). unfold field_eq_int.
  rewrite (run_bind_ok _ _ _ _ _ (run_py_getitem_dict _ _ _ Hl _ _ Hu)).
  rewrite (run_bind_ok _ _ _ _ _ (run_py_get_dict _ _ _ Hr f)), Hf.
  simpl. by rewrite bool_decide_true.
Qed.

Lemma run_field_eq_str (f s : string) :
  dict_lookup rec f = Some (VStr s) -> field_eq_str (VDict l) u f s w = (Ok true, w).
Proof.
  intros Hf. destruct Hrec as (d & r & Hl & Hu & Hr). unfold field_eq_str.
  rewrite (run_bind_ok _ _ _ _ _ (run_py_getitem_dict _ _ _ Hl _ _ Hu)).
  rewrite (run_bind_ok _ _ _ _ _ (run_py_get_dict _ _ _ Hr f)), Hf.
  simpl. by rewrite String.eqb_refl.
Qed.
End CheckRuns.

Lemma run_guard_nil {R} (m : string) (w : world R) : signature_guard m [] w = (Ok (), w).
Proof. reflexivity. Qed.

(** Case analysis on the string comparisons of the goal. *)
Ltac case_eqb :=
  repeat match goal with |- context [String.eqb ?a ?b] => destruct (String.eqb a b) end.

(** One step of a symbolic run: the first computation of a bind returns
    normally, as [tac] proves. *)
Ltac sym_ok tac := erewrite run_bind_ok by tac; cbv beta iota zeta.

(** A check of an [all([...])] that holds on the records at hand. *)
Ltac check_true :=
  first [ reflexivity
        | eapply run_contains_rec; eassumption
        | eapply run_getitem_is_dict; eassumption
        | eapply run_field_eq_int; eassumption
        | eapply run_field_eq_str; eassumption ].

Ltac all_true := repeat (erewrite run_all_cons_true by check_true); apply run_all_nil.

(** The world after a test case that passed: the heap is well formed,
    nothing was printed or written, and the candidate's methods [calls]
    were called, in this order. *)
Definition case_post {R} (calls : list string) (w w' : world R) : Prop :=
  heap_wf (w_heap w') /\ w_stdout w' = w_stdout w /\ w_report w' = w_report w /\
  w_calls w' = app (w_calls w) calls.

(** Establish [case_post] from the well-formedness of the final heap. *)
Ltac post_solve Hwf :=
  split; [exact Hwf|]; split; [reflexivity|]; split; [reflexivity|];
  cbn [w_calls set_heap set_rng add_call]; rewrite <- ?app_assoc; reflexivity.

Section Completeness.
Context `{RandomSource R} `{FloatRepr}.
Variable self : value.
Variable cls : tracker_class.
Hypothesis Hcls : class_contract cls.

Lemma tc1_body_complete (w : world R) (user1 user2 : string) :
  heap_wf (w_heap w) ->
  exists w', tc1_body self cls [] user1 user2 w = (Ok (pass_line TC1), w') /\
    case_post ["register_user"; "register_user"] w w' /\ w_rng w' = w_rng w.
Proof.
  intros Hwf. destruct (cc_register _ Hcls) as (body & Ha & Hb).
  destruct (Hb self _ _ _ user1 (heap_wf_alloc _ [] Hwf (dict_wf_of_list [])) (pts_alloc_new _ _))
    as (h2 & l2 & rec & rec0 & Hrun & Hwf2 & Hr & (F1 & F2 & F3) & Hr0 & (G1 & G2 & G3)).
  destruct (Hb self _ _ _ user2 (heap_wf_alloc _ [] Hwf2 (dict_wf_of_list [])) (pts_alloc_new _ _))
    as (h4 & l4 & rec' & rec0' & Hrun' & Hwf4 & Hr' & _ & Hr0' & _).
  unfold tc1_body. eexists. split.
  - sym_ok ltac:(apply run_guard_nil).
    sym_ok ltac:(apply run_alloc_dict).
    sym_ok ltac:(eapply run_call_method_ok; [exact Ha | exact Hrun]).
    sym_ok all_true.
    sym_ok all_true.
    sym_ok ltac:(apply run_alloc_dict).
    sym_ok ltac:(eapply run_call_method_ok; [exact Ha | exact Hrun']).
    sym_ok all_true.
    reflexivity.
  - split; [post_solve Hwf4 | reflexivity].
Qed.
End Completeness.

(** ** Completeness of TC2, TC3 and HTC2 *)

(** The fixture [{u: rec}] of TC2 and TC3: a record object, then a dict
    holding it. *)
Lemma rec_at_alloc_pair (h : heap) (rec : dict) (u : string) :
  heap_wf h -> dict_wf rec ->
  let r1 := heap_alloc h rec in
  let l2 := heap_alloc r1.2 (dict_of_list [(u, VDict r1.1)]) in
  rec_at l2.2 l2.1 u rec /\ heap_wf l2.2.
Proof.
  intros Hwf Hrec. cbv zeta. split; [|auto with harness].
  exists (dict_of_list [(u, VDict (heap_alloc h rec).1)]), (heap_alloc h rec).1.
  split; [apply pts_alloc_new|]. split.
  - cbn. by rewrite String.eqb_refl.
  - apply pts_alloc_old; [auto with harness | apply pts_alloc_new].
Qed.

Lemma run_is_number {R} (v : value) (q : Q) (w : world R) :
  py_num v = Some q -> (mret (is_number v) : PyM R bool) w = (Ok true, w).
Proof. destruct v; simpl; intros Hv; try discriminate; reflexivity. Qed.

Lemma run_abs_diff_true {R} (v : value) (q e : Q) (w : world R) :
  py_num v = Some q -> (Qabs (q - e) < tolerance)%Q ->
  py_abs_diff_lt (R:=R) v e tolerance w = (Ok true, w).
Proof.
  intros Hv Hq. unfold py_abs_diff_lt. rewrite Hv.
  destruct (Qle_bool tolerance (Qabs (q - e))) eqn:E; [|reflexivity].
  apply Qle_bool_iff in E. exfalso. by apply (Qlt_not_le _ _ Hq).
Qed.

Section CompletenessCases.
Context `{RandomSource R} `{FloatRepr}.
Variable self : value.
Variable cls : tracker_class.
Hypothesis Hcls : class_contract cls.

Lemma tc2_body_complete (w : world R) (user1 user2 : string) (calories1 calories2 : Z) :
  heap_wf (w_heap w) ->
  exists w', tc2_body self cls [] user1 user2 calories1 calories2 w = (Ok (pass_line TC2), w') /\
    case_post ["log_workout"; "log_workout"] w w' /\ w_rng w' = w_rng w.
Proof.
  intros Hwf. destruct (cc_log _ Hcls) as (body & Ha & Hb & _).
  destruct (rec_at_alloc_pair (w_heap w) (dict_of_list (user_record 0 0 "Inactive")) user1 Hwf (dict_wf_of_list _))
    as [Hr1 Hwf1].
  destruct (Hb self _ _ user1 calories1 _ 0%Z 0%Z Hwf1 Hr1 eq_refl eq_refl)
    as (h2 & l2 & rec & Hrun & Hwf2 & Hr & F1 & F2).
  destruct (rec_at_alloc_pair h2 (dict_of_list (user_record 0 0 "Inactive")) user2 Hwf2 (dict_wf_of_list _))
    as [Hr2 Hwf3].
  destruct (Hb self _ _ user2 calories2 _ 0%Z 0%Z Hwf3 Hr2 eq_refl eq_refl)
    as (h4 & l4 & rec' & Hrun' & Hwf4 & Hr' & F1' & F2').
  unfold tc2_body. eexists. split.
  - sym_ok ltac:(apply run_guard_nil).
    do 2 sym_ok ltac:(apply run_alloc_dict).
    sym_ok ltac:(eapply run_call_method_ok; [exact Ha | exact Hrun]).
    sym_ok all_true.
    do 2 sym_ok ltac:(apply run_alloc_dict).
    sym_ok ltac:(eapply run_call_method_ok; [exact Ha | exact Hrun']).
    sym_ok all_true.
    reflexivity.
  - split; [post_solve Hwf4 | reflexivity].
Qed.

Lemma tc3_body_complete (w : world R) (user2 user3 : string) :
  heap_wf (w_heap w) ->
  exists w', tc3_body self cls [] user2 user3 w = (Ok (pass_line TC3), w') /\
    case_post ["calculate_average_calories"; "calculate_average_calories"] w w'.
Proof.
  intros Hwf. destruct (cc_average _ Hcls) as (body & Ha & Hb).
  destruct (randint_run 2 5 (w_rng w)) as (wc & r1 & Hwc & Rwc); [lia|].
  destruct (randint_run 500 1000 r1) as (tc & r2 & Htc & _); [lia|].
  destruct (randint_run 2 5 r2) as (wc' & r3 & Hwc' & Rwc'); [lia|].
  destruct (randint_run 500 1000 r3) as (tc' & r4 & Htc' & _); [lia|].
  destruct (rec_at_alloc_pair (w_heap w) (dict_of_list (user_record wc tc "Inactive")) user3 Hwf (dict_wf_of_list _))
    as [Hr1 Hwf1].
  destruct (Hb self _ _ user3 _ wc tc Hwf1 Hr1 eq_refl eq_refl ltac:(lia))
    as (v & q & h2 & Hrun & Hwf2 & Hv & Hq).
  destruct (rec_at_alloc_pair h2 (dict_of_list (user_record wc' tc' "Inactive")) user2 Hwf2 (dict_wf_of_list _))
    as [Hr2 Hwf3].
  destruct (Hb self _ _ user2 _ wc' tc' Hwf3 Hr2 eq_refl eq_refl ltac:(lia))
    as (v' & q' & h4 & Hrun' & Hwf4 & Hv' & Hq').
  unfold tc3_body. eexists. split.
  - sym_ok ltac:(apply run_guard_nil).
    sym_ok ltac:(apply Hwc; reflexivity).
    sym_ok ltac:(apply Htc; reflexivity).
    do 2 sym_ok ltac:(apply run_alloc_dict).
    sym_ok ltac:(eapply run_call_method_ok; [exact Ha | exact Hrun]).
    sym_ok ltac:(erewrite run_all_cons_true by (eapply run_is_number; eassumption);
                 erewrite run_all_cons_true by (eapply run_abs_diff_true; eassumption);
                 apply run_all_nil).
    sym_ok ltac:(apply Hwc'; reflexivity).
    sym_ok ltac:(apply Htc'; reflexivity).
    do 2 sym_ok ltac:(apply run_alloc_dict).
    sym_ok ltac:(eapply run_call_method_ok; [exact Ha | exact Hrun']).
    sym_ok ltac:(eapply run_abs_diff_true; eassumption).
    reflexivity.
  - post_solve Hwf4.
Qed.

Lemma htc2_complete (w : world R) :
  heap_wf (w_heap w) ->
  exists w', htc2 self cls [] w = (Ok (pass_line HTC2), w') /\ case_post ["log_workout"] w w'.
Proof.
  intros Hwf. destruct (cc_log _ Hcls) as (body & Ha & _ & Hb).
  destruct (choices_spec ascii_lowercase 5 w) as (sfx & r & Hs & _); [done|].
  destruct (Hb self _ _ [] ("NonExistentUser_" ++ sfx) 200%Z (heap_wf_alloc _ [] Hwf (dict_wf_of_list []))
              (pts_alloc_new _ _) eq_refl) as (e & h' & Hrun & Hwf' & He).
  unfold htc2. eexists. split.
  - erewrite run_try_caught; [reflexivity| |exact He].
    unfold htc2_body.
    sym_ok ltac:(apply run_guard_nil).
    sym_ok ltac:(exact Hs).
    sym_ok ltac:(apply run_alloc_dict).
    eapply run_bind_raise. eapply run_call_method_ok; [exact Ha | exact Hrun].
  - post_solve Hwf'.
Qed.
End CompletenessCases.

(** ** HTC1 passes exactly when the three names are distinct *)

(** The calorie total [fitness_data[u]] holds in HTC1's fixture: a later
    entry of the dict display overwrites an earlier one of the same name. *)
Definition htc1_calories (user1 user2 user3 u : string) : Z :=
  if String.eqb user3 u then 6000 else if String.eqb user2 u then 3000 else 800.

Lemma tier_spec_800 s : tier_spec 800 s -> s = "Beginner".
Proof. intros (H1 & _ & _). apply H1. lia. Qed.
Lemma tier_spec_3000 s : tier_spec 3000 s -> s = "Intermediate".
Proof. intros (_ & H2 & _). apply H2. lia. Qed.
Lemma tier_spec_6000 s : tier_spec 6000 s -> s = "Advanced".
Proof. intros (_ & _ & H3). apply H3. lia. Qed.

(** The verdict of HTC1's three comparisons, from the tiers the report
    assigns to the three names. *)
Lemma htc1_verdict (user1 user2 user3 s1 s2 s3 : string) :
  tier_spec (htc1_calories user1 user2 user3 user1) s1 ->
  tier_spec (htc1_calories user1 user2 user3 user2) s2 ->
  tier_spec (htc1_calories user1 user2 user3 user3) s3 ->
  (String.eqb s1 "Beginner" && (String.eqb s2 "Intermediate" && (String.eqb s3 "Advanced" && true)))
  = bool_decide (NoDup [user1; user2; user3]).
Proof.
  unfold htc1_calories. rewrite !String.eqb_refl. intros H1 H2 H3.
  destruct (String.eqb user3 user1) eqn:E31, (String.eqb user2 user1) eqn:E21,
    (String.eqb user3 user2) eqn:E32; cbn iota in H1, H2;
  repeat match goal with
    | H : tier_spec 800 _ |- _ => apply tier_spec_800 in H as ->
    | H : tier_spec 3000 _ |- _ => apply tier_spec_3000 in H as ->
    | H : tier_spec 6000 _ |- _ => apply tier_spec_6000 in H as ->
    end;
  rewrite ?String.eqb_eq, ?String.eqb_neq in *; simpl; symmetry;
  first [apply bool_decide_eq_true_2 | apply bool_decide_eq_false_2];
  rewrite !NoDup_cons, !elem_of_cons, ?elem_of_nil; intuition (subst; congruence || auto using NoDup_nil_2).
Qed.

(** HTC1's fixture (lines 165-170): three records, then the dict display
    naming them; each name maps to the record of its last entry. *)
Lemma htc1_fixture (h : heap) (user1 user2 user3 : string) :
  heap_wf h ->
  let a1 := heap_alloc h (dict_of_list (user_record 3 800 "Inactive")) in
  let a2 := heap_alloc a1.2 (dict_of_list (user_record 5 3000 "Active")) in
  let a3 := heap_alloc a2.2 (dict_of_list (user_record 10 6000 "Active")) in
  let ad := heap_alloc a3.2 (dict_of_list [(user1, VDict a1.1); (user2, VDict a2.1);
                                            (user3, VDict a3.1)]) in
  heap_wf ad.2 /\
  forall u, u = user1 \/ u = user2 \/ u = user3 ->
    exists rec, rec_at ad.2 ad.1 u rec /\
      dict_lookup rec "calories" = Some (VInt (htc1_calories user1 user2 user3 u)).
Proof.
  intros Hwf a1 a2 a3 ad. split; [unfold ad, a3, a2, a1; auto 10 with harness|].
  intros u Hu. unfold htc1_calories.
  exists (dict_of_list (if String.eqb user3 u then user_record 10 6000 "Active"
                        else if String.eqb user2 u then user_record 5 3000 "Active"
                        else user_record 3 800 "Inactive")).
  split; [|by destruct (String.eqb user3 u), (String.eqb user2 u)].
  exists (dict_of_list [(user1, VDict a1.1); (user2, VDict a2.1); (user3, VDict a3.1)]),
    (if String.eqb user3 u then a3.1 else if String.eqb user2 u then a2.1 else a1.1).
  split; [apply pts_alloc_new|]. split.
  - change (dict_of_list _) with
      (dict_set (dict_set (dict_set [] user1 (VDict a1.1)) user2 (VDict a2.1)) user3 (VDict a3.1)).
    rewrite !dict_lookup_set, dict_lookup_nil.
    destruct Hu as [-> | [-> | ->]]; rewrite ?String.eqb_refl; by case_eqb.
  - unfold ad, a3, a2, a1.
    destruct (String.eqb user3 u), (String.eqb user2 u); auto 10 with harness.
Qed.

Lemma run_get_eq_str {R} (w : world R) (l : loc) (d : dict) (u s t : string) :
  pts (w_heap w) l d -> dict_lookup d u = Some (VStr s) ->
  (x ← py_get (VDict l) u; mret (py_eq_str x t)) w = (Ok (String.eqb s t), w).
Proof.
  intros Hl Hu. by rewrite (run_bind_ok _ _ _ _ _ (run_py_get_dict _ _ _ Hl u)), Hu.
Qed.

Section CompletenessHtc1.
Context `{RandomSource R} `{FloatRepr}.
Variable self : value.
Variable cls : tracker_class.
Hypothesis Hcls : class_contract cls.

Lemma htc1_body_complete (w : world R) (user1 user2 user3 : string) :
  heap_wf (w_heap w) ->
  exists w' reason, htc1_body self cls [] user1 user2 user3 w =
    (Ok (if bool_decide (NoDup [user1; user2; user3]) then pass_line HTC1
         else fail_line HTC1 reason), w') /\
    case_post ["generate_progress_report"] w w' /\ w_rng w' = w_rng w.
Proof.
  intros Hwf. destruct (cc_report _ Hcls) as (body & Ha & Hb).
  pose proof (htc1_fixture (w_heap w) user1 user2 user3 Hwf) as Hfx. cbv zeta in Hfx.
  destruct Hfx as [Hwfd Hfix].
  destruct (Hb self _ _ _ Hwfd (pts_alloc_new _ _)) as (h' & l' & d' & Hrun & Hwf' & Hl' & Htier).
  destruct (Hfix user1 ltac:(auto)) as (rec1 & R1 & C1).
  destruct (Hfix user2 ltac:(auto)) as (rec2 & R2 & C2).
  destruct (Hfix user3 ltac:(auto)) as (rec3 & R3 & C3).
  destruct (Htier _ _ _ R1 C1) as (s1 & S1 & T1).
  destruct (Htier _ _ _ R2 C2) as (s2 & S2 & T2).
  destruct (Htier _ _ _ R3 C3) as (s3 & S3 & T3).
  unfold htc1_body. eexists _, _. split.
  - sym_ok ltac:(apply run_guard_nil).
    do 4 sym_ok ltac:(apply run_alloc_dict).
    sym_ok ltac:(eapply run_call_method_ok; [exact Ha | exact Hrun]).
    sym_ok ltac:(do 4 (eapply run_and_pure; [first [eapply run_get_eq_str; eassumption | reflexivity]|]);
                 apply run_all_nil).
    rewrite (htc1_verdict _ _ _ _ _ _ T1 T2 T3).
    case_bool_decide; cbn [is_dict andb]; [reflexivity|].
    sym_ok ltac:(reflexivity). reflexivity.
  - split; [post_solve Hwf' | reflexivity].
Qed.
End CompletenessHtc1.

(** ** A run on a class that meets the contract *)

Lemma sig_failures_contract {R} `{FloatRepr} (cls : tracker_class) (w : world R) :
  class_contract cls -> signature_failures cls w = (Ok [], w).
Proof.
  intros [_ (b1 & H1 & _) (b2 & H2 & _) (b3 & H3 & _) (b4 & H4 & _)].
  unfold signature_failures, expected_signatures. cbn [signature_loop].
  unfold signature_check. rewrite H1, H2, H3, H4. reflexivity.
Qed.

Section HarnessComplete.
Context `{RandomSource R} `{FloatRepr}.

(** C2. Completeness of the harness: for every module whose code loads,
    whose [FitnessTracker] meets the contract of spec section 6, and every
    random state, [test_student_code] completes, prints once and writes
    the report whose TC1, TC2, TC3 and HTC2 lines are the pass lines, and
    whose HTC1 line is the pass line when the three drawn user names are
    pairwise distinct and a failure line of HTC1 otherwise; the candidate's
    methods are called in the order of the code: [register_user] twice
    (TC1), [log_workout] twice (TC2), [calculate_average_calories] twice
    (TC3), [generate_progress_report] (HTC1), [log_workout] (HTC2). *)
Theorem harness_complete (m : student_module) (cls : tracker_class) (w : world R) :
  sm_tracker m = Some cls -> total_law (sm_exec m) -> class_contract cls ->
  heap_wf (w_heap w) ->
  exists user1 user2 user3 reason w',
    (drawn_names (rng_world (w_rng w))).1 = Ok (user1, user2, user3) /\
    test_student_code m w = (Ok (), w') /\
    let text := py_join nl [pass_line TC1; pass_line TC2; pass_line TC3;
      if bool_decide (NoDup [user1; user2; user3]) then pass_line HTC1
      else fail_line HTC1 reason; pass_line HTC2] ++ nl in
    w_report w' = Some text /\ w_stdout w' = app (w_stdout w) [text] /\
    w_calls w' = app (w_calls w) ["register_user"; "register_user"; "log_workout";
      "log_workout"; "calculate_average_calories"; "calculate_average_calories";
      "generate_progress_report"; "log_workout"].
Proof.
  intros Hm Hexec Hcls Hwf.
  destruct (username_run (w_rng w)) as (n1 & r1 & U1 & _).
  destruct (username_run r1) as (n2 & r2 & U2 & _).
  destruct (username_run r2) as (n3 & r3 & U3 & _).
  destruct (randint_run 100 500 r3) as (c1 & r4 & K1 & _); [lia|].
  destruct (randint_run 100 500 r4) as (c2 & r5 & K2 & _); [lia|].
  destruct (Hexec (w_heap w) Hwf) as (u0 & h1 & Hex & Hwf1).
  destruct (cc_init _ Hcls h1 Hwf1) as (tr & h2 & Hin & Hwf2).
  exists n1, n2, n3.
  unfold test_student_code.
  sym_ok ltac:(reflexivity).
  sym_ok ltac:(eapply run_lift_heap; exact Hex).
  rewrite Hm. cbv iota.
  sym_ok ltac:(eapply run_lift_heap; exact Hin).
  sym_ok ltac:(apply sig_failures_contract; exact Hcls).
  do 5 sym_ok ltac:(first [apply U1; reflexivity | apply U2; reflexivity | apply U3; reflexivity
                         | apply K1; reflexivity | apply K2; reflexivity]).
  match goal with |- context [(tc1 _ _ _ _ _ ≫= _) ?W] =>
    destruct (tc1_body_complete tr cls Hcls W n1 n2 Hwf2) as (w1 & B1 & (P1 & O1 & _ & C1) & _) end.
  sym_ok ltac:(apply run_try_ok; exact B1).
  match goal with |- context [(tc2 _ _ _ _ _ _ _ ≫= _) ?W] =>
    destruct (tc2_body_complete tr cls Hcls W n1 n2 c1 c2 P1) as (w2 & B2 & (P2 & O2 & _ & C2) & _) end.
  sym_ok ltac:(apply run_try_ok; exact B2).
  match goal with |- context [(tc3 _ _ _ _ _ ≫= _) ?W] =>
    destruct (tc3_body_complete tr cls Hcls W n2 n3 P2) as (w3 & B3 & (P3 & O3 & _ & C3)) end.
  sym_ok ltac:(apply run_try_ok; exact B3).
  match goal with |- context [(htc1 _ _ _ _ _ _ ≫= _) ?W] =>
    destruct (htc1_body_complete tr cls Hcls W n1 n2 n3 P3) as (w4 & reason & B4 & (P4 & O4 & _ & C4) & _) end.
  sym_ok ltac:(apply run_try_ok; exact B4).
  match goal with |- context [(htc2 _ _ _ ≫= _) ?W] =>
    destruct (htc2_complete tr cls Hcls W P4) as (w5 & B5 & (_ & O5 & _ & C5)) end.
  sym_ok ltac:(exact B5).
  sym_ok ltac:(reflexivity).
  exists reason. eexists. split.
  { unfold drawn_names. do 3 sym_ok ltac:(first [apply U1; reflexivity | apply U2; reflexivity
                                               | apply U3; reflexivity]).
    reflexivity. }
  split; [reflexivity|]. cbv zeta. split; [reflexivity|]. split.
  - cbn [w_stdout set_report add_stdout]. rewrite O5, O4, O3, O2, O1. reflexivity.
  - cbn [w_calls set_report add_stdout]. rewrite C5, C4, C3, C2, C1, <- !app_assoc.
    reflexivity.
Qed.
End HarnessComplete.
