(* ===== verification/Soundness.v ===== *)
(** * Soundness: what a pass line certifies

    The converse of completeness: when a test case returns its pass line,
    the checks of its [try] block all held, so the candidate's methods,
    called on the fixtures the case built, returned values with the
    checked shape.  The proofs invert a run step by step with the
    inversion lemmas of the primitives below ([inv_*]) and the tactic
    [invert_run].  The statements show exactly what each case checks,
    and so what it does not (TC1 reads only [workouts] back from the
    caller's dict; a string result containing the name passes an [in]
    test). *)

From Stdlib Require Import QArith Qabs Ascii String.
From stdpp Require Import base list strings.
From S2P Require Import Prelude PyCore Random Candidate TestCases Driver.

Open Scope string_scope.

(** [k in v] held in heap [h]: [v] is a dict with key [k], or a string
    containing [k]. *)
Definition has_key (h : heap) (v : value) (k : string) : Prop :=
  (exists l, v = VDict l /\ is_Some (dict_lookup (heap_dict h l) k)) \/
  (exists s, v = VStr s /\ str_contains k s = true).

(** [v[k]] is a dict whose field [f] satisfies [P] in heap [h]. *)
Definition field_is (h : heap) (v : value) (k f : string) (P : value -> bool) : Prop :=
  exists lv l, v = VDict lv /\ dict_lookup (heap_dict h lv) k = Some (VDict l) /\
    P (default VNone (dict_lookup (heap_dict h l) f)) = true.

(** ** Inversion of the primitives *)

Section Inversion.
Context {R : Type} `{FloatRepr}.
Implicit Types (w : world R).

Lemma pass_fail_neq (c : test_case) (r : string) : pass_line c <> fail_line c r.
Proof. destruct c; discriminate. Qed.

Lemma inv_ret {A} (x b : A) w w' : (mret x : PyM R A) w = (Ok b, w') -> b = x /\ w' = w.
Proof. by intros [= -> ->]. Qed.

Lemma inv_all_cons (c : PyM R bool) cs w w' :
  se_all (c :: cs) w = (Ok true, w') -> exists w1, c w = (Ok true, w1) /\ se_all cs w1 = (Ok true, w').
Proof.
  cbn [se_all]. unfold se_and. intros Hr. apply run_bind_inv in Hr as ([|] & w1 & Hc & Hr).
  - eauto.
  - discriminate Hr.
Qed.

Lemma inv_guard (m : string) (fs : list string) w w' u :
  signature_guard m fs w = (Ok u, w') -> existsb (String.prefix m) fs = false /\ w' = w.
Proof.
  unfold signature_guard. destruct (existsb _ _); [|by intros [= _ ->]].
  by destruct (find _ _).
Qed.

Lemma inv_alloc (kvs : list (string * value)) w v w' :
  alloc_dict kvs w = (Ok v, w') ->
  v = VDict (heap_alloc (w_heap w) (dict_of_list kvs)).1 /\
  w' = set_heap (heap_alloc (w_heap w) (dict_of_list kvs)).2 w.
Proof. rewrite run_alloc_dict. by intros [= <- <-]. Qed.

Lemma inv_call (self : value) (cls : tracker_class) (m : string) (args : list value) w v w' :
  call_method self cls m args w = (Ok v, w') ->
  exists ps body h', tc_attr cls m = AttrMethod ps body /\
    body (self :: args) (w_heap w) = (Ok v, h') /\ w' = set_heap h' (add_call m w).
Proof.
  unfold call_method. destruct (tc_attr cls m) as [|v'|ps body] eqn:Ha; try (intros Hr; discriminate Hr).
  cbv [mbind SE_bind se_modify lift_heap]. simpl.
  destruct (body _ _) as [o h'] eqn:Hb. intros [= -> <-]. exists ps, body, h'. auto.
Qed.

Lemma inv_contains (k : string) (v : value) w w' :
  py_contains k v w = (Ok true, w') -> w' = w /\ has_key (w_heap w) v k.
Proof.
  unfold py_contains, has_key. destruct v as [| | | |s|l]; try (intros Hr; discriminate Hr).
  - intros [= Hs <-]. split; [done|]. right. eauto.
  - cbv [mbind SE_bind read_dict]. simpl. intros [= Hk <-].
    split; [done|]. left. exists l. split; [done|]. by apply bool_decide_eq_true in Hk.
Qed.

Lemma inv_getitem (v : value) (k : string) (x : value) w w' :
  py_getitem v k w = (Ok x, w') ->
  w' = w /\ exists l, v = VDict l /\ dict_lookup (heap_dict (w_heap w) l) k = Some x.
Proof.
  unfold py_getitem. destruct v as [| | | | |l]; try (intros Hr; discriminate Hr).
  cbv [mbind SE_bind read_dict]. simpl.
  destruct (dict_lookup _ k) eqn:Hk; [|intros Hr; discriminate Hr]. intros [= -> <-]. eauto.
Qed.

Lemma inv_get (v : value) (k : string) (x : value) w w' :
  py_get v k w = (Ok x, w') ->
  w' = w /\ exists l, v = VDict l /\ x = default VNone (dict_lookup (heap_dict (w_heap w) l) k).
Proof.
  unfold py_get, py_get_default. destruct v as [| | | | |l]; try (intros Hr; discriminate Hr).
  cbv [mbind SE_bind read_dict]. simpl. intros [= <- <-]. eauto.
Qed.

Lemma inv_run_case_pass (c : test_case) (body : PyM R string) w w' :
  run_case c body w = (Ok (pass_line c), w') -> body w = (Ok (pass_line c), w').
Proof.
  unfold run_case, se_try. destruct (body w) as [[a|e|] s]; [done| |intros Hr; discriminate Hr].
  destruct (is_exception e); [|intros Hr; discriminate Hr]. intros Hr. apply inv_ret in Hr as [Hp _]. by destruct (pass_fail_neq c (exn_str e)).
Qed.

Lemma inv_verdict (c : test_case) (b : bool) (r : string) w w' :
  (mret (if b then pass_line c else fail_line c r) : PyM R string) w = (Ok (pass_line c), w') ->
  b = true /\ w' = w.
Proof.
  destruct b; [by intros [= ->]|]. intros Hr. apply inv_ret in Hr as [Hp _]. by destruct (pass_fail_neq c r).
Qed.

(** The failure branch of a check: [s ← py_str v; mret (fail_line c ...)]. *)
Lemma inv_fail_branch (c : test_case) (v : value) (f : string -> string) w w' :
  (s ← py_str v; mret (fail_line c (f s)) : PyM R string) w = (Ok (pass_line c), w') -> False.
Proof.
  intros Hr. apply run_bind_inv in Hr as (s & w1 & _ & Hr).
  apply inv_ret in Hr as [Hp _]. by destruct (pass_fail_neq c (f s)).
Qed.

Lemma inv_field_eq_int (v : value) (k f : string) (n : Z) w w' :
  field_eq_int v k f n w = (Ok true, w') -> w' = w /\ field_is (w_heap w) v k f (fun x => py_eq_int x n).
Proof.
  unfold field_eq_int. intros Hr.
  apply run_bind_inv in Hr as (x & w1 & Hx & Hr). apply inv_getitem in Hx as [-> (lv & -> & Hk)].
  apply run_bind_inv in Hr as (y & w2 & Hy & Hr). apply inv_get in Hy as [-> (l & -> & ->)].
  apply inv_ret in Hr as [Hn ->]. split; [done|]. by exists lv, l.
Qed.

Lemma inv_field_eq_str (v : value) (k f s : string) w w' :
  field_eq_str v k f s w = (Ok true, w') -> w' = w /\ field_is (w_heap w) v k f (fun x => py_eq_str x s).
Proof.
  unfold field_eq_str. intros Hr.
  apply run_bind_inv in Hr as (x & w1 & Hx & Hr). apply inv_getitem in Hx as [-> (lv & -> & Hk)].
  apply run_bind_inv in Hr as (y & w2 & Hy & Hr). apply inv_get in Hy as [-> (l & -> & ->)].
  apply inv_ret in Hr as [Hn ->]. split; [done|]. by exists lv, l.
Qed.

Lemma inv_getitem_is_dict (v : value) (k : string) w w' :
  (x ← py_getitem v k; mret (is_dict x) : PyM R bool) w = (Ok true, w') ->
  w' = w /\ exists lv l, v = VDict lv /\ dict_lookup (heap_dict (w_heap w) lv) k = Some (VDict l).
Proof.
  intros Hr. apply run_bind_inv in Hr as (x & w1 & Hx & Hr).
  apply inv_getitem in Hx as [-> (lv & -> & Hk)]. apply inv_ret in Hr as [Hd ->].
  destruct x; try discriminate. eauto.
Qed.

Lemma inv_abs_diff (v : value) (e tol : Q) w w' :
  py_abs_diff_lt v e tol w = (Ok true, w') ->
  w' = w /\ exists q, py_num v = Some q /\ (Qabs (q - e) < tol)%Q.
Proof.
  unfold py_abs_diff_lt. destruct (py_num v) as [q|]; [|intros Hr; discriminate Hr].
  destruct (Qle_bool tol (Qabs (q - e))) eqn:E; [intros Hr; discriminate Hr|].
  intros [= <-]. split; [done|]. exists q. split; [done|].
  apply Qnot_le_lt. intros Hle. apply Qle_bool_iff in Hle. congruence.
Qed.

Lemma inv_guard_raise (m : string) (fs : list string) w e w' :
  signature_guard m fs w = (Raise e, w') -> existsb (String.prefix m) fs = true.
Proof. unfold signature_guard. destruct (existsb _ _); [done | intros Hr; discriminate Hr]. Qed.

Lemma inv_bind_raise {A B} (c : PyM R A) (k : A -> PyM R B) w e w' :
  (c ≫= k) w = (Raise e, w') ->
  c w = (Raise e, w') \/ exists a w1, c w = (Ok a, w1) /\ k a w1 = (Raise e, w').
Proof. cbv [mbind SE_bind]. destruct (c w) as [[a|e'|] w1]; [eauto | intros [= -> ->]; auto | done]. Qed.

Lemma inv_call_raise (self : value) (cls : tracker_class) (m : string) (args : list value) w e w' :
  call_method self cls m args w = (Raise e, w') ->
  (forall ps body, tc_attr cls m <> AttrMethod ps body) \/
  exists ps body h', tc_attr cls m = AttrMethod ps body /\ body (self :: args) (w_heap w) = (Raise e, h').
Proof.
  unfold call_method. destruct (tc_attr cls m) as [|v'|ps body] eqn:Ha; [by left..|].
  cbv [mbind SE_bind se_modify lift_heap]. simpl. destruct (body _ _) as [o h'] eqn:Hb.
  intros [= -> _]. right. exists ps, body, h'. auto.
Qed.
End Inversion.

Lemma inv_randint `{RandomSource R} (a b x : Z) (w w' : world R) :
  randint a b w = (Ok x, w') -> ((a <= b)%Z -> (a <= x <= b)%Z) /\ exists r, w' = set_rng r w.
Proof.
  unfold randint, rand_below. cbv [mbind SE_bind]. pose proof (randbelow_range (b + 1 - a) (w_rng w)).
  destruct (randbelow _ _) as [i r]. simpl in *. intros [= <- <-].
  split; [intros; lia | eauto].
Qed.

(** A random draw of the run, kept by [invert_run] for the theorems
    that relate a run to its random state. *)
Definition drew `{RandomSource R} (a b : Z) (w : world R) (x : Z) (w' : world R) : Prop :=
  randint a b w = (Ok x, w').

(** Invert a run that returned normally into the runs of its steps. *)
Ltac invert_run :=
  repeat match goal with
  | H : signature_guard _ _ _ = (Ok _, _) |- _ => apply inv_guard in H as [? ->]
  | H : alloc_dict _ _ = (Ok _, _) |- _ => apply inv_alloc in H as [-> ->]
  | H : call_method _ _ _ _ _ = (Ok _, _) |- _ => apply inv_call in H as (? & ? & ? & ? & ? & ->)
  | H : se_all (_ :: _) _ = (Ok true, _) |- _ => apply inv_all_cons in H as (? & ? & H)
  | H : se_all [] _ = (Ok true, _) |- _ => apply inv_ret in H as [_ ->]
  | H : py_contains _ _ _ = (Ok true, _) |- _ => apply inv_contains in H as [-> ?]
  | H : field_eq_int _ _ _ _ _ = (Ok true, _) |- _ => apply inv_field_eq_int in H as [-> ?]
  | H : field_eq_str _ _ _ _ _ = (Ok true, _) |- _ => apply inv_field_eq_str in H as [-> ?]
  | H : (py_getitem _ _ ≫= _) _ = (Ok true, _) |- _ => apply inv_getitem_is_dict in H as [-> ?]
  | H : py_get _ _ _ = (Ok _, _) |- _ =>
      let Hv := fresh in
      apply inv_get in H as [-> (? & Hv & ->)]; first [injection Hv as Hv; subst | subst]
  | H : py_abs_diff_lt _ _ _ _ = (Ok true, _) |- _ => apply inv_abs_diff in H as [-> (? & ? & ?)]
  | H : randint ?a ?b ?w0 = (Ok ?x, ?w1) |- _ =>
      let Hd := fresh "Hdraw" in assert (Hd : drew a b w0 x w1) by exact H;
      let Hr := fresh "Hrange" in apply inv_randint in H as [Hr (? & ->)]; specialize (Hr ltac:(lia))
  | H : (mret _) _ = (Ok _, _) |- _ => apply inv_ret in H as [? ->]
  | H : pass_line _ = fail_line _ _ |- _ => destruct (pass_fail_neq _ _ H)
  | H : pass_line _ = (if ?b then _ else _) |- _ => destruct b
  | H : (if ?b then _ else _) _ = (Ok _, _) |- _ => destruct b
  | H : (_ ≫= _) _ = (Ok _, _) |- _ => apply run_bind_inv in H as (? & ? & ? & H)
  | H : true = _ |- _ => symmetry in H
  | H1 : tc_attr ?c ?m = _, H2 : tc_attr ?c ?m = _ |- _ =>
      rewrite H1 in H2; injection H2 as <- <-
  end.

(** Close a goal of facts collected by [invert_run]. *)
Ltac close_run :=
  cbn [w_heap set_rng set_heap add_call] in *;
  repeat (split; [eassumption|]); eassumption.

(** ** What each test case certifies *)

(** What a pass of TC1 certifies: the guard found no failure of
    [register_user]; its first call, on a fresh empty dict, returned a dict
    whose entry for [user1] has [workouts == 0], [calories == 0] and
    [status == 'Inactive'], and the caller's dict then had an entry for
    [user1] with [workouts == 0]; its second call, on another empty dict,
    returned a value containing [user2], and that dict then contained
    [user2]. *)
Definition tc1_certificate (self : value) (cls : tracker_class) (fs : list string)
    (user1 user2 : string) (h : heap) : Prop :=
  existsb (String.prefix "register_user") fs = false /\
  exists ps body res h1 res2 h2,
    tc_attr cls "register_user" = AttrMethod ps body /\
    body [self; VDict (heap_alloc h []).1; VStr user1] (heap_alloc h []).2
      = (Ok res, h1) /\
    is_dict res = true /\
    field_is h1 res user1 "workouts" (fun v => py_eq_int v 0) /\
    field_is h1 res user1 "calories" (fun v => py_eq_int v 0) /\
    field_is h1 res user1 "status" (fun v => py_eq_str v "Inactive") /\
    field_is h1 (VDict (heap_alloc h []).1) user1 "workouts" (fun v => py_eq_int v 0) /\
    body [self; VDict (heap_alloc h1 []).1; VStr user2] (heap_alloc h1 []).2 = (Ok res2, h2) /\
    has_key h2 res2 user2 /\ has_key h2 (VDict (heap_alloc h1 []).1) user2.

(** What a pass of TC2 certifies: on [{user1: zeroed record}],
    [log_workout] returned a dict whose record for [user1] has
    [workouts == 1] and [calories == calories1], and likewise for [user2]
    and [calories2] on a second dataset. *)
Definition tc2_certificate (self : value) (cls : tracker_class) (fs : list string)
    (user1 user2 : string) (calories1 calories2 : Z) (h : heap) : Prop :=
  existsb (String.prefix "log_workout") fs = false /\
  exists ps body res h1 res2 h2,
    tc_attr cls "log_workout" = AttrMethod ps body /\
    let a1 := heap_alloc h (dict_of_list (user_record 0 0 "Inactive")) in
    let a2 := heap_alloc a1.2 (dict_of_list [(user1, VDict a1.1)]) in
    body [self; VDict a2.1; VStr user1; VInt calories1] a2.2 = (Ok res, h1) /\
    is_dict res = true /\ has_key h1 res user1 /\
    field_is h1 res user1 "workouts" (fun v => py_eq_int v 1) /\
    field_is h1 res user1 "calories" (fun v => py_eq_int v calories1) /\
    let b1 := heap_alloc h1 (dict_of_list (user_record 0 0 "Inactive")) in
    let b2 := heap_alloc b1.2 (dict_of_list [(user2, VDict b1.1)]) in
    body [self; VDict b2.1; VStr user2; VInt calories2] b2.2 = (Ok res2, h2) /\
    has_key h2 res2 user2 /\
    field_is h2 res2 user2 "workouts" (fun v => py_eq_int v 1) /\
    field_is h2 res2 user2 "calories" (fun v => py_eq_int v calories2).

(** What a pass of TC3 certifies: for the two drawn fixtures (workouts
    in [2, 5], calories in [500, 1000]), [calculate_average_calories]
    returned a number within 0.01 of [calories / workouts]. *)
Definition tc3_certificate (self : value) (cls : tracker_class) (fs : list string)
    (user2 user3 : string) (h : heap) : Prop :=
  existsb (String.prefix "calculate_average_calories") fs = false /\
  exists ps body wc tc avg h1 q wc2 tc2 avg2 h2 q2,
    tc_attr cls "calculate_average_calories" = AttrMethod ps body /\
    let a1 := heap_alloc h (dict_of_list (user_record wc tc "Inactive")) in
    let a2 := heap_alloc a1.2 (dict_of_list [(user3, VDict a1.1)]) in
    body [self; VDict a2.1; VStr user3] a2.2 = (Ok avg, h1) /\
    (2 <= wc <= 5)%Z /\ (500 <= tc <= 1000)%Z /\
    py_num avg = Some q /\ (Qabs (q - inject_Z tc / inject_Z wc) < tolerance)%Q /\
    let b1 := heap_alloc h1 (dict_of_list (user_record wc2 tc2 "Inactive")) in
    let b2 := heap_alloc b1.2 (dict_of_list [(user2, VDict b1.1)]) in
    body [self; VDict b2.1; VStr user2] b2.2 = (Ok avg2, h2) /\
    (2 <= wc2 <= 5)%Z /\ (500 <= tc2 <= 1000)%Z /\
    py_num avg2 = Some q2 /\ (Qabs (q2 - inject_Z tc2 / inject_Z wc2) < tolerance)%Q.

(** What a pass of HTC2 certifies: a failure of [log_workout] was
    recorded by the signature check, or the tracker has no method
    [log_workout], or the method raised an [Exception] on an empty dict and
    a fresh name. *)
Definition htc2_certificate (self : value) (cls : tracker_class) (fs : list string)
    (h : heap) : Prop :=
  existsb (String.prefix "log_workout") fs = true \/
  (forall ps body, tc_attr cls "log_workout" <> AttrMethod ps body) \/
  exists ps body suffix e h', tc_attr cls "log_workout" = AttrMethod ps body /\
    body [self; VDict (heap_alloc h []).1; VStr ("NonExistentUser_" ++ suffix); VInt 200]
      (heap_alloc h []).2 = (Raise e, h') /\ is_exception e = true.

Section TestCaseSoundness.
Context `{RandomSource R} `{FloatRepr}.

(** C5. Soundness of TC1 (lines 64-98): when TC1 returns its pass line,
    the candidate's [register_user] behaved as [tc1_certificate] states on
    the fixtures TC1 built. *)
Theorem tc1_sound (self : value) (cls : tracker_class) (fs : list string)
    (user1 user2 : string) (w w' : world R) :
  tc1 self cls fs user1 user2 w = (Ok (pass_line TC1), w') ->
  tc1_certificate self cls fs user1 user2 (w_heap w).
Proof.
  unfold tc1_certificate.
  intros Hr. apply inv_run_case_pass in Hr. unfold tc1_body in Hr. invert_run.
  split; [done|]. do 6 eexists. close_run.
Qed.

(** C6. Soundness of TC2 (lines 100-128): a pass line of TC2 certifies
    [tc2_certificate] for the candidate's [log_workout]. *)
Theorem tc2_sound (self : value) (cls : tracker_class) (fs : list string)
    (user1 user2 : string) (calories1 calories2 : Z) (w w' : world R) :
  tc2 self cls fs user1 user2 calories1 calories2 w = (Ok (pass_line TC2), w') ->
  tc2_certificate self cls fs user1 user2 calories1 calories2 (w_heap w).
Proof.
  unfold tc2_certificate.
  intros Hr. apply inv_run_case_pass in Hr. unfold tc2_body in Hr. invert_run.
  split; [done|]. do 6 eexists. cbv zeta. close_run.
Qed.

(** C7. Soundness of TC3 (lines 130-159): a pass line of TC3 certifies
    [tc3_certificate] for the candidate's [calculate_average_calories]. *)
Theorem tc3_sound (self : value) (cls : tracker_class) (fs : list string)
    (user2 user3 : string) (w w' : world R) :
  tc3 self cls fs user2 user3 w = (Ok (pass_line TC3), w') ->
  tc3_certificate self cls fs user2 user3 (w_heap w).
Proof.
  unfold tc3_certificate.
  intros Hr. apply inv_run_case_pass in Hr. unfold tc3_body in Hr. invert_run.
  split; [done|]. do 12 eexists. cbv zeta. close_run.
Qed.

Lemma py_eq_str_default (o : option value) (s : string) :
  py_eq_str (default VNone o) s = true -> o = Some (VStr s).
Proof. destruct o as [[]|]; simpl; try discriminate. by intros ->%String.eqb_eq. Qed.

(** What a pass of HTC1 certifies (lines 163-184): no signature failure
    for [generate_progress_report], and on the case's dataset of three
    users (allocated from heap [h]) the method returns a dict mapping the
    three names to their tiers. *)
Definition htc1_certificate (self : value) (cls : tracker_class) (fs : list string)
    (user1 user2 user3 : string) (h : heap) : Prop :=
  existsb (String.prefix "generate_progress_report") fs = false /\
  exists ps body l h1,
    tc_attr cls "generate_progress_report" = AttrMethod ps body /\
    let a1 := heap_alloc h (dict_of_list (user_record 3 800 "Inactive")) in
    let a2 := heap_alloc a1.2 (dict_of_list (user_record 5 3000 "Active")) in
    let a3 := heap_alloc a2.2 (dict_of_list (user_record 10 6000 "Active")) in
    let ad := heap_alloc a3.2 (dict_of_list [(user1, VDict a1.1); (user2, VDict a2.1);
                                              (user3, VDict a3.1)]) in
    body [self; VDict ad.1] ad.2 = (Ok (VDict l), h1) /\
    dict_lookup (heap_dict h1 l) user1 = Some (VStr "Beginner") /\
    dict_lookup (heap_dict h1 l) user2 = Some (VStr "Intermediate") /\
    dict_lookup (heap_dict h1 l) user3 = Some (VStr "Advanced").

Lemma htc1_sound (self : value) (cls : tracker_class) (fs : list string)
    (user1 user2 user3 : string) (w w' : world R) :
  htc1 self cls fs user1 user2 user3 w = (Ok (pass_line HTC1), w') ->
  htc1_certificate self cls fs user1 user2 user3 (w_heap w).
Proof.
  unfold htc1_certificate.
  intros Hr. apply inv_run_case_pass in Hr. unfold htc1_body in Hr. invert_run.
  repeat match goal with H : py_eq_str _ _ = true |- _ => apply py_eq_str_default in H end.
  split; [done|]. do 4 eexists. cbv zeta. close_run.
Qed.

(** C4. No candidate passes HTC1 when two of the three drawn names
    coincide: a pass line of HTC1 (lines 163-184) implies that the three
    names are pairwise distinct, because the report would have to map one
    name to two different tiers.  With the independent draws of lines
    55-57, every candidate, however correct, fails HTC1 on such a run.
    The pass certifies [htc1_certificate] as well. *)
Theorem htc1_pass_distinct (self : value) (cls : tracker_class) (fs : list string)
    (user1 user2 user3 : string) (w w' : world R) :
  htc1 self cls fs user1 user2 user3 w = (Ok (pass_line HTC1), w') ->
  htc1_certificate self cls fs user1 user2 user3 (w_heap w) /\ NoDup [user1; user2; user3].
Proof.
  intros Hr%htc1_sound. split; [exact Hr|].
  destruct Hr as (_ & ps & body & l & h1 & _ & Hr). cbv zeta in Hr.
  destruct Hr as (_ & H1 & H2 & H3).
  rewrite !NoDup_cons, !elem_of_cons, ?elem_of_nil.
  split; [intros [-> | [-> | []]]; congruence|].
  split; [intros [-> | []]; congruence|].
  split; [intros []|apply NoDup_nil_2].
Qed.

(** C8. Soundness of HTC2 (lines 188-204): a pass line of HTC2
    certifies [htc2_certificate], which holds without [log_workout]
    raising on an absent user when a signature failure was recorded or
    the method is missing. *)
Theorem htc2_sound (self : value) (cls : tracker_class) (fs : list string) (w w' : world R) :
  htc2 self cls fs w = (Ok (pass_line HTC2), w') ->
  htc2_certificate self cls fs (w_heap w).
Proof.
  unfold htc2_certificate.
  unfold htc2, se_try. destruct (htc2_body self cls fs w) as [[a|e|] s] eqn:Hb.
  - intros [= ->]. exfalso. unfold htc2_body in Hb. invert_run.
  - destruct (is_exception e) eqn:He; [intros _|intros Hr; discriminate Hr].
    unfold htc2_body in Hb.
    apply inv_bind_raise in Hb as [Hg | (u & w1 & Hg & Hb)]; [left; by eapply inv_guard_raise|].
    apply inv_guard in Hg as [_ ->].
    destruct (choices_spec ascii_lowercase 5 w) as (sfx & r & Hs & _); [done|].
    apply inv_bind_raise in Hb as [Hc | (sfx' & w2 & Hc & Hb)]; [congruence|].
    rewrite Hs in Hc. injection Hc as <- <-. cbv zeta in Hb.
    apply inv_bind_raise in Hb as [Ha | (d & w3 & Ha & Hb)]; [by rewrite run_alloc_dict in Ha|].
    apply inv_alloc in Ha as [-> ->].
    apply inv_bind_raise in Hb as [Hc | (v & w4 & _ & Hb)]; [|discriminate Hb].
    apply inv_call_raise in Hc as [Hm | (ps & body & h' & Ha & Hbody)]; [right; by left|].
    right; right. exists ps, body, sfx, e, h'. by cbn [w_heap set_rng set_heap] in Hbody.
  - intros Hr; discriminate Hr.
Qed.
End TestCaseSoundness.
