(* ===== verification/Reference.v ===== *)
(** * Reference: a candidate that meets the contract of the spec

    The repository does not contain the submitted module; the spec (its
    section 6 table) states what it must do.  [ref_module] is that
    contract written as a candidate: [register_user] stores a fresh
    zeroed, inactive record and returns the caller's dict; [log_workout]
    raises [ValueError] for an absent user and otherwise adds one workout
    and the calories in place; [calculate_average_calories] divides;
    [generate_progress_report] maps each user to its tier.  The file
    proves that it meets the interface [class_contract] of [Contract.v],
    derives that its report is the all-pass report exactly when the drawn
    names are distinct, runs it on concrete draws, and holds the
    witnesses of the theorems with hypotheses. *)

From Stdlib Require Import QArith Qabs Ascii String.
From stdpp Require Import base list strings gmap sets.
From S2P Require Import Prelude PyCore Literals Random Candidate TestCases Driver Invariant Totality HeapTyping Contract Soundness.

Open Scope string_scope.

Definition value_error (msg : string) : exn := mkExn "ValueError" msg.

(** The tier of a calorie total (spec 4.6; the spec leaves 1000 and 5000
    open, they are put in the middle tier here). *)
Definition tier (calories : Z) : string :=
  if bool_decide (calories < 1000)%Z then "Beginner"
  else if bool_decide (calories <= 5000)%Z then "Intermediate"
  else "Advanced".

(** [fitness_data[user_name] = {'workouts': 0, 'calories': 0,
    'status': 'Inactive'}; return fitness_data] *)
Definition ref_register : method_body := fun args h =>
  match args with
  | [_; VDict l; VStr u] =>
      let '(r, h1) := heap_alloc h (dict_of_list (user_record 0 0 "Inactive")) in
      (Ok (VDict l), heap_update h1 l (dict_set (heap_dict h1 l) u (VDict r)))
  | _ => (Raise (type_error "register_user expects a dict and a str"), h)
  end.

(** [if user_name not in fitness_data: raise ValueError(...)]; then
    [record['workouts'] += 1; record['calories'] += calories_burned]. *)
Definition ref_log_workout : method_body := fun args h =>
  match args with
  | [_; VDict l; VStr u; VInt c] =>
      match dict_lookup (heap_dict h l) u with
      | None => (Raise (value_error "User not found"), h)
      | Some (VDict r) =>
          let d := heap_dict h r in
          match dict_lookup d "workouts", dict_lookup d "calories" with
          | Some (VInt wk), Some (VInt cal) =>
              (Ok (VDict l),
               heap_update h r (dict_set (dict_set d "workouts" (VInt (wk + 1)))
                                         "calories" (VInt (cal + c))))
          | _, _ => (Raise (type_error "malformed user record"), h)
          end
      | Some _ => (Raise (type_error "malformed user record"), h)
      end
  | _ => (Raise (type_error "log_workout expects a dict, a str and an int"), h)
  end.

(** [return record['calories'] / record['workouts']] *)
Definition ref_average : method_body := fun args h =>
  match args with
  | [_; VDict l; VStr u] =>
      match dict_lookup (heap_dict h l) u with
      | Some (VDict r) =>
          let d := heap_dict h r in
          match dict_lookup d "workouts", dict_lookup d "calories" with
          | Some (VInt wk), Some (VInt cal) =>
              if bool_decide (wk = 0)%Z then (Raise (mkExn "ZeroDivisionError" "division by zero"), h)
              else (Ok (VFloat (inject_Z cal / inject_Z wk)%Q), h)
          | _, _ => (Raise (type_error "malformed user record"), h)
          end
      | _ => (Raise (mkExn "KeyError" (str_repr u)), h)
      end
  | _ => (Raise (type_error "calculate_average_calories expects a dict and a str"), h)
  end.

(** [tier(record['calories'])] of one entry of the dataset. *)
Definition ref_tier_of (h : heap) (v : value) : value :=
  match v with
  | VDict r =>
      match dict_lookup (heap_dict h r) "calories" with
      | Some (VInt cal) => VStr (tier cal)
      | _ => VNone
      end
  | _ => VNone
  end.

(** [{user: tier(record['calories']) for user, record in fitness_data.items()}] *)
Definition ref_report : method_body := fun args h =>
  match args with
  | [_; VDict l] =>
      let entries := map (fun '(u, v) => (u, ref_tier_of h v)) (heap_dict h l) in
      let '(r, h1) := heap_alloc h (dict_of_list entries) in (Ok (VDict r), h1)
  | _ => (Raise (type_error "generate_progress_report expects a dict"), h)
  end.

Definition ref_attr (m : string) : attr :=
  if String.eqb m "register_user" then AttrMethod ["fitness_data"; "user_name"] ref_register
  else if String.eqb m "log_workout" then
    AttrMethod ["fitness_data"; "user_name"; "calories_burned"] ref_log_workout
  else if String.eqb m "calculate_average_calories" then
    AttrMethod ["fitness_data"; "user_name"] ref_average
  else if String.eqb m "generate_progress_report" then
    AttrMethod ["fitness_data"] ref_report
  else AttrMissing.

Definition ref_class : tracker_class := {|
  tc_init := fun h => let '(l, h1) := heap_alloc h [] in (Ok (VDict l), h1);
  tc_attr := ref_attr
|}.

Definition ref_module : student_module := {|
  sm_exec := fun h => (Ok (), h);
  sm_tracker := Some ref_class
|}.

(** A module that defines no [FitnessTracker]. *)
Definition empty_module : student_module := {|
  sm_exec := fun h => (Ok (), h);
  sm_tracker := None
|}.

(** The reference class without a [log_workout] method. *)
Definition no_log_class : tracker_class := {|
  tc_init := tc_init ref_class;
  tc_attr := fun m => if String.eqb m "log_workout" then AttrMissing else ref_attr m
|}.

(** The reference class whose [register_user] calls [sys.exit()]. *)
Definition exit_class : tracker_class := {|
  tc_init := tc_init ref_class;
  tc_attr := fun m =>
    if String.eqb m "register_user" then
      AttrMethod ["fitness_data"; "user_name"] (fun _ h => (Raise (mkExn "SystemExit" ""), h))
    else ref_attr m
|}.

Definition exit_module : student_module := {|
  sm_exec := fun h => (Ok (), h);
  sm_tracker := Some exit_class
|}.

(** [register_user] that stores only [{'workouts': 0}] in the caller's
    dict and returns a new dict holding the full record:
    [fitness_data[u] = {'workouts': 0};
     return {u: {'workouts': 0, 'calories': 0, 'status': 'Inactive'}}] *)
Definition partial_register : method_body := fun args h =>
  match args with
  | [_; VDict l; VStr u] =>
      let '(p, h1) := heap_alloc h [("workouts", VInt 0)] in
      let h2 := heap_update h1 l (dict_set (heap_dict h1 l) u (VDict p)) in
      let '(r, h3) := heap_alloc h2 (dict_of_list (user_record 0 0 "Inactive")) in
      let '(res, h4) := heap_alloc h3 [(u, VDict r)] in
      (Ok (VDict res), h4)
  | _ => (Raise (type_error "register_user expects a dict and a str"), h)
  end.

(** [log_workout] that leaves the caller's dict alone and returns a new
    one: [rec = fitness_data[u]; return {u: {'workouts': rec['workouts'] +
    1, 'calories': rec['calories'] + c, 'status': rec['status']}}] *)
Definition copying_log_workout : method_body := fun args h =>
  match args with
  | [_; VDict l; VStr u; VInt c] =>
      match dict_lookup (heap_dict h l) u with
      | Some (VDict r) =>
          let d := heap_dict h r in
          match dict_lookup d "workouts", dict_lookup d "calories", dict_lookup d "status" with
          | Some (VInt wk), Some (VInt cal), Some st =>
              let '(r', h1) := heap_alloc h
                 [("workouts", VInt (wk + 1)); ("calories", VInt (cal + c)); ("status", st)] in
              let '(res, h2) := heap_alloc h1 [(u, VDict r')] in
              (Ok (VDict res), h2)
          | _, _, _ => (Raise (type_error "malformed user record"), h)
          end
      | _ => (Raise (value_error "User not found"), h)
      end
  | _ => (Raise (type_error "log_workout expects a dict, a str and an int"), h)
  end.

(** [log_workout] that updates the record in place but forgets to
    return the dataset (it returns [None]). *)
Definition in_place_log_workout : method_body := fun args h =>
  match ref_log_workout args h with
  | (Ok _, h') => (Ok VNone, h')
  | r => r
  end.

Definition with_method (m : string) (ps : list string) (body : method_body) : tracker_class := {|
  tc_init := tc_init ref_class;
  tc_attr := fun m' => if String.eqb m' m then AttrMethod ps body else ref_attr m'
|}.

(** A module whose [register_user] raises [ValueError('invalid\nname')]:
    the message spans two lines. *)
Definition newline_module : student_module := {|
  sm_exec := fun h => (Ok (), h);
  sm_tracker := Some (with_method "register_user" ["fitness_data"; "user_name"]
    (fun _ h => (Raise (value_error ("invalid" ++ nl ++ "name")), h)))
|}.

(** A module whose class has the four methods, with no parameters, each
    returning [None] without touching any object. *)
Definition quiet_class : tracker_class := {|
  tc_init := tc_init ref_class;
  tc_attr := fun _ => AttrMethod [] (fun _ h => (Ok VNone, h))
|}.

Definition quiet_module : student_module := {|
  sm_exec := fun h => (Ok (), h);
  sm_tracker := Some quiet_class
|}.

(** A module whose class binds [log_workout] to an integer: the
    attribute exists but is not callable. *)
Definition value_attr_module : student_module := {|
  sm_exec := fun h => (Ok (), h);
  sm_tracker := Some {|
    tc_init := tc_init ref_class;
    tc_attr := fun m => if String.eqb m "log_workout" then AttrValue (VInt 0) else ref_attr m
  |}
|}.

(** For the witnesses: floats printed as a ratio. *)
#[export] Instance ratio_repr : FloatRepr :=
  fun q => z_repr (Qnum q) ++ "/" ++ z_repr (Zpos (Qden q)).

(** Raw draws giving the names [Rfdsqa], [Jmxkwb], [Cqetuz]. *)
Definition draws_distinct : list Z :=
  [17; 5; 3; 18; 16; 0;  9; 12; 23; 10; 22; 1;  2; 16; 4; 19; 20; 25;
   250; 300;  3; 600; 4; 800;  1; 2; 3; 4; 5]%Z.

(** The same draws, except that the second name repeats the first. *)
Definition draws_collision : list Z :=
  [17; 5; 3; 18; 16; 0;  17; 5; 3; 18; 16; 0;  2; 16; 4; 19; 20; 25;
   250; 300;  3; 600; 4; 800;  1; 2; 3; 4; 5]%Z.

Ltac in_solve := repeat (first [left; reflexivity | right]).

(** ** The reference class meets the contract *)

Lemma tier_meets_spec (cal : Z) : tier_spec cal (tier cal).
Proof. unfold tier_spec, tier. repeat split; intros; repeat case_bool_decide; done || lia. Qed.

Lemma ref_register_law : register_law ref_register.
Proof.
  intros self h l d u Hwf Hl. unfold ref_register.
  destruct (heap_alloc h _) as [r h1] eqn:E.
  destruct (alloc_facts _ _ _ _ E Hwf (dict_wf_of_list _)) as (Hr & Hwf1 & Hold).
  destruct (Hold _ _ Hl) as [Hl1 Hne].
  rewrite (heap_dict_pts _ _ _ Hl1).
  assert (Hrec : rec_at (heap_update h1 l (dict_set d u (VDict r))) l u
                   (dict_of_list (user_record 0 0 "Inactive"))).
  { exists (dict_set d u (VDict r)), r. split; [apply pts_update_same; by exists d|].
    split; [apply dict_lookup_set_same|]. by apply pts_update_other. }
  exists (heap_update h1 l (dict_set d u (VDict r))), l,
    (dict_of_list (user_record 0 0 "Inactive")), (dict_of_list (user_record 0 0 "Inactive")).
  split; [reflexivity|]. split.
  - apply (heap_wf_update _ _ _ _ Hwf1 Hl1), dict_wf_set, (pts_dict_wf _ _ _ Hwf Hl).
  - repeat split; exact Hrec.
Qed.

Lemma ref_log_law : log_law ref_log_workout.
Proof.
  intros self h l u c rec wk cal Hwf (d & r & Hl & Hu & Hr) Hwk Hcal.
  unfold ref_log_workout.
  rewrite (heap_dict_pts _ _ _ Hl), Hu, (heap_dict_pts _ _ _ Hr), Hwk, Hcal.
  set (rec' := dict_set (dict_set rec "workouts" (VInt (wk + 1))) "calories" (VInt (cal + c))).
  exists (heap_update h r rec'), l, rec'. split; [reflexivity|]. split.
  { eapply heap_wf_update; [exact Hwf | exact Hr |].
    apply dict_wf_set, dict_wf_set, (pts_dict_wf _ _ _ Hwf Hr). }
  split; [|unfold rec'; rewrite dict_lookup_set_other by discriminate;
           split; apply dict_lookup_set_same].
  destruct (decide (l = r)) as [->|Hne].
  - (* [fitness_data] is its own user record: the update is seen through it *)
    pose proof (pts_functional _ _ _ _ Hl Hr) as ->.
    exists rec', r. split; [apply pts_update_same; by exists rec|].
    split; [|apply pts_update_same; by exists rec].
    unfold rec'. rewrite !dict_lookup_set_other; [exact Hu | congruence..].
  - exists d, r. split; [by apply pts_update_other|]. split; [exact Hu|].
    apply pts_update_same. by exists rec.
Qed.

Lemma ref_log_absent_law : log_absent_law ref_log_workout.
Proof.
  intros self h l d u c Hwf Hl Hu. unfold ref_log_workout.
  rewrite (heap_dict_pts _ _ _ Hl), Hu. eexists _, h. auto.
Qed.

Lemma ref_average_law : average_law ref_average.
Proof.
  intros self h l u rec wk cal Hwf (d & r & Hl & Hu & Hr) Hwk Hcal Hpos.
  unfold ref_average. rewrite (heap_dict_pts _ _ _ Hl), Hu, (heap_dict_pts _ _ _ Hr), Hwk, Hcal.
  rewrite bool_decide_false by lia.
  eexists _, _, h. split; [reflexivity|]. split; [done|]. split; [reflexivity|].
  match goal with |- (Qabs (?q - _) < _)%Q =>
    assert (Hz : (q - q == 0)%Q) by ring; rewrite Hz end.
  reflexivity.
Qed.

Lemma ref_report_law : report_law ref_report.
Proof.
  intros self h l d Hwf Hl. unfold ref_report. rewrite (heap_dict_pts _ _ _ Hl).
  pose proof (dict_wf_map (ref_tier_of h) d (pts_dict_wf _ _ _ Hwf Hl)) as Hd.
  destruct (heap_alloc h _) as [r h1] eqn:E.
  destruct (alloc_facts _ _ _ _ E Hwf (dict_wf_of_list _)) as (Hr & Hwf1 & _).
  eexists h1, r, _. split; [reflexivity|]. split; [done|]. split; [exact Hr|].
  intros u rec cal (d0 & r0 & Hl0 & Hu0 & Hr0) Hcal.
  pose proof (pts_functional _ _ _ _ Hl Hl0) as <-.
  rewrite (dict_of_list_id _ Hd), dict_lookup_map, Hu0. simpl.
  rewrite (heap_dict_pts _ _ _ Hr0), Hcal. eexists. split; [reflexivity | apply tier_meets_spec].
Qed.

Lemma ref_init_total : total_law (tc_init ref_class).
Proof.
  intros h Hwf. unfold ref_class. cbn [tc_init]. destruct (heap_alloc h []) as [l h1] eqn:E.
  destruct (alloc_facts _ _ _ _ E Hwf (dict_wf_of_list [])) as (_ & Hwf1 & _). eauto.
Qed.

Lemma ref_exec_total : total_law (sm_exec ref_module).
Proof. intros h Hwf. simpl. eauto. Qed.

(** Every method of the reference class returns or raises an
    [Exception]. *)
Lemma ref_class_safe : class_safe ref_class.
Proof.
  intros m ps body Ha args h. cbn [ref_class tc_attr] in Ha. unfold ref_attr in Ha.
  repeat (destruct (String.eqb _ _); [injection Ha as _ <-|]); [..|discriminate].
  all: cbv beta zeta delta [ref_register ref_log_workout ref_average ref_report]; repeat case_match;
    first [left; by eauto | right; do 2 eexists; split; reflexivity].
Qed.

Ltac ref_contract :=
  split; [exact ref_init_total | ..]; eexists; (split; [reflexivity|]);
    auto using ref_register_law, ref_log_law, ref_log_absent_law, ref_average_law,
      ref_report_law.

(** Refinement: the reference class, written from the contract table
    of spec section 6, meets the interface [class_contract] that the
    completeness theorem of the harness assumes. *)
Theorem ref_class_contract : class_contract ref_class.
Proof. ref_contract. Qed.

Definition all_pass_report : string :=
  py_join nl (map pass_line [TC1; TC2; TC3; HTC1; HTC2]) ++ nl.

(** ** Runs on concrete inputs *)

(** With three distinct drawn names, the reference candidate passes
    all five test cases: the report is the five pass lines. *)
Example reference_run_distinct :
  w_report (test_student_code ref_module (world0 draws_distinct)).2 = Some all_pass_report.
Proof. vm_compute. reflexivity. Qed.

(** The three user names are drawn independently (lines 55-57) and may
    coincide.  When the second equals the first, the dict display of HTC1
    (lines 170-174) keeps one entry for both, and the reference candidate,
    which classifies correctly, fails HTC1 with this exact line, while the
    other four cases pass. *)
Example reference_run_collision :
  w_report (test_student_code ref_module (world0 draws_collision)).2 =
  Some (py_join nl
    [pass_line TC1; pass_line TC2; pass_line TC3;
     fail_line HTC1 ("Incorrect classification. Expected {'Rfdsqa': 'Beginner', "
       ++ "'Rfdsqa': 'Intermediate', 'Cqetuz': 'Advanced'} but got "
       ++ "{'Rfdsqa': 'Intermediate', 'Cqetuz': 'Advanced'}");
     pass_line HTC2] ++ nl).
Proof. vm_compute. reflexivity. Qed.

(** The spec asks for one text line per test case (sections 4.8
    and 6), but a failure line carries [str(e)] verbatim (line 98): when
    the candidate's exception message contains a newline, the report read
    back with [split('\n')] has six lines (and the final empty piece)
    for five test cases. *)
Example report_newline_in_reason :
  option_map (fun text => length (split_nl text))
    (w_report (test_student_code newline_module (world0 draws_distinct)).2) = Some 7.
Proof. vm_compute. reflexivity. Qed.

Lemma report_lines_roundtrip_witness :
  [pass_line TC1; pass_line HTC2] <> [] /\
  Forall (fun l => has_nl l = false) [pass_line TC1; pass_line HTC2] /\
  exists text, w_report (write_report [pass_line TC1; pass_line HTC2] (world0 [])).2 = Some text /\
    split_nl text = app [pass_line TC1; pass_line HTC2] [""].
Proof.
  assert (Hne : [pass_line TC1; pass_line HTC2] <> []) by discriminate.
  assert (Hall : Forall (fun l => has_nl l = false) [pass_line TC1; pass_line HTC2])
    by (repeat constructor).
  split; [exact Hne|]. split; [exact Hall|].
  exact (report_lines_roundtrip _ (world0 []) Hne Hall).
Defined.

Lemma report_one_line_per_case_witness :
  let w' := (test_student_code ref_module (world0 draws_distinct)).2 in
  test_student_code ref_module (world0 draws_distinct) = (Ok (), w') /\
  exists lines, w_report w' = Some (py_join nl lines ++ nl) /\
    ((sm_tracker ref_module = None /\ lines = [missing_class_line] /\
      w_stdout w' = w_stdout (world0 draws_distinct)) \/
     (exists cls, sm_tracker ref_module = Some cls /\
        Forall2 line_of_case [TC1; TC2; TC3; HTC1; HTC2] lines /\
        w_stdout w' = app (w_stdout (world0 draws_distinct)) [py_join nl lines ++ nl])).
Proof.
  intros w'. split; [vm_compute; reflexivity|].
  apply report_one_line_per_case. vm_compute. reflexivity.
Defined.

Lemma htc2_passes_on_signature_failure_witness :
  signature_failures no_log_class (world0 []) =
    (Ok ["log_workout (method missing)"], world0 []) /\
  htc2 (VDict 1) no_log_class ["log_workout (method missing)"] (world0 []) =
    (Ok (pass_line HTC2), world0 []).
Proof.
  split; [vm_compute; reflexivity|].
  apply (htc2_passes_on_signature_failure _ _ (world0 []) (world0 []));
    [vm_compute; reflexivity | vm_compute; discriminate].
Defined.

Lemma signature_guard_own_witness :
  signature_guard "log_workout" ["log_workout (method missing)"] (world0 []) =
    (Raise (type_error "Signature mismatch for log_workout: log_workout (method missing)"),
     world0 []).
Proof.
  apply (signature_guard_own no_log_class (world0 []) (world0 []) (world0 [])
           ["log_workout (method missing)"] "log_workout"
           ["fitness_data"; "user_name"; "calories_burned"]);
    [vm_compute; reflexivity | unfold expected_signatures; set_solver].
Defined.

Lemma aborted_run_leaves_no_report_witness :
  let w := mkWorld heap_empty draws_distinct [] (Some "old report") [] in
  let run := test_student_code exit_module w in
  run = (Raise (mkExn "SystemExit" ""), run.2) /\
  (Raise (mkExn "SystemExit" "") : outcome exn ()) <> Ok () /\
  w_report run.2 = None.
Proof.
  intros w run. assert (Hrun : run = (Raise (mkExn "SystemExit" ""), run.2)).
  { vm_compute. reflexivity. }
  split; [exact Hrun|]. split; [discriminate|].
  apply (aborted_run_leaves_no_report exit_module w run.2 (Raise (mkExn "SystemExit" ""))).
  - exact Hrun.
  - discriminate.
Defined.

(** TC1 checks the caller's dict only for [workouts == 0] (line 84):
    a [register_user] that stores [{'workouts': 0}] in the caller's dict
    and returns a complete record in a new dict passes TC1, although the
    caller's record has neither [calories] nor [status]. *)
Example tc1_accepts_partial_record :
  let cls := with_method "register_user" ["fitness_data"; "user_name"] partial_register in
  let run := tc1 (VDict 1) cls [] "Rfdsqa" "Jmxkwb" (world0 []) in
  run.1 = Ok (pass_line TC1) /\
  heap_dict (w_heap run.2) 1 = [("Rfdsqa", VDict 2)] /\
  heap_dict (w_heap run.2) 2 = [("workouts", VInt 0)].
Proof. vm_compute. auto. Qed.

(** TC2 reads only the returned dict (lines 111-121): a [log_workout]
    that returns an updated copy and leaves the caller's dict untouched
    passes TC2, while the caller's record still has [workouts = 0]. *)
Example tc2_accepts_copying_log_workout :
  let cls := with_method "log_workout" ["fitness_data"; "user_name"; "calories_burned"]
               copying_log_workout in
  let run := tc2 (VDict 1) cls [] "Rfdsqa" "Jmxkwb" 250 300 (world0 []) in
  run.1 = Ok (pass_line TC2) /\
  heap_dict (w_heap run.2) 1 = user_record 0 0 "Inactive".
Proof. vm_compute. auto. Qed.

Lemma tc2_non_dict_result_reason_witness :
  let cls := with_method "log_workout" ["fitness_data"; "user_name"; "calories_burned"]
               in_place_log_workout in
  exists w', tc2 (VDict 1) cls [] "Rfdsqa" "Jmxkwb" 250 300 (world0 []) =
    (Ok (fail_line TC2 "'NoneType' object has no attribute 'get'"), w').
Proof.
  intros cls. eexists.
  apply (tc2_non_dict_result_reason (VDict 1) cls [] "Rfdsqa" "Jmxkwb" 250 300 (world0 [])
           ["fitness_data"; "user_name"; "calories_burned"] in_place_log_workout VNone);
    reflexivity.
Defined.

Lemma tc1_candidate_exception_witness :
  let body : method_body := fun _ h => (Raise (value_error "boom"), h) in
  let cls := with_method "register_user" ["fitness_data"; "user_name"] body in
  tc1 (VDict 1) cls [] "Rfdsqa" "Jmxkwb" (world0 []) =
    (Ok (fail_line TC1 "boom"),
     set_heap (heap_alloc heap_empty (dict_of_list [])).2
       (add_call "register_user" (set_heap (heap_alloc heap_empty (dict_of_list [])).2 (world0 [])))).
Proof.
  intros body cls.
  apply (tc1_candidate_exception (VDict 1) cls [] "Rfdsqa" "Jmxkwb" (world0 [])
           ["fitness_data"; "user_name"] body (value_error "boom")); reflexivity.
Defined.

Lemma tc3_check_floor_division_witness :
  (2 <= 3 <= 5)%Z /\ (500 <= 500 <= 1000)%Z /\
  py_abs_diff_lt (VInt (500 / 3)) (inject_Z 500 / inject_Z 3) tolerance (world0 []) =
    (Ok false, world0 []).
Proof.
  split; [lia|]. split; [lia|].
  apply (tc3_check_floor_division 500 3 (world0 [])); lia.
Defined.

Lemma harness_complete_witness :
  sm_tracker ref_module = Some ref_class /\ heap_wf (w_heap (world0 draws_distinct)) /\
  exists user1 user2 user3 reason w',
    (drawn_names (rng_world (w_rng (world0 draws_distinct)))).1 = Ok (user1, user2, user3) /\
    test_student_code ref_module (world0 draws_distinct) = (Ok (), w') /\
    let text := py_join nl [pass_line TC1; pass_line TC2; pass_line TC3;
      if bool_decide (NoDup [user1; user2; user3]) then pass_line HTC1
      else fail_line HTC1 reason; pass_line HTC2] ++ nl in
    w_report w' = Some text /\ w_stdout w' = app (w_stdout (world0 draws_distinct)) [text] /\
    w_calls w' = app (w_calls (world0 draws_distinct)) ["register_user"; "register_user";
      "log_workout"; "log_workout"; "calculate_average_calories"; "calculate_average_calories";
      "generate_progress_report"; "log_workout"].
Proof.
  split; [reflexivity|]. split; [apply heap_wf_empty|].
  apply (harness_complete ref_module ref_class);
    [reflexivity | apply ref_exec_total | ref_contract | apply heap_wf_empty].
Defined.

Lemma htc1_pass_distinct_witness :
  htc1 (VDict 1) ref_class [] "Rfdsqa" "Jmxkwb" "Cqetuz" (world0 []) =
    (Ok (pass_line HTC1), (htc1 (VDict 1) ref_class [] "Rfdsqa" "Jmxkwb" "Cqetuz" (world0 [])).2) /\
  htc1_certificate (VDict 1) ref_class [] "Rfdsqa" "Jmxkwb" "Cqetuz" (w_heap (world0 [])) /\
  NoDup ["Rfdsqa"; "Jmxkwb"; "Cqetuz"].
Proof.
  assert (Hr : htc1 (VDict 1) ref_class [] "Rfdsqa" "Jmxkwb" "Cqetuz" (world0 []) =
    (Ok (pass_line HTC1), (htc1 (VDict 1) ref_class [] "Rfdsqa" "Jmxkwb" "Cqetuz" (world0 [])).2))
    by (vm_compute; reflexivity).
  split; [exact Hr | exact (htc1_pass_distinct _ _ _ _ _ _ _ _ Hr)].
Defined.

Lemma tc1_sound_witness :
  tc1 (VDict 1) ref_class [] "Rfdsqa" "Jmxkwb" (world0 []) =
    (Ok (pass_line TC1), (tc1 (VDict 1) ref_class [] "Rfdsqa" "Jmxkwb" (world0 [])).2) /\
  tc1_certificate (VDict 1) ref_class [] "Rfdsqa" "Jmxkwb" (w_heap (world0 [])).
Proof.
  assert (Hr : tc1 (VDict 1) ref_class [] "Rfdsqa" "Jmxkwb" (world0 []) =
    (Ok (pass_line TC1), (tc1 (VDict 1) ref_class [] "Rfdsqa" "Jmxkwb" (world0 [])).2))
    by (vm_compute; reflexivity).
  split; [exact Hr | exact (tc1_sound _ _ _ _ _ _ _ Hr)].
Defined.

Lemma tc2_sound_witness :
  tc2 (VDict 1) ref_class [] "Rfdsqa" "Jmxkwb" 250 300 (world0 []) =
    (Ok (pass_line TC2), (tc2 (VDict 1) ref_class [] "Rfdsqa" "Jmxkwb" 250 300 (world0 [])).2) /\
  tc2_certificate (VDict 1) ref_class [] "Rfdsqa" "Jmxkwb" 250 300 (w_heap (world0 [])).
Proof.
  assert (Hr : tc2 (VDict 1) ref_class [] "Rfdsqa" "Jmxkwb" 250 300 (world0 []) =
    (Ok (pass_line TC2), (tc2 (VDict 1) ref_class [] "Rfdsqa" "Jmxkwb" 250 300 (world0 [])).2))
    by (vm_compute; reflexivity).
  split; [exact Hr | exact (tc2_sound _ _ _ _ _ _ _ _ _ Hr)].
Defined.

Lemma tc3_sound_witness :
  tc3 (VDict 1) ref_class [] "Jmxkwb" "Cqetuz" (world0 []) =
    (Ok (pass_line TC3), (tc3 (VDict 1) ref_class [] "Jmxkwb" "Cqetuz" (world0 [])).2) /\
  tc3_certificate (VDict 1) ref_class [] "Jmxkwb" "Cqetuz" (w_heap (world0 [])).
Proof.
  assert (Hr : tc3 (VDict 1) ref_class [] "Jmxkwb" "Cqetuz" (world0 []) =
    (Ok (pass_line TC3), (tc3 (VDict 1) ref_class [] "Jmxkwb" "Cqetuz" (world0 [])).2))
    by (vm_compute; reflexivity).
  split; [exact Hr | exact (tc3_sound _ _ _ _ _ _ _ Hr)].
Defined.

Lemma htc2_sound_witness :
  htc2 (VDict 1) ref_class [] (world0 []) =
    (Ok (pass_line HTC2), (htc2 (VDict 1) ref_class [] (world0 [])).2) /\
  htc2_certificate (VDict 1) ref_class [] (w_heap (world0 [])).
Proof.
  assert (Hr : htc2 (VDict 1) ref_class [] (world0 []) =
    (Ok (pass_line HTC2), (htc2 (VDict 1) ref_class [] (world0 [])).2))
    by (vm_compute; reflexivity).
  split; [exact Hr | exact (htc2_sound _ _ _ _ _ Hr)].
Defined.

Lemma harness_completes_witness :
  exists w', test_student_code ref_module (world0 draws_distinct) = (Ok (), w').
Proof.
  apply harness_completes.
  - intros h. simpl. eauto.
  - intros cls [= <-]. split; [|split; [reflexivity | exact ref_class_safe]].
    intros h. unfold ref_class. cbn [tc_init]. destruct (heap_alloc h []). eauto.
Defined.

Lemma signature_value_aborts_witness :
  exists e w', test_student_code value_attr_module (world0 draws_distinct) = (Raise e, w') /\
    exn_type e = "TypeError" /\ w_report w' = None /\
    w_stdout w' = w_stdout (world0 draws_distinct).
Proof.
  apply (signature_value_aborts value_attr_module _ _ eq_refl).
  - intros h. simpl. eauto.
  - intros h. cbn [tc_init ref_class]. destruct (heap_alloc h []). eauto.
  - reflexivity.
Defined.

Lemma sig_failure_text_roundtrip_witness :
  sig_failure (AttrMethod ["data"; "name"] ref_register) "register_user"
      ["fitness_data"; "user_name"] =
    Some "register_user (expected ['fitness_data', 'user_name'], got ['data', 'name'])" /\
  read_sig_failure "register_user"
      "register_user (expected ['fitness_data', 'user_name'], got ['data', 'name'])" =
    Some (["fitness_data"; "user_name"], ["data"; "name"]).
Proof.
  split; [reflexivity|].
  apply (sig_failure_text_roundtrip (AttrMethod ["data"; "name"] ref_register)). reflexivity.
Defined.

(** The constructor of [ref_class] allocates an empty dict: it keeps the
    heap closed and returns a well-typed reference. *)
Lemma ref_init_closed : code_closed (fun h v => val_ok h v) (tc_init ref_class).
Proof.
  intros h o h' Hc E.
  assert (E' : (o, h') = (Ok (VDict (heap_alloc h []).1), (heap_alloc h []).2))
    by (rewrite <- E; reflexivity).
  injection E' as -> ->. split; [apply heap_closed_alloc; [done | constructor]|]. split; [apply heap_le_alloc|].
  intros a [= <-]. apply val_ok_alloc.
Qed.

Ltac closed_err E := injection E as <- <-; split; [done|]; split; [reflexivity | by intros ? ?].

(** Allocating a record of literals keeps the heap closed. *)
Lemma closed_alloc_record h (d : dict) r h1 :
  heap_closed h -> dict_ok h d -> heap_alloc h d = (r, h1) ->
  heap_closed h1 /\ heap_le h h1 /\ val_ok h1 (VDict r).
Proof.
  intros Hc Hd E. pose proof (heap_closed_alloc h d Hc Hd) as C. pose proof (heap_le_alloc h d) as L.
  pose proof (val_ok_alloc h d) as V. rewrite E in C, L, V. auto.
Qed.

Lemma dict_ok_tiers h h0 (d : dict) :
  dict_ok h0 (dict_of_list (map (fun '(u, v) => (u, ref_tier_of h v)) d)).
Proof.
  apply dict_ok_of_list. induction d as [|[u v] d IH]; simpl; constructor; [|done].
  cbn. unfold ref_tier_of. repeat case_match; exact I.
Qed.

(** The reference class keeps the heap closed: [register_user] stores a
    fresh record in the caller's dict, [log_workout] stores integers in
    an existing record, [generate_progress_report] builds a dict of
    strings. *)
Lemma ref_class_closed : class_closed ref_class.
Proof.
  split; [exact ref_init_closed|].
  intros m ps body Ha. cbn [ref_class tc_attr] in Ha. unfold ref_attr in Ha.
  repeat (destruct (String.eqb _ _); [injection Ha as _ <-|]); [..|discriminate].
  all: intros args h o h' Hc Hargs E.
  all: cbv beta zeta delta [ref_register ref_log_workout ref_average ref_report] in E.
  all: repeat case_match; subst; try closed_err E.
  - (* register_user *)
    apply Forall_cons in Hargs as [_ Hargs]. apply Forall_cons in Hargs as [Hl _].
    assert (Hd : dict_ok h (dict_of_list (user_record 0 0 "Inactive")))
      by (apply dict_ok_of_list; forall_ok).
    match goal with Ha : heap_alloc _ _ = _ |- _ =>
      destruct (closed_alloc_record _ _ _ _ Hc Hd Ha) as (Hc0 & Hle0 & Hp) end.
    injection E as <- <-. pose proof (Hle0 _ Hl) as Hl0.
    split; [apply heap_closed_update; [done | done | apply dict_ok_set; [by apply dict_ok_heap_dict | done]]|].
    split; [etrans; [exact Hle0 | by apply heap_le_update]|].
    intros v0 [= <-]. exact (heap_le_update _ _ _ Hl0 _ Hl0).
  - (* log_workout *)
    apply Forall_cons in Hargs as [_ Hargs]. apply Forall_cons in Hargs as [Hl _].
    match goal with Hu : dict_lookup (heap_dict h _) _ = Some (VDict ?r) |- _ =>
      pose proof (dict_ok_lookup _ _ _ _ (dict_ok_heap_dict _ _ Hc) Hu) as Hr end.
    injection E as <- <-.
    split; [apply heap_closed_update; [done | done | repeat apply dict_ok_set; [by apply dict_ok_heap_dict | done | done]]|].
    split; [by apply heap_le_update|].
    intros v0 [= <-]. exact (heap_le_update _ _ _ Hr _ Hl).
  - (* calculate_average_calories *)
    injection E as <- <-. split; [done|]. split; [reflexivity|]. by intros v0 [= <-].
  - (* generate_progress_report *)
    match goal with Ha : heap_alloc _ _ = _ |- _ =>
      destruct (closed_alloc_record _ _ _ _ Hc (dict_ok_tiers _ _ _) Ha) as (Hc0 & Hle0 & Hp) end.
    injection E as <- <-. split; [done|]. split; [done|]. by intros v0 [= <-].
Qed.

