(* ===== verification/AntiCheat.v ===== *)
(** * AntiCheat: what the randomised fixtures rule out

    Spec sections 2 and 4.5 say that each case repeats its check with
    fresh random values so that hard-coded answers fail.  TC3 (lines
    132-157) draws a workout count in [2, 5] and a calorie total in
    [500, 1000] twice and compares the candidate's answer with each
    quotient within [tolerance].  This file shows what that excludes: a
    [calculate_average_calories] that returns a constant passes TC3 only
    when the two drawn quotients are within twice the tolerance, and it
    does pass on distinct draws whose quotients coincide
    ([600 / 2 = 900 / 3]).  Likewise for TC2 (a fixed amount) and TC1
    (a [register_user] that ignores the name). *)

From Stdlib Require Import QArith Qabs Lqa Ascii String.
From stdpp Require Import base list strings gmap.
From S2P Require Import Prelude PyCore Random Candidate TestCases Soundness Reference.

Open Scope string_scope.

(** A candidate class whose [calculate_average_calories] ignores its
    arguments and returns [v]. *)
Definition constant_average_class (v : value) : tracker_class :=
  with_method "calculate_average_calories" ["fitness_data"; "user_name"] (fun _ h => (Ok v, h)).

(** A candidate class whose [log_workout] adds a fixed amount [k] to the
    calories, whatever amount it is given. *)
Definition fixed_amount_class (k : Z) : tracker_class :=
  with_method "log_workout" ["fitness_data"; "user_name"; "calories_burned"]
    (fun args h => match args with
                   | [s; d; u; _] => ref_log_workout [s; d; u; VInt k] h
                   | _ => ref_log_workout args h
                   end).

(** Two rationals within [t] of a third are within [2 t] of each other. *)
Lemma Qabs_close_trans (q a b t : Q) :
  (Qabs (q - a) < t)%Q -> (Qabs (q - b) < t)%Q -> (Qabs (a - b) < 2 * t)%Q.
Proof. rewrite !Qabs_Qlt_condition. lra. Qed.

Section Constant.
Context `{RandomSource R} `{FloatRepr}.

(** A draw kept by [invert_run], read off the random state alone. *)
Lemma drew_rng_world (a b x : Z) (w : world R) (r : R) :
  drew a b w x (set_rng r w) -> randint a b (rng_world (w_rng w)) = (Ok x, rng_world r).
Proof. apply rng_only_world, rng_only_randint. Qed.

(** C19. Anti-cheat bound of TC3: when [calculate_average_calories]
    returns the same value [v] whatever its input, a pass of TC3 implies
    that the four draws TC3 makes from the random state it starts in
    (lines 136-137 and 145-146: [wc], [tc], [wc2], [tc2]) give quotients
    [tc / wc] and [tc2 / wc2] within [2 * tolerance] = 0.02 of each other;
    on every other random state the constant answer is caught. *)
Theorem tc3_constant_answer (self : value) (cls : tracker_class) (fs : list string)
    (user2 user3 : string) (ps : list string) (body : method_body) (v : value)
    (w w' : world R) :
  tc_attr cls "calculate_average_calories" = AttrMethod ps body ->
  (forall args h, body args h = (Ok v, h)) ->
  tc3 self cls fs user2 user3 w = (Ok (pass_line TC3), w') ->
  exists wc tc wc2 tc2 r1 r2 r3 r4,
    randint 2 5 (rng_world (w_rng w)) = (Ok wc, rng_world r1) /\
    randint 500 1000 (rng_world r1) = (Ok tc, rng_world r2) /\
    randint 2 5 (rng_world r2) = (Ok wc2, rng_world r3) /\
    randint 500 1000 (rng_world r3) = (Ok tc2, rng_world r4) /\
    (Qabs (inject_Z tc / inject_Z wc - inject_Z tc2 / inject_Z wc2) < 2 * tolerance)%Q.
Proof.
  intros Ha Hb Hr. apply inv_run_case_pass in Hr. unfold tc3_body in Hr. invert_run.
  apply drew_rng_world in Hdraw, Hdraw0, Hdraw1, Hdraw2.
  cbn [w_rng set_rng set_heap add_call] in Hdraw, Hdraw0, Hdraw1, Hdraw2.
  do 8 eexists. split; [exact Hdraw|]. split; [exact Hdraw0|].
  split; [exact Hdraw1|]. split; [exact Hdraw2|].
  rewrite Hb in H3, H8. simplify_eq.
  eapply Qabs_close_trans; eassumption.
Qed.
End Constant.

(** The draws of TC3 that give the fixtures [(wc, tc) = (2, 600)] and
    [(wc2, tc2) = (3, 900)]: [randint(2, 5)] and [randint(500, 1000)]
    read [2 + 0] and [500 + 100], then [2 + 1] and [500 + 400]. *)
Definition tc3_equal_quotient_draws : list Z := [0; 100; 1; 400]%Z.

(** The randomisation of TC3 does not catch a constant answer: the
    class that always answers [300.0] passes TC3 on the distinct draws
    (2 workouts, 600 calories) and (3 workouts, 900 calories), whose
    quotients coincide. *)
Theorem tc3_constant_passes_distinct_draws :
  tc3 (VDict 1) (constant_average_class (VFloat 300)) [] "Jmxkwb" "Cqetuz"
      (world0 tc3_equal_quotient_draws) =
    (Ok (pass_line TC3), (tc3 (VDict 1) (constant_average_class (VFloat 300)) [] "Jmxkwb"
                            "Cqetuz" (world0 tc3_equal_quotient_draws)).2).
Proof. vm_compute. reflexivity. Qed.

Lemma tc3_constant_answer_witness :
  exists wc tc wc2 tc2 r1 r2 r3 r4,
    randint 2 5 (rng_world (w_rng (world0 tc3_equal_quotient_draws))) = (Ok wc, rng_world r1) /\
    randint 500 1000 (rng_world r1) = (Ok tc, rng_world r2) /\
    randint 2 5 (rng_world r2) = (Ok wc2, rng_world r3) /\
    randint 500 1000 (rng_world r3) = (Ok tc2, rng_world r4) /\
    (Qabs (inject_Z tc / inject_Z wc - inject_Z tc2 / inject_Z wc2) < 2 * tolerance)%Q.
Proof.
  assert (Hr : tc3 (VDict 1) (constant_average_class (VFloat 300)) [] "Jmxkwb" "Cqetuz"
      (world0 tc3_equal_quotient_draws) =
    (Ok (pass_line TC3), (tc3 (VDict 1) (constant_average_class (VFloat 300)) [] "Jmxkwb"
                            "Cqetuz" (world0 tc3_equal_quotient_draws)).2))
    by (vm_compute; reflexivity).
  apply (tc3_constant_answer (VDict 1) (constant_average_class (VFloat 300)) [] "Jmxkwb" "Cqetuz"
           ["fitness_data"; "user_name"] (fun _ h => (Ok (VFloat 300), h)) (VFloat 300) _ _
           eq_refl (fun _ _ => eq_refl) Hr).
Defined.

(** TC2 (lines 106-126) catches a [log_workout] that adds a fixed
    250 calories only when the two drawn amounts differ: with the amounts
    250 and 300 it fails, with 250 and 250 it passes.  The amounts of
    lines 60-61 are drawn independently, so the repetition that spec
    section 4.4 requires to use a different amount can repeat the first. *)
Theorem tc2_fixed_amount_needs_distinct_draws :
  tc2 (VDict 1) (fixed_amount_class 250) [] "Rfdsqa" "Jmxkwb" 250 250 (world0 []) =
    (Ok (pass_line TC2),
     (tc2 (VDict 1) (fixed_amount_class 250) [] "Rfdsqa" "Jmxkwb" 250 250 (world0 [])).2) /\
  tc2 (VDict 1) (fixed_amount_class 250) [] "Rfdsqa" "Jmxkwb" 250 300 (world0 []) =
    (Ok (fail_line TC2 "Doesn't handle different calorie values correctly"),
     (tc2 (VDict 1) (fixed_amount_class 250) [] "Rfdsqa" "Jmxkwb" 250 300 (world0 [])).2).
Proof. split; vm_compute; reflexivity. Qed.

(** ** Hard-coded user names in TC1 *)

(** A [register_user] that cannot tell two user names apart: given the
    same receiver, dataset and heap, it does the same whatever name it
    receives. *)
Definition name_blind (body : method_body) : Prop :=
  forall self d u u' h, body [self; d; VStr u] h = body [self; d; VStr u'] h.

(** A class whose [register_user] always registers the name [k]. *)
Definition fixed_name_class (k : string) : tracker_class :=
  with_method "register_user" ["fitness_data"; "user_name"]
    (fun args h => match args with
                   | [s; d; VStr _] => ref_register [s; d; VStr k] h
                   | _ => ref_register args h
                   end).

Section Names.
Context `{RandomSource R} `{FloatRepr}.

(** C18. Anti-cheat of TC1 (lines 64-98): a [register_user] that ignores
    the user name passes TC1 only when the drawn names are among the keys
    its output already holds when it is given a blank name: the first
    name must be a key of the dict it returns for the empty dataset, the
    second a key (or a substring) of its second result.  Those outputs
    are fixed before [random_username] draws the names, so such a
    candidate must guess them. *)
Theorem tc1_name_blind (self : value) (cls : tracker_class) (fs : list string)
    (user1 user2 : string) (ps : list string) (body : method_body) (w w' : world R) :
  tc_attr cls "register_user" = AttrMethod ps body -> name_blind body ->
  tc1 self cls fs user1 user2 w = (Ok (pass_line TC1), w') ->
  let a := heap_alloc (w_heap w) [] in
  exists l h1,
    body [self; VDict a.1; VStr ""] a.2 = (Ok (VDict l), h1) /\
    is_Some (dict_lookup (heap_dict h1 l) user1) /\
    exists res2 h2,
      body [self; VDict (heap_alloc h1 []).1; VStr ""] (heap_alloc h1 []).2 = (Ok res2, h2) /\
      has_key h2 res2 user2.
Proof.
  intros Ha Hb Hr%tc1_sound.
  destruct Hr as (_ & ps' & body' & res & h1 & res2 & h2 & Ha' & E1 & _ & Hw & _ & _ & _ & E2 & Hk & _).
  rewrite Ha in Ha'. injection Ha' as <- <-. destruct Hw as (lv & l & -> & Hl & _).
  exists lv, h1. rewrite (Hb _ _ "" user1). split; [done|]. split; [by rewrite Hl|].
  exists res2, h2. by rewrite (Hb _ _ "" user2).
Qed.
End Names.

Lemma tc1_name_blind_witness :
  exists l h1,
    (fun args h => match args with
                   | [s; d; VStr _] => ref_register [s; d; VStr "Rfdsqa"] h
                   | _ => ref_register args h
                   end) [VDict 1; VDict (heap_alloc (w_heap (world0 [])) []).1; VStr ""]
      (heap_alloc (w_heap (world0 [])) []).2 = (Ok (VDict l), h1) /\
    is_Some (dict_lookup (heap_dict h1 l) "Rfdsqa") /\
    exists res2 h2,
      (fun args h => match args with
                     | [s; d; VStr _] => ref_register [s; d; VStr "Rfdsqa"] h
                     | _ => ref_register args h
                     end) [VDict 1; VDict (heap_alloc h1 []).1; VStr ""] (heap_alloc h1 []).2
        = (Ok res2, h2) /\ has_key h2 res2 "Rfdsqa".
Proof.
  assert (Hr : tc1 (VDict 1) (fixed_name_class "Rfdsqa") [] "Rfdsqa" "Rfdsqa" (world0 []) =
    (Ok (pass_line TC1), (tc1 (VDict 1) (fixed_name_class "Rfdsqa") [] "Rfdsqa" "Rfdsqa"
                            (world0 [])).2)) by (vm_compute; reflexivity).
  exact (tc1_name_blind (VDict 1) (fixed_name_class "Rfdsqa") [] "Rfdsqa" "Rfdsqa"
           ["fitness_data"; "user_name"] _ (world0 []) _ eq_refl (fun _ _ _ _ _ => eq_refl) Hr).
Defined.
