(* ===== verification/Isolation.v ===== *)
(** * Isolation: the five test cases share one tracker object

    Spec section 5 says that no mutable state is shared across test
    cases but the result list and the signature failures.  The code
    creates one [FitnessTracker()] (line 26) and passes it as [self] to
    every call of every case, so a candidate that keeps state in its
    instance carries it from one case to the next.  [stateful_class]
    has a [log_workout] that raises for an absent user, as spec 4.7
    asks, until it has once logged a workout; then it ignores absent
    users.  On a fresh instance HTC2 passes; in a run of the harness,
    after TC2 has logged its workouts on the same instance, HTC2 fails. *)

From Stdlib Require Import QArith Ascii String.
From stdpp Require Import base list strings gmap.
From S2P Require Import Prelude PyCore Random Candidate TestCases Driver Reference.

Open Scope string_scope.

(** [log_workout] that records in [self] that it has logged a workout,
    and once it has, returns the dataset unchanged for an absent user. *)
Definition stateful_log_workout : method_body := fun args h =>
  match args with
  | [VDict s; VDict l; VStr u; VInt c] =>
      match dict_lookup (heap_dict h l) u with
      | None =>
          if bool_decide (is_Some (dict_lookup (heap_dict h s) "logged")) then (Ok (VDict l), h)
          else ref_log_workout args h
      | Some _ =>
          let '(o, h1) := ref_log_workout args h in
          (o, heap_update h1 s (dict_set (heap_dict h1 s) "logged" (VBool true)))
      end
  | _ => ref_log_workout args h
  end.

Definition stateful_class : tracker_class :=
  with_method "log_workout" ["fitness_data"; "user_name"; "calories_burned"] stateful_log_workout.

Definition stateful_module : student_module := {|
  sm_exec := fun h => (Ok (), h);
  sm_tracker := Some stateful_class
|}.

(** The run up to HTC2 on a fresh instance. *)
Definition htc2_on_fresh_tracker : PyM (list Z) string :=
  tracker ← lift_heap (tc_init stateful_class); htc2 tracker stateful_class [].

(** The test cases are not isolated: the same candidate passes
    HTC2 when it runs on a fresh [FitnessTracker()] and fails it in the
    harness, where TC2 has first logged workouts on the shared instance
    (line 26); the verdict of a case depends on the calls of the cases
    before it. *)
Theorem shared_tracker_changes_htc2 :
  (htc2_on_fresh_tracker (world0 draws_distinct)).1 = Ok (pass_line HTC2) /\
  w_report (test_student_code stateful_module (world0 draws_distinct)).2 =
    Some (py_join nl [pass_line TC1; pass_line TC2; pass_line TC3; pass_line HTC1;
                      fail_line HTC2 "Expected exception for non-existent user"] ++ nl).
Proof. split; vm_compute; reflexivity. Qed.
